(* ===== verification/_CoqProject ===== *)
-Q . S2P
Prelude.v
Pytest.v
Numerics.v
NumericsImpl.v
NumPy.v
InverseArea.v
CoveredArea.v
PatchOptimizer.v
AdamsPatchDemo.v
Trapezoid.v
Mean.v
Hypothesis.v
NumPyFloat.v
PyMultiply.v
Csv.v
PyFloat.v
DocTest.v
Doctests.v
PandasFixtures.v
PytestSolutionsMain.v
TestAdamsPatch.v
AdamsPatchTests.v
