(* ===== verification/Prelude.v ===== *)
(** * A verification library for the scipy_testing repository

    The repository is a teaching collection.  Its one multi-step program is
    Adam's Patch ([src/adams_patch/adams_patch.py]).  It places [npatches]
    patches of equal area under a curve [f] on [[xmin, xmax]], separated by
    strips of width [w], and finds the patch area that covers the whole
    area.  Four functions make up the pipeline.  [optimize_patch_area]
    root-finds ([brentq]) the patch area.  Each root-finding step calls
    [compute_covered_area], which walks the interval.  The walk inverts the
    cumulative area with [inverse_area_under_curve] /
    [compute_inverse_function_value] (another [brentq]), and the cumulative
    area is [area_under_curve] (scipy's [quad]).  Its [__main__] block
    solves one problem and plots it, and [test_adams_patch.py] tests the
    four functions.  The other files are tutorials, each with its tests:
    two trapezoidal-rule integrators, [mean] with five hypothesis tests,
    [multiply], doctest and pytest examples, and a pytest fixture that
    round-trips a pandas frame through a CSV file.

    ** Files, in dependency order

    - [Prelude] (this file): Python's exceptions [exn] and the result type
      [res] of a call that may raise, with [let*] in [py_scope].  Also the
      [outcome] of a test case, [pytest.raises], the [pyres] hint database,
      the [inv_res], [qcase], [split_and] and [qcompute] tactics, and the
      shared lemmas on [qsum], [inject_Z] and division in [Q].
    - [Pytest]: pytest's session as [pytest.main] runs it.  Each item's
      [outcome] gives a verdict.  The counters give the exit code
      ([pytest.ExitCode]) and the summary line ([1 failed, 2 passed]).
    - [Numerics]: the interfaces of the two scipy primitives, as type
      classes with laws.  [Quadrature] has [quad] with additivity and
      lower/upper bounds.  [RootFinder] has [brentq]: it raises [ValueError]
      exactly when the end values have the same strict sign, otherwise it
      returns a point within [xtol] of a sign change, and it never raises
      anything else.  Everything about Adam's Patch is proved against
      these interfaces.
    - [NumericsImpl]: executable instances that discharge the interfaces.
      Simpson's rule is exact on cubics, so [Integrable] means cubic.
      Bisection stops when the bracket is [tol] wide.  Its fuel
      [bisect_fuel = 1 + log2_up((b - a) / tol)] halvings is proved to be
      enough, so bisection never runs out of fuel.  [bisection_1e8]
      uses [tol = 1e-8].
    - [NumPy]: [linspace], [ndarray.max], the slices [y[:-1]]/[y[1:]],
      [np.diff], and elementwise [+], [*] and [/] on lists of rationals.
    - [InverseArea]: [area_under_curve], [compute_inverse_function_value],
      [inverse_area_under_curve] and [area_fun] (adams_patch.py 29-62, 71).
    - [CoveredArea]: [compute_covered_area] (65-81).  Its loop body is
      [covered_step] and the loop is [covered_loop], run [npatches - 1]
      times.  An abstract layout is the step relation [place_separator] /
      [layout_steps], with invariant [layout_inv].
    - [PatchOptimizer]: [optimize_patch_area] with its guard, the
      [npatches = 0] short cut, [f_max] sampled on [linspace(.., 100)], the
      bracket [area_patch_min * 0.9, area_patch_max * 1.1], and [target]
      (84-105).  Also the [__main__] problem ([main_solve]).
    - [AdamsPatchDemo]: the plot of the [__main__] block (108-159), as the
      list of matplotlib calls it makes ([plot_cmd]).  numpy's random
      draws are an input ([draws]).
    - [Trapezoid]: [integrate_using_trapezoidal_rule]
      ([src/doctest/solutions.py]) and [integrate]
      ([src/pytest/solutions.py]) in exact arithmetic.  The reference sum
      [trapezoid_ref] carries a [Proper] instance for pointwise-equal
      integrands.
    - [Mean]: [mean], and per file of [src/hypothesis/] a module
      [IntroMean0] to [IntroMean4] with that file's [mean], [test_mean],
      strategy and decorated test.  They work over a class [PyNum] with an
      exact instance ([Q]) and a binary64 instance ([PrimFloat]).
    - [Hypothesis]: hypothesis's search for a decorated test
      ([hypothesis_run]).  It runs the explicit examples, then the lists
      the engine draws (an input), and the first failure wins.  It raises
      [Unsatisfiable] when [assume] rejects every draw.  Also the
      [__main__] block [pytest.main([__file__])] of each
      [intro_mean_K.py] ([IntroMeanKMain.main]).
    - [NumPyFloat]: the trapezoid functions and [test_integrate] in IEEE
      binary64, with numpy 1.x's [linspace] and its pairwise [np.sum].
      The pairwise sum is generic in [PyNum] and equals the plain sum
      over [Q].
    - [PyMultiply]: Python's [*] on ints, strings, lists and tuples
      ([pyval], [py_mul]) and [Intro1Multiply.multiply]
      ([src/doctest/intro_1_multiply.py]), as CPython 3.11 on a 64-bit
      build computes it, error paths included.  A repeat count that
      does not fit [Py_ssize_t] raises [OverflowError]; so does a string
      or int result that is too long.  A result larger than CPython can
      allocate raises [MemoryError].  So does a result larger than the
      memory available, a parameter [avail] of the model.
    - [Csv]: the CSV text that pandas writes and reads: [write_rows]
      quotes as [csv.QUOTE_MINIMAL] does, and the tokenizer [lex] is a
      state machine ([lex_step] on [lex_acc]) with pandas' states.
    - [PyFloat]: ['{:.4f}'.format] and [repr] of floats (the shortest
      round-tripping digits), from the exact value of the float.
    - [DocTest]: CPython's doctest: the docstring parser (a line state
      machine for [_EXAMPLE_RE], with its checks and option directives),
      [OutputChecker.check_output] with [ELLIPSIS] and
      [NORMALIZE_WHITESPACE], the runner and [testmod].  How an example's
      source executes is a parameter ([interp]).
    - [Doctests]: the dict, format and exception tutorials
      ([src/doctest/solutions.py], [src/pytest/solutions.py],
      [src/pytest/test_exception.py]), and [fancy_plot] (one [Axes] with
      one line).  Also the docstrings of [intro_1_multiply.py] and
      [solutions.py] as text, with what their example sources execute
      ([Intro1Doctests], [SolutionsDoctests]), and the [doctest.testmod()]
      of each module's [__main__] block.  The output of [solutions.py]'s
      examples depends on the library versions ([environment]).  numpy 2
      prints float64 scalars as [np.float64(...)].  matplotlib has three
      forms of [repr] for an [Axes] ([axes_repr]).
    - [PandasFixtures]: [create_df], [create_data] and
      [test_with_tmpdir_fixture] of [src/pytest/solutions.py].  They use
      pandas' [DataFrame], [to_csv(index=None)], [read_csv] (dtype
      inference, NA values, renaming of duplicate names) and
      [assert_frame_equal] on a file system threaded as an association
      list.
    - [PytestSolutionsMain]: the [__main__] block [pytest.main([__file__])]
      of [src/pytest/solutions.py]: the four items pytest collects
      ([collect]) run through the session of [Pytest].
    - [TestAdamsPatch]: every test of [test_adams_patch.py] as a
      definition returning its [outcome], and [test_suite], the cases
      pytest collects.
    - [AdamsPatchTests]: the witnesses of the Adam's Patch theorems, on
      the executable instances.

    ** Theorem groups

    - Adam's Patch:
      - The constraint check, exactly when the solver raises.
      - The [npatches = 0] short cut.
      - The bracket's signs.
      - What the solver returns.
      - That it always raises for twelve patches or more.  This is a bug:
        the widened upper end [1.1 * T / n] is below the true patch area
        once [n >= 12].
      - The refinement of [compute_covered_area] into the abstract
        layout, with its invariant and termination.  Also two-sided
        bounds on the covered area: [k + 1] patches plus [k] separators
        of area between [w * m] and [w * M] when [m <= f <= M].
      - When the inverse raises, and the round trip of the inverse.
      - The whole pytest suite passes, its regression value
        [2.608058909292573] included, for every quadrature exact on
        quadratics and every root finder with [xtol <= 1e-7].
      - The demo plot draws every flower between the curves, and its
        legend names the separators once.
    - Trapezoid:
      - The two implementations are equal, and numpy's pairwise [np.sum]
        is the plain sum over [Q].
      - The rule is exact on affine integrands.
      - Additivity, and bounds on ascending grids.
      - In binary64 both [test_integrate] cases pass their exact [==].
    - Mean:
      - In exact arithmetic every [test_mean] passes on nonempty lists.
      - In binary64, the counterexamples of each strategy, including
        [intro_mean_4]'s own.
      - No exception escapes except [min]'s [ValueError].
      - Refinement: each file's [pytest.main] passes on every draw
        sequence [assume] does not starve exactly when the decorated
        property holds.  Each of them fails on the draws that contain
        its counterexample, and fails with [Unsatisfiable] when [assume]
        rejects every draw.
    - multiply: the doctests' products are the same for any memory of
      at least 64 bytes ([doctest_products_memory]).  The doctest runs
      take [machine_avail].
    - Doctests:
      - [testmod] on [intro_1_multiply] fails one example of three: the
        expected [42] carries trailing spaces.
      - Every docstring of [solutions.py] passes under numpy 1 and
        matplotlib 3.3, at every address of the axes.  [testmod] fails
        two examples under numpy 2 and one under matplotlib 3.4 or later.
    - Dicts: sorted items do not depend on insertion order.  Also the float
      format and the pytest exception tests.  [pytest.main] on
      [src/pytest/solutions.py] exits 0 with [4 passed].
    - Pandas fixture:
      - [read_csv] after [to_csv] gives the frame back, on frames with
        distinct names and int64 columns.
      - The fixture test passes.
      - Every frame read is well formed.
      - The renaming loop terminates.
      - The int64/uint64 boundaries.

    ** What is modelled and how

    - Floats of the Adam's Patch code are exact rationals [Q].  The scipy
      primitives are their contracts, so the theorems hold for any
      quadrature and root finder meeting them.
    - The numeric tests run on the instances; their tolerances ([1e-8]
      for the root, [1e-5] for the regression value) are those of the
      repository's tests.  Float literals of the tests are read as the
      rationals they denote.
    - The hypothesis tests are modelled twice: in [Q], and in IEEE
      binary64, where [vm_compute] evaluates them exactly.  Python's [sum]
      is the left-to-right fold of CPython before 3.12.  Its compensated
      summation since 3.12 gives the same results on the counterexamples
      used.
    - [repr] of a numpy float64 is Python's [repr] under numpy 1.x and
      [np.float64(...)] under numpy 2.  [repr] of an [Axes] follows
      matplotlib's version.  Both are inputs of the doctest run
      ([environment]), as are the object's address, the random draws of
      numpy and hypothesis, [tmpdir] and the file system.
    - Loops that are not structural carry fuel, each with a lemma that the
      fuel is enough or irrelevant: bisection ([bisect_converges]),
      pandas' renaming loop ([dedup_loop_done]) and numpy's pairwise sum
      ([pairwise_sum_fuel_irrelevant]).  The doctest helpers
      [scan_directives] and [split_on] take the length of their text,
      and every step consumes a character.
    - Not modelled:
      - The rendering of the plots (matplotlib draws pixels; the model
        keeps the calls and the objects they return).
      - The imports, module docstrings, comments and blank lines of the
        sources, and the timing pytest adds to its summary line.  They
        are all that the map leaves out.  Every statement of [src/]
        that computes something, every test, and every [__main__] block
        has its definition.
      - hypothesis's shrinking, which changes which failing example is
        reported but not whether the test fails, and its health checks
        on slow or heavily filtered draws.
      - The parts of pytest, hypothesis and doctest that the repository's
        files do not reach: plugins, command-line options and reporting
        formats. *)

From Stdlib Require Import QArith Qminmax Lqa ZArith Lia List String DecimalString.
Import ListNotations.

(** ** Python's exceptions and the result of a call that may raise *)

(** The exceptions the modelled code raises or lets propagate, each with
    the message Python attaches to it. *)
Inductive exn : Type :=
| ValueError (msg : string)
| ZeroDivisionError (msg : string)
| TypeError (msg : string)
| RuntimeError (msg : string)
| FileNotFoundError (msg : string)
| NameError (msg : string)
| Unsatisfiable (msg : string)
| MemoryError (msg : string)
| OverflowError (msg : string).

(** A Python call either returns a value or raises; nothing else is
    observable in this repository (no I/O reaches the modelled code). *)
Inductive res (A : Type) : Type :=
| Ok (a : A)
| Err (e : exn).
Arguments Ok {A} a.
Arguments Err {A} e.

(** The result of running one test case: it passed, an [assert] failed,
    an exception escaped, [pytest.raises] saw no exception, or
    hypothesis' [assume] skipped the example. *)
Inductive outcome : Type :=
| Passed
| AssertionFailed
| Raised (e : exn)
| DidNotRaise
| Skipped.

(** A test run passes or is skipped. *)
Definition test_ok (o : outcome) : bool :=
  match o with Passed | Skipped => true | _ => false end.

(** [str(n)] for a natural number. *)
Definition str_of_nat (n : nat) : string := NilZero.string_of_uint (Nat.to_uint n).

Definition bind {A B : Type} (m : res A) (k : A -> res B) : res B :=
  match m with
  | Ok a => k a
  | Err e => Err e
  end.

Definition is_ok {A : Type} (m : res A) : bool :=
  match m with Ok _ => true | Err _ => false end.

(** [with pytest.raises(Kind) as excinfo: body] then [after(excinfo.value)]. *)
Definition pytest_raises {A : Type} (kind : exn -> bool) (body : res A)
    (after : exn -> outcome) : outcome :=
  match body with
  | Ok _ => DidNotRaise
  | Err e => if kind e then after e else Raised e
  end.

Definition is_value_error (e : exn) : bool :=
  match e with ValueError _ => true | _ => false end.

(** The class name of an exception. *)
Definition exn_name (e : exn) : string :=
  match e with
  | ValueError _ => "ValueError"
  | ZeroDivisionError _ => "ZeroDivisionError"
  | TypeError _ => "TypeError"
  | RuntimeError _ => "RuntimeError"
  | FileNotFoundError _ => "FileNotFoundError"
  | NameError _ => "NameError"
  | Unsatisfiable _ => "hypothesis.errors.Unsatisfiable"
  | MemoryError _ => "MemoryError"
  | OverflowError _ => "OverflowError"
  end.

(** [str(e)] and [e.args[0]] for an exception raised with one argument. *)
Definition exn_arg (e : exn) : string :=
  match e with
  | ValueError m | ZeroDivisionError m | TypeError m | RuntimeError m | FileNotFoundError m
  | NameError m | Unsatisfiable m | MemoryError m | OverflowError m => m
  end.

Declare Scope py_scope.
Delimit Scope py_scope with py.

Notation "'let*' x ':=' m 'in' k" := (bind m (fun x => k))
  (at level 61, x name, m at next level, right associativity,
   format "'[' 'let*'  x  ':='  m  'in' ']' '/' k") : py_scope.
Notation "'let*' ' p ':=' m 'in' k" := (bind m (fun p => k))
  (at level 61, p pattern, m at next level, right associativity) : py_scope.

Open Scope py_scope.

(** ** The result monad: inversion lemmas *)

Lemma bind_Ok_iff {A B} (m : res A) (k : A -> res B) (b : B) :
  bind m k = Ok b <-> exists a, m = Ok a /\ k a = Ok b.
Proof.
  destruct m as [a|e]; simpl; split.
  - eauto.
  - intros (a' & [= ->] & H); exact H.
  - discriminate.
  - intros (a' & H & _); discriminate.
Qed.

Lemma bind_Err_iff {A B} (m : res A) (k : A -> res B) (e : exn) :
  bind m k = Err e <-> m = Err e \/ exists a, m = Ok a /\ k a = Err e.
Proof.
  destruct m as [a|e']; simpl; split; intros H.
  - eauto.
  - destruct H as [H | (a' & H1 & H2)]; [discriminate | injection H1 as ->; exact H2].
  - injection H as ->. auto.
  - destruct H as [H | (a' & H & _)]; [injection H as ->; reflexivity | discriminate].
Qed.

Lemma bind_Ok_l {A B} (a : A) (k : A -> res B) : bind (Ok a) k = k a.
Proof. reflexivity. Qed.

Lemma bind_Err_l {A B} (e : exn) (k : A -> res B) : bind (Err e) k = Err e.
Proof. reflexivity. Qed.

Create HintDb pyres.
Create Rewrite HintDb pyres.
#[export] Hint Rewrite @bind_Ok_l @bind_Err_l : pyres.

(** [inv_res] splits every hypothesis [bind m k = Ok b] into its two
    calls, and every [Ok a = Ok b] into [a = b]. *)
Ltac inv_res :=
  repeat match goal with
  | H : bind ?m ?k = Ok ?b |- _ =>
      let a := fresh "a" in let Hm := fresh "Hm" in
      apply bind_Ok_iff in H; destruct H as (a & Hm & H)
  | H : Ok _ = Ok _ |- _ => let E := fresh "E" in injection H as E; subst
  | H : Err _ = Ok _ |- _ => discriminate H
  | H : Ok _ = Err _ |- _ => discriminate H
  end.

(** ** Boolean comparisons on Q, as the code's [if] tests them *)

Open Scope Q_scope.

Lemma Qle_bool_spec (x y : Q) : BoolSpec (x <= y) (y < x) (Qle_bool x y).
Proof.
  destruct (Qle_bool x y) eqn:E; constructor.
  - now apply Qle_bool_iff.
  - apply Qnot_le_lt. intros H. apply Qle_bool_iff in H. congruence.
Qed.

Lemma Qeq_bool_spec (x y : Q) : BoolSpec (x == y) (~ x == y) (Qeq_bool x y).
Proof.
  destruct (Qeq_bool x y) eqn:E; constructor.
  - now apply Qeq_bool_iff.
  - intros H. apply Qeq_bool_iff in H. congruence.
Qed.

(** [qcase] case-splits on the first boolean comparison of rationals in
    the goal, leaving its meaning as a hypothesis. *)
Ltac qcase :=
  match goal with
  | |- context [Qle_bool ?x ?y] =>
      let Hq := fresh "Hq" in destruct (Qle_bool_spec x y) as [Hq|Hq]; cbv beta match
  | |- context [Qeq_bool ?x ?y] =>
      let Hq := fresh "Hq" in destruct (Qeq_bool_spec x y) as [Hq|Hq]; cbv beta match
  end.

(** ** Sums of rationals (Python's [sum] and numpy's [.sum()] on exact numbers) *)

Definition qsum (l : list Q) : Q := fold_right Qplus 0 l.

Lemma qsum_app (l1 l2 : list Q) : qsum (l1 ++ l2) == qsum l1 + qsum l2.
Proof.
  induction l1 as [|x l1 IH]; simpl.
  - ring.
  - rewrite IH. ring.
Qed.

Lemma qsum_le_bound (l : list Q) (c : Q) :
  Forall (fun x => x <= c) l -> qsum l <= inject_Z (Z.of_nat (List.length l)) * c.
Proof.
  unfold qsum; induction 1 as [|x l Hx _ IH]; cbn [fold_right List.length].
  - change (inject_Z (Z.of_nat 0)) with 0. lra.
  - rewrite Nat2Z.inj_succ, <- Z.add_1_l, inject_Z_plus.
    change (inject_Z 1) with 1. lra.
Qed.

Lemma qsum_ge_bound (l : list Q) (c : Q) :
  Forall (fun x => c <= x) l -> inject_Z (Z.of_nat (List.length l)) * c <= qsum l.
Proof.
  unfold qsum; induction 1 as [|x l Hx _ IH]; cbn [fold_right List.length].
  - change (inject_Z (Z.of_nat 0)) with 0. lra.
  - rewrite Nat2Z.inj_succ, <- Z.add_1_l, inject_Z_plus.
    change (inject_Z 1) with 1. lra.
Qed.

Lemma fold_left_Qplus (l : list Q) (s : Q) : fold_left Qplus l s == s + qsum l.
Proof.
  revert s. induction l as [|x l IH]; intros s; simpl; [ring|]. rewrite IH. ring.
Qed.

Lemma qsum_nonneg (l : list Q) : Forall (fun x => 0 <= x) l -> 0 <= qsum l.
Proof. induction 1; simpl; lra. Qed.

#[export] Hint Resolve qsum_nonneg : pyres.

(** [inject_Z] and [Z.to_nat], as Python's [int] meets exact arithmetic. *)
Lemma inject_Z_to_nat (n : Z) :
  (0 <= n)%Z -> inject_Z (Z.of_nat (Z.to_nat n)) == inject_Z n.
Proof. intros H. rewrite Z2Nat.id by exact H. reflexivity. Qed.

Lemma inject_Z_pos (z : Z) : (0 < z)%Z -> 0 < inject_Z z.
Proof. intros H. change 0 with (inject_Z 0). now rewrite <- Zlt_Qlt. Qed.

Lemma inject_Z_nonneg (z : Z) : (0 <= z)%Z -> 0 <= inject_Z z.
Proof. intros H. change 0 with (inject_Z 0). now rewrite <- Zle_Qle. Qed.

#[export] Hint Resolve inject_Z_pos inject_Z_nonneg : pyres.

Lemma Qdiv_le_mono_pos (a b c : Q) : 0 < c -> a <= b -> a / c <= b / c.
Proof.
  intros Hc Hab. unfold Qdiv. apply Qmult_le_compat_r; [exact Hab|].
  apply Qinv_le_0_compat. lra.
Qed.

Lemma Qdiv_nonneg (a c : Q) : 0 < c -> 0 <= a -> 0 <= a / c.
Proof. intros Hc Ha. apply Qle_shift_div_l; lra. Qed.

Lemma Qmult_le_compat_l_nonneg (x y z : Q) : 0 <= z -> x <= y -> z * x <= z * y.
Proof.
  intros Hz Hxy. rewrite (Qmult_comm z x), (Qmult_comm z y).
  now apply Qmult_le_compat_r.
Qed.

(** [split_and] splits conjunctions only (never an existential). *)
Ltac split_and := repeat match goal with |- _ /\ _ => split end.

Lemma inject_Z_succ (n : nat) :
  inject_Z (Z.of_nat (S n)) == inject_Z (Z.of_nat n) + 1.
Proof. rewrite Nat2Z.inj_succ, <- Z.add_1_r, inject_Z_plus. reflexivity. Qed.

Lemma inject_Z_sub (a b : Z) : inject_Z (a - b) == inject_Z a - inject_Z b.
Proof. unfold Z.sub. rewrite inject_Z_plus, inject_Z_opp. reflexivity. Qed.

(** ** Strings *)

Lemma string_length_append (s1 s2 : string) :
  String.length (s1 ++ s2) = (String.length s1 + String.length s2)%nat.
Proof. induction s1 as [|c s1 IH]; cbn; [reflexivity | now rewrite IH]. Qed.

Lemma string_app_assoc (s1 s2 s3 : string) : ((s1 ++ s2) ++ s3)%string = (s1 ++ (s2 ++ s3))%string.
Proof. induction s1 as [|c s1 IH]; cbn; [reflexivity | now rewrite IH]. Qed.

Lemma substring_length_self (s : string) : substring 0 (String.length s) s = s.
Proof. induction s as [|c s IH]; cbn; [reflexivity | now rewrite IH]. Qed.

(** [(s1 + s2)[:len(s1)] == s1] and [(s1 + s2)[len(s1):] == s2]. *)
Lemma substring_app_l (s1 s2 : string) (n : nat) :
  substring 0 (String.length s1) (s1 ++ s2) = s1 /\
  substring (String.length s1) n (s1 ++ s2) = substring 0 n s2.
Proof.
  induction s1 as [|c s1 IH]; cbn.
  - split; [destruct s2 | ]; reflexivity.
  - destruct IH as [IH1 IH2]. now rewrite IH1, IH2.
Qed.

(** [qcompute] decides a closed (in)equation between rationals, or an
    equation between results, by evaluation. *)
Ltac qcompute :=
  vm_compute;
  first [ reflexivity | let H := fresh in intros H; discriminate H | discriminate ].
