(* ===== verification/Pytest.v ===== *)
(** * A pytest session

    [pytest.main([__file__])], which the [__main__] blocks of the
    hypothesis tutorials and of [src/pytest/solutions.py] call, collects
    the module's test items, runs them in collection order and returns an
    exit code ([pytest.ExitCode]).  It also prints a summary line such as
    [1 failed, 2 passed].  pytest is a library the sources only call, so
    this file models its documented behaviour
    ([_pytest/main.py: _main], [_pytest/terminal.py:
    build_summary_stats_line]).  It is not code of the repository.  An item
    is its node id with the [outcome] of its run.  A passed or skipped item
    is not a failure; anything else (an assertion, an escaped exception,
    [DidNotRaise]) fails the item. *)

From Stdlib Require Import List String Bool Arith Lia.
From S2P Require Import Prelude.
Import ListNotations.

(** pytest's verdict on one item. *)
Inductive verdict := VPassed | VFailed | VSkipped.

Definition verdict_of (o : outcome) : verdict :=
  match o with Passed => VPassed | Skipped => VSkipped | _ => VFailed end.

(** A test item: its node id and the outcome of running it. *)
Definition item : Type := string * outcome.

(** [pytest.ExitCode]. *)
Inductive exit_code :=
| OK | TESTS_FAILED | INTERRUPTED | INTERNAL_ERROR | USAGE_ERROR | NO_TESTS_COLLECTED.

Definition exit_code_value (c : exit_code) : nat :=
  match c with
  | OK => 0 | TESTS_FAILED => 1 | INTERRUPTED => 2 | INTERNAL_ERROR => 3
  | USAGE_ERROR => 4 | NO_TESTS_COLLECTED => 5
  end.

Record summary := mk_summary { n_failed : nat; n_passed : nat; n_skipped : nat }.

Definition count (s : summary) (v : verdict) : summary :=
  match v with
  | VFailed => mk_summary (S s.(n_failed)) s.(n_passed) s.(n_skipped)
  | VPassed => mk_summary s.(n_failed) (S s.(n_passed)) s.(n_skipped)
  | VSkipped => mk_summary s.(n_failed) s.(n_passed) (S s.(n_skipped))
  end.

(** The session's counters, item by item in collection order. *)
Definition tally (items : list item) : summary :=
  fold_left (fun s (it : item) => count s (verdict_of (snd it))) items (mk_summary 0 0 0).

(** [_main]: [TESTS_FAILED] if any item failed, else
    [NO_TESTS_COLLECTED] if there was none, else [OK]. *)
Definition session_exit (items : list item) : exit_code :=
  if Nat.ltb 0 (tally items).(n_failed) then TESTS_FAILED
  else match items with [] => NO_TESTS_COLLECTED | _ => OK end.

(** [build_summary_stats_line], without the duration: the non-zero counts
    in the order failed, passed, skipped, or [no tests ran]. *)
Definition summary_line (s : summary) : string :=
  let part n key := if Nat.eqb n 0 then [] else [(str_of_nat n ++ " " ++ key)%string] in
  match List.app (part s.(n_failed) "failed"%string)
          (List.app (part s.(n_passed) "passed"%string) (part s.(n_skipped) "skipped"%string)) with
  | [] => "no tests ran"%string
  | parts => String.concat ", "%string parts
  end.

(** [pytest.main(args)]: the exit code it returns and the summary line it
    prints last. *)
Definition pytest_main (items : list item) : exit_code * string :=
  (session_exit items, summary_line (tally items)).

(** ** Lemmas *)

Lemma verdict_of_failed (o : outcome) : verdict_of o = VFailed <-> test_ok o = false.
Proof. destruct o; cbn; split; congruence. Qed.

Lemma tally_acc (items : list item) (s : summary) :
  fold_left (fun s (it : item) => count s (verdict_of (snd it))) items s =
  mk_summary (s.(n_failed) + (tally items).(n_failed)) (s.(n_passed) + (tally items).(n_passed))
             (s.(n_skipped) + (tally items).(n_skipped)).
Proof.
  unfold tally. revert s. induction items as [|[n o] items IH]; intros [f p k]; cbn.
  - f_equal; lia.
  - rewrite (IH (count _ _)), (IH (count (mk_summary 0 0 0) _)).
    destruct (verdict_of o); cbn; f_equal; lia.
Qed.

Lemma tally_cons (n : string) (o : outcome) (items : list item) :
  tally ((n, o) :: items) = count (tally items) (verdict_of o).
Proof.
  unfold tally at 1. cbn [fold_left snd]. rewrite tally_acc.
  destruct (tally items) as [f p k]. destruct (verdict_of o); cbn; f_equal; lia.
Qed.

Lemma tally_failed (items : list item) :
  (tally items).(n_failed) = List.length (filter (fun it => negb (test_ok (snd it))) items).
Proof.
  induction items as [|[n o] items IH]; [reflexivity|].
  rewrite tally_cons. cbn [filter snd].
  destruct o; cbn; rewrite ?IH; reflexivity.
Qed.

Lemma filter_length_pos {A : Type} (f : A -> bool) (l : list A) :
  0 < List.length (filter f l) <-> existsb f l = true.
Proof.
  induction l as [|x l IH]; cbn; [split; [lia | discriminate]|].
  destruct (f x); cbn; [split; [reflexivity | lia] | exact IH].
Qed.

(** The exit code is [OK] exactly when some item was collected and none
    failed, [TESTS_FAILED] exactly when one failed, and
    [NO_TESTS_COLLECTED] exactly when none was collected; no other code
    comes from running the items. *)
Lemma session_exit_failed (items : list item) :
  session_exit items = TESTS_FAILED <-> existsb (fun it => negb (test_ok (snd it))) items = true.
Proof.
  unfold session_exit. rewrite <- filter_length_pos, <- tally_failed.
  destruct (Nat.ltb_spec 0 (tally items).(n_failed)); [tauto|].
  destruct items; split; (discriminate || lia).
Qed.

Lemma session_exit_not_failed (items : list item) :
  existsb (fun it => negb (test_ok (snd it))) items = false ->
  session_exit items = match items with [] => NO_TESTS_COLLECTED | _ => OK end.
Proof.
  intros H. unfold session_exit. rewrite <- Bool.not_true_iff_false, <- filter_length_pos,
    <- tally_failed in H.
  destruct (Nat.ltb_spec 0 (tally items).(n_failed)); [lia | reflexivity].
Qed.
