(* ===== verification/Numerics.v ===== *)
(** * The numerical primitives the solver calls: contracts of [quad] and [brentq]

    [src/adams_patch/adams_patch.py] imports [scipy.integrate.quad] and
    [scipy.optimize.brentq]; neither is code of this repository.  They are
    stated here as type classes whose fields are the operations and whose
    laws are the promises the solver relies on:

    - [Quadrature]: [quad f a b] is the integral of [f] over [a, b] for every
      function of the class [Integrable] (the spec's "continuous and
      integrable width function"): it is additive in the interval and
      bounded by the bounds of [f] times the width.
    - [RootFinder]: [brentq g a b] evaluates [g a] and [g b] first,
      propagates an exception raised by [g], raises [ValueError] when
      [g a * g b > 0], and otherwise returns a point within [xtol] of a
      sign change of [g] inside [a, b]; it converges whenever [g] can be
      evaluated all over [a, b].

    The solver's theorems are proved against these classes only;
    [NumericsImpl] gives instances (Simpson's rule, bisection) on which the
    solver runs. *)

From Stdlib Require Import QArith Qminmax Lqa ZArith List String.
From S2P Require Import Prelude.
Import ListNotations.
Open Scope Q_scope.
Open Scope py_scope.

(** The message scipy's [brentq] raises when the bracket has no sign change. *)
Definition brentq_sign_msg : string := "f(a) and f(b) must have different signs".

Class Quadrature := {
  quad : (Q -> Q) -> Q -> Q -> Q;
  Integrable : (Q -> Q) -> Prop;
  quad_additive : forall f a b c, Integrable f ->
    quad f a b + quad f b c == quad f a c;
  quad_lower : forall f a b lo, Integrable f -> a <= b ->
    (forall x, a <= x <= b -> lo <= f x) -> lo * (b - a) <= quad f a b;
  quad_upper : forall f a b hi, Integrable f -> a <= b ->
    (forall x, a <= x <= b -> f x <= hi) -> quad f a b <= hi * (b - a)
}.

(** [sign_change g l u]: [g] can be evaluated at [l] and [u] and its two
    values do not have the same strict sign. *)
Definition sign_change (g : Q -> res Q) (l u : Q) : Prop :=
  exists gl gu, g l = Ok gl /\ g u = Ok gu /\ gl * gu <= 0.

Class RootFinder := {
  xtol : Q;
  xtol_pos : 0 < xtol;
  brentq : (Q -> res Q) -> Q -> Q -> res Q;
  brentq_err_a : forall g a b e, g a = Err e -> brentq g a b = Err e;
  brentq_err_b : forall g a b fa e, g a = Ok fa -> g b = Err e -> brentq g a b = Err e;
  brentq_sign : forall g a b fa fb, g a = Ok fa -> g b = Ok fb -> 0 < fa * fb ->
    brentq g a b = Err (ValueError brentq_sign_msg);
  brentq_sound : forall g a b r, a <= b -> brentq g a b = Ok r ->
    exists l u, a <= l <= r /\ r <= u <= b /\ u - l <= xtol /\ sign_change g l u;
  brentq_total : forall g a b, a <= b -> sign_change g a b ->
    (forall x, a <= x <= b -> exists v, g x = Ok v) ->
    exists r, brentq g a b = Ok r;
  brentq_err_src : forall g a b e, a <= b -> brentq g a b = Err e ->
    (exists x, a <= x <= b /\ g x = Err e) \/
    (e = ValueError brentq_sign_msg /\
     exists fa fb, g a = Ok fa /\ g b = Ok fb /\ 0 < fa * fb)
}.

(** ** Consequences of the quadrature contract *)

Section QuadratureFacts.
Context `{Quadrature}.
Variable f : Q -> Q.
Hypothesis Hf : Integrable f.

Lemma quad_refl (a : Q) : quad f a a == 0.
Proof. pose proof (quad_additive f a a a Hf). lra. Qed.

Lemma quad_diff (a b c : Q) : quad f a c - quad f a b == quad f b c.
Proof. pose proof (quad_additive f a b c Hf). lra. Qed.

Lemma quad_nonneg (a b : Q) :
  a <= b -> (forall x, a <= x <= b -> 0 <= f x) -> 0 <= quad f a b.
Proof.
  intros Hab Hpos. pose proof (quad_lower f a b 0 Hf Hab Hpos). lra.
Qed.

(** The cumulative area [x |-> quad f a x] is non-decreasing where [f] is
    non-negative: the spec's reason why inverting it is well posed. *)
Lemma quad_mono (a x y : Q) :
  x <= y -> (forall z, x <= z <= y -> 0 <= f z) -> quad f a x <= quad f a y.
Proof.
  intros Hxy Hpos. pose proof (quad_nonneg x y Hxy Hpos).
  pose proof (quad_diff a x y). lra.
Qed.

(** Where [f >= c > 0] the cumulative area increases strictly. *)
Lemma quad_strict (a x y c : Q) :
  0 < c -> x < y -> (forall z, x <= z <= y -> c <= f z) -> quad f a x < quad f a y.
Proof.
  intros Hc Hxy Hlo.
  pose proof (quad_lower f x y c Hf (Qlt_le_weak _ _ Hxy) Hlo).
  pose proof (quad_diff a x y).
  assert (0 < c * (y - x)) by (apply Qmult_lt_0_compat; lra). lra.
Qed.
End QuadratureFacts.
