(* ===== verification/NumericsImpl.v ===== *)
(** * Executable instances of the numerical contracts

    - [simpson_quadrature]: Simpson's rule on one panel.  It is exact on
      cubic polynomials, which are its [Integrable] functions (every width
      function of the repository's tests and demo is a polynomial of degree
      at most 2), so additivity holds; the bound laws hold for any function.
    - [bisection tol]: a bracketing root finder with the observable
      behaviour of scipy's [brentq] (evaluate both ends, raise on equal
      signs, return an end that is a root) that halves the bracket until it
      is at most [tol] wide.  Its fuel [bisect_fuel] is the number of
      halvings that makes the bracket narrow enough, and [bisect_converges]
      proves it is enough: the [RuntimeError] of a solver that runs out of
      iterations never happens. *)

From Stdlib Require Import QArith Qminmax Qround Lqa ZArith Lia List String.
From S2P Require Import Prelude Numerics.
Import ListNotations.
Open Scope Q_scope.
Open Scope py_scope.

(** ** Simpson's rule *)

Definition simpson (f : Q -> Q) (a b : Q) : Q :=
  (b - a) / 6 * (f a + 4 * f ((a + b) / 2) + f b).

Definition cubic (f : Q -> Q) : Prop :=
  exists c0 c1 c2 c3 : Q,
    forall x, f x == c0 + c1 * x + c2 * (x * x) + c3 * (x * x * x).

Lemma simpson_exact (f : Q -> Q) (c0 c1 c2 c3 : Q) :
  (forall x, f x == c0 + c1 * x + c2 * (x * x) + c3 * (x * x * x)) ->
  forall a b, simpson f a b ==
    (c0 * b + c1 * (b * b) / 2 + c2 * (b * b * b) / 3 + c3 * (b * b * b * b) / 4)
    - (c0 * a + c1 * (a * a) / 2 + c2 * (a * a * a) / 3 + c3 * (a * a * a * a) / 4).
Proof.
  intros Hf a b. unfold simpson. rewrite !Hf. field.
Qed.

Lemma simpson_mid (a b : Q) : a <= b -> a <= (a + b) / 2 <= b.
Proof.
  intros H. split.
  - apply Qle_shift_div_l; lra.
  - apply Qle_shift_div_r; lra.
Qed.

(** Simpson's value lies between the bounds of the three samples it takes. *)
Lemma simpson_lower (f : Q -> Q) (a b lo : Q) :
  a <= b -> (forall x, a <= x <= b -> lo <= f x) -> lo * (b - a) <= simpson f a b.
Proof.
  intros Hab Hlo. unfold simpson.
  pose proof (simpson_mid a b Hab).
  pose proof (Hlo a ltac:(lra)). pose proof (Hlo b ltac:(lra)).
  pose proof (Hlo ((a + b) / 2) ltac:(lra)).
  setoid_replace (lo * (b - a)) with ((b - a) / 6 * (lo + 4 * lo + lo)) by field.
  apply Qmult_le_compat_l_nonneg; [apply Qdiv_nonneg|]; lra.
Qed.

Lemma simpson_upper (f : Q -> Q) (a b hi : Q) :
  a <= b -> (forall x, a <= x <= b -> f x <= hi) -> simpson f a b <= hi * (b - a).
Proof.
  intros Hab Hhi. unfold simpson.
  pose proof (simpson_mid a b Hab).
  pose proof (Hhi a ltac:(lra)). pose proof (Hhi b ltac:(lra)).
  pose proof (Hhi ((a + b) / 2) ltac:(lra)).
  setoid_replace (hi * (b - a)) with ((b - a) / 6 * (hi + 4 * hi + hi)) by field.
  apply Qmult_le_compat_l_nonneg; [apply Qdiv_nonneg|]; lra.
Qed.

Lemma simpson_additive (f : Q -> Q) (a b c : Q) :
  cubic f -> simpson f a b + simpson f b c == simpson f a c.
Proof.
  intros (c0 & c1 & c2 & c3 & Hf).
  rewrite !(simpson_exact f c0 c1 c2 c3 Hf). ring.
Qed.

#[export] Instance simpson_quadrature : Quadrature := {|
  quad := simpson;
  Integrable := cubic;
  quad_additive := simpson_additive;
  quad_lower := fun f a b lo _ => simpson_lower f a b lo;
  quad_upper := fun f a b hi _ => simpson_upper f a b hi
|}.

(** ** Bisection *)

Definition not_converged_msg : string := "Failed to converge".

Definition midpoint (a b : Q) : Q := Qred ((a + b) / 2).

Lemma midpoint_spec (a b : Q) :
  a <= b -> a <= midpoint a b <= b /\ midpoint a b - a == (b - a) / 2 /\
            b - midpoint a b == (b - a) / 2.
Proof.
  intros H. unfold midpoint. rewrite Qred_correct.
  pose proof (simpson_mid a b H). split_and; try lra; field.
Qed.

Section Bisection.
Variable tol : Q.

(** Halve [a, b] (on which [g] changes sign, [fa = g a]) until it is at
    most [tol] wide; the [midpoint] is the answer. *)
Fixpoint bisect (g : Q -> res Q) (fuel : nat) (a b fa : Q) : res Q :=
  match fuel with
  | O => Err (RuntimeError not_converged_msg)
  | S fuel' =>
      let m := midpoint a b in
      if Qle_bool (b - a) tol then Ok m
      else
        let* fm := g m in
        if Qeq_bool fm 0 then Ok m
        else if Qle_bool 0 (fa * fm) then bisect g fuel' m b fm
        else bisect g fuel' a m fa
  end.

Definition bisect_fuel (a b : Q) : nat :=
  S (Z.to_nat (Z.log2_up (Qceiling ((b - a) / tol)))).

Definition bisect_brentq (g : Q -> res Q) (a b : Q) : res Q :=
  let* fa := g a in
  let* fb := g b in
  if Qle_bool (fa * fb) 0 then
    if Qeq_bool fa 0 then Ok a
    else if Qeq_bool fb 0 then Ok b
    else bisect g (bisect_fuel a b) a b fa
  else Err (ValueError brentq_sign_msg).
End Bisection.

Lemma sign_step (fa fb fm : Q) : 0 < fa * fm -> fa * fb <= 0 -> fm * fb <= 0.
Proof. intros. nra. Qed.

Lemma Qmult_nonzero (x y : Q) : ~ x == 0 -> ~ y == 0 -> ~ x * y == 0.
Proof. intros Hx Hy H. apply Qmult_integral in H as [H|H]; contradiction. Qed.

Lemma pow2_succ (k : nat) :
  inject_Z (2 ^ Z.of_nat (S k)) == 2 * inject_Z (2 ^ Z.of_nat k).
Proof.
  rewrite Nat2Z.inj_succ, Z.pow_succ_r by lia. rewrite inject_Z_mult. reflexivity.
Qed.

Section BisectionFacts.
Variable tol : Q.
Hypothesis Htol : 0 < tol.
Variable g : Q -> res Q.

Lemma bisect_sound (n : nat) (a b fa fb r : Q) :
  a <= b -> g a = Ok fa -> g b = Ok fb -> fa * fb <= 0 -> ~ fa == 0 ->
  bisect tol g n a b fa = Ok r ->
  exists l u, a <= l <= r /\ r <= u <= b /\ u - l <= tol /\ sign_change g l u.
Proof.
  revert a b fa fb. induction n as [|n IH]; intros a b fa fb Hab Ha Hb Hprod Hfa Hr;
    simpl in Hr; [discriminate|].
  destruct (midpoint_spec a b Hab) as ((Hm1 & Hm2) & Hma & Hbm).
  revert Hr. qcase.
  { intros Hr; inv_res. exists a, b. split_and; try lra. now exists fa, fb. }
  destruct (g (midpoint a b)) as [fm|e] eqn:Hgm; simpl; [|discriminate].
  destruct (Qeq_bool_spec fm 0) as [Hq0|Hq0]; cbv beta match.
  { intros Hr; inv_res. exists (midpoint a b), (midpoint a b).
    split_and; try lra. exists fm, fm. split_and; auto. nra. }
  qcase; intros Hr.
  - assert (0 < fa * fm).
    { pose proof (Qmult_nonzero fa fm Hfa Hq0). lra. }
    destruct (IH (midpoint a b) b fm fb ltac:(lra) Hgm Hb (sign_step fa fb fm ltac:(lra) Hprod) Hq0 Hr)
      as (l & u & ? & ? & ? & ?).
    exists l, u. split_and; auto; lra.
  - destruct (IH a (midpoint a b) fa fm ltac:(lra) Ha Hgm ltac:(lra) Hfa Hr)
      as (l & u & ? & ? & ? & ?).
    exists l, u. split_and; auto; lra.
Qed.

(** With [S k] rounds on a bracket at most [tol * 2^k] wide, bisection
    never runs out of fuel: any error it returns was raised by [g] at a
    point of the bracket. *)
Lemma bisect_converges (k : nat) (a b fa : Q) (e : exn) :
  a <= b -> b - a <= tol * inject_Z (2 ^ Z.of_nat k) ->
  bisect tol g (S k) a b fa = Err e -> exists x, a <= x <= b /\ g x = Err e.
Proof.
  revert a b fa. induction k as [|k IH]; intros a b fa Hab Hw He;
    simpl in He; revert He.
  { qcase; [discriminate|]. change (inject_Z (2 ^ Z.of_nat 0)) with 1 in Hw. lra. }
  destruct (midpoint_spec a b Hab) as ((Hm1 & Hm2) & Hma & Hbm).
  rewrite pow2_succ in Hw.
  qcase; [discriminate|].
  destruct (g (midpoint a b)) as [fm|e'] eqn:Hgm; simpl.
  2: { intros [= ->]. exists (midpoint a b). split; [lra | exact Hgm]. }
  destruct (Qeq_bool_spec fm 0); cbv beta match; [discriminate|]. qcase; intros He.
  - destruct (IH (midpoint a b) b fm ltac:(lra) ltac:(lra) He) as (x & ? & ?).
    exists x. split; [lra | assumption].
  - destruct (IH a (midpoint a b) fa ltac:(lra) ltac:(lra) He) as (x & ? & ?).
    exists x. split; [lra | assumption].
Qed.

Lemma bisect_fuel_enough (a b : Q) :
  b - a <= tol * inject_Z (2 ^ Z.of_nat (pred (bisect_fuel tol a b))).
Proof.
  unfold bisect_fuel. simpl pred.
  set (c := Qceiling ((b - a) / tol)).
  assert (Hc : (c <= 2 ^ Z.log2_up c)%Z).
  { destruct (Z.le_gt_cases c 1).
    - rewrite Z.log2_up_eqn0 by lia. simpl. lia.
    - apply Z.log2_up_spec. lia. }
  rewrite Z2Nat.id by apply Z.log2_up_nonneg.
  pose proof (Qle_ceiling ((b - a) / tol)) as Hceil. fold c in Hceil.
  rewrite Zle_Qle in Hc.
  setoid_replace (b - a) with (tol * ((b - a) / tol)) by (field; lra).
  apply Qmult_le_compat_l_nonneg; lra.
Qed.

Lemma bisect_brentq_converges (a b fa : Q) (e : exn) :
  a <= b -> bisect tol g (bisect_fuel tol a b) a b fa = Err e ->
  exists x, a <= x <= b /\ g x = Err e.
Proof.
  intros Hab He. apply (bisect_converges (pred (bisect_fuel tol a b)) a b fa e Hab);
    [apply bisect_fuel_enough | exact He].
Qed.
End BisectionFacts.

Section BisectionInstance.
Variable tol : Q.
Hypothesis Htol : 0 < tol.

Lemma bisect_brentq_sound (g : Q -> res Q) (a b r : Q) :
  a <= b -> bisect_brentq tol g a b = Ok r ->
  exists l u, a <= l <= r /\ r <= u <= b /\ u - l <= tol /\ sign_change g l u.
Proof.
  intros Hab. unfold bisect_brentq.
  destruct (g a) as [fa|] eqn:Ha; simpl; [|discriminate].
  destruct (g b) as [fb|] eqn:Hb; simpl; [|discriminate].
  qcase; [|discriminate].
  destruct (Qeq_bool_spec fa 0) as [Hfa|Hfa]; cbv beta match.
  { intros Hr; inv_res. exists r, r. split_and; try lra.
    exists fa, fa. split_and; auto. nra. }
  destruct (Qeq_bool_spec fb 0) as [Hfb|Hfb]; cbv beta match.
  { intros Hr; inv_res. exists r, r. split_and; try lra.
    exists fb, fb. split_and; auto. nra. }
  intros Hr. exact (bisect_sound tol Htol g (bisect_fuel tol a b) a b fa fb r Hab Ha Hb Hq Hfa Hr).
Qed.

Lemma bisect_brentq_err_src (g : Q -> res Q) (a b : Q) (e : exn) :
  a <= b -> bisect_brentq tol g a b = Err e ->
  (exists x, a <= x <= b /\ g x = Err e) \/
  (e = ValueError brentq_sign_msg /\
   exists fa fb, g a = Ok fa /\ g b = Ok fb /\ 0 < fa * fb).
Proof.
  intros Hab. unfold bisect_brentq.
  destruct (g a) as [fa|ea] eqn:Ha; simpl.
  2: { intros [= ->]. left. exists a. split; [lra | exact Ha]. }
  destruct (g b) as [fb|eb] eqn:Hb; simpl.
  2: { intros [= ->]. left. exists b. split; [lra | exact Hb]. }
  qcase.
  - destruct (Qeq_bool_spec fa 0); cbv beta match; [discriminate|].
    destruct (Qeq_bool_spec fb 0); cbv beta match; [discriminate|].
    intros He. left. exact (bisect_brentq_converges tol Htol g a b fa e Hab He).
  - intros [= <-]. right. split; [reflexivity|]. now exists fa, fb.
Qed.

Lemma bisect_brentq_total (g : Q -> res Q) (a b : Q) :
  a <= b -> sign_change g a b ->
  (forall x, a <= x <= b -> exists v, g x = Ok v) ->
  exists r, bisect_brentq tol g a b = Ok r.
Proof.
  intros Hab (fa & fb & Ha & Hb & Hprod) Hall.
  destruct (bisect_brentq tol g a b) as [r|e] eqn:E; [eauto|exfalso].
  destruct (bisect_brentq_err_src g a b e Hab E)
    as [(x & Hx & Hgx) | (_ & fa' & fb' & Ha' & Hb' & Hpos)].
  - destruct (Hall x Hx) as [v Hv]. congruence.
  - rewrite Ha in Ha'. rewrite Hb in Hb'. inv_res. lra.
Qed.

Definition bisection : RootFinder := {|
  xtol := tol;
  xtol_pos := Htol;
  brentq := bisect_brentq tol;
  brentq_err_a := fun g a b e Ha =>
    ltac:(unfold bisect_brentq; now rewrite Ha);
  brentq_err_b := fun g a b fa e Ha Hb =>
    ltac:(unfold bisect_brentq; now rewrite Ha, Hb);
  brentq_sign := fun g a b fa fb Ha Hb Hpos =>
    ltac:(unfold bisect_brentq; rewrite Ha, Hb; simpl; qcase; [lra | reflexivity]);
  brentq_sound := bisect_brentq_sound;
  brentq_total := bisect_brentq_total;
  brentq_err_src := bisect_brentq_err_src
|}.
End BisectionInstance.

(** The tolerance the witnesses run with: [1e-8], below every tolerance
    the repository's tests compare with ([1e-4] and [1e-5]). *)
Definition bisection_1e8 : RootFinder := bisection (1 # 100000000) eq_refl.
