(* ===== verification/NumPy.v ===== *)
(** * The numpy operations the modelled code applies to arrays

    Arrays are lists of exact rationals.  [linspace] follows
    [numpy.linspace(start, stop, num)] (endpoint included, the last element
    set to [stop]); [np_max] is [ndarray.max()], which raises on an empty
    array; [pairwise], [np_diff] model the slices [y[:-1]], [y[1:]] and
    [numpy.diff]; [np_add], [np_mul] and [np_div_scalar] are elementwise
    [+], [*] and [/ c] on arrays of the same shape. *)

From Stdlib Require Import QArith Qminmax Lqa ZArith Lia List String.
From S2P Require Import Prelude.
Import ListNotations.
Open Scope Q_scope.
Open Scope py_scope.

Definition linspace (start stop : Q) (num : nat) : list Q :=
  match num with
  | O => []
  | S O => [start]
  | S (S _ as div) =>
      let step := (stop - start) / inject_Z (Z.of_nat div) in
      map (fun i => if Nat.eqb i div then stop
                    else start + inject_Z (Z.of_nat i) * step)
          (seq 0 num)
  end.

Definition np_max_empty_msg : string :=
  "zero-size array to reduction operation maximum which has no identity".

Definition np_max (l : list Q) : res Q :=
  match l with
  | [] => Err (ValueError np_max_empty_msg)
  | x :: xs => Ok (fold_left Qmax xs x)
  end.

(** [(y[:-1], y[1:])] zipped: the consecutive pairs of an array. *)
Definition pairwise {A : Type} (l : list A) : list (A * A) :=
  combine (removelast l) (tl l).

Definition np_diff (x : list Q) : list Q :=
  map (fun '(a, b) => b - a) (pairwise x).

(** Elementwise [+] and [*] of two arrays of the same shape, and division
    of every element by a scalar. *)
Definition np_add (u v : list Q) : list Q := map (fun '(a, b) => a + b) (combine u v).
Definition np_mul (u v : list Q) : list Q := map (fun '(a, b) => a * b) (combine u v).
Definition np_div_scalar (u : list Q) (c : Q) : list Q := map (fun a => a / c) u.

(** ** Facts about the helpers *)

Lemma pairwise_cons2 {A : Type} (a b : A) (l : list A) :
  pairwise (a :: b :: l) = (a, b) :: pairwise (b :: l).
Proof. reflexivity. Qed.

Lemma pairwise_short {A : Type} (l : list A) : (List.length l <= 1)%nat -> pairwise l = [].
Proof. destruct l as [|a [|b l]]; simpl; auto; lia. Qed.

(** [y[:-1] + y[1:]] for [y = f(x)]: the sums of [f] at consecutive points. *)
Lemma np_add_slices (f : Q -> Q) (x : list Q) :
  np_add (removelast (map f x)) (tl (map f x)) =
  map (fun '(a, b) => f a + f b) (pairwise x).
Proof.
  induction x as [|a x IH]; [reflexivity|].
  destruct x as [|b x]; [reflexivity|].
  rewrite pairwise_cons2. simpl map at 3. rewrite <- IH. reflexivity.
Qed.

Lemma np_diff_cons2 (a b : Q) (x : list Q) : np_diff (a :: b :: x) = (b - a) :: np_diff (b :: x).
Proof. reflexivity. Qed.

Lemma length_pairwise {A : Type} (l : list A) : List.length (pairwise l) = pred (List.length l).
Proof.
  induction l as [|a l IH]; [reflexivity|].
  destruct l as [|b l]; [reflexivity|]. rewrite pairwise_cons2. simpl in *. now rewrite IH.
Qed.

Lemma length_linspace (start stop : Q) (num : nat) :
  List.length (linspace start stop num) = num.
Proof.
  destruct num as [|[|div]]; simpl; auto.
  now rewrite length_map, length_seq.
Qed.

Lemma linspace_bounds (start stop : Q) (num : nat) (x : Q) :
  start <= stop -> In x (linspace start stop num) -> start <= x <= stop.
Proof.
  intros Hle Hin. destruct num as [|[|div]];
    lazy beta iota zeta delta [linspace] in Hin.
  - contradiction.
  - destruct Hin as [<- | []]. lra.
  - apply in_map_iff in Hin as (i & <- & Hi). apply in_seq in Hi.
    destruct (Nat.eqb_spec i (S div)) as [_|Hne]; [lra|].
    assert (Hi' : (i < S div)%nat) by lia.
    assert (Hpos : 0 < inject_Z (Z.of_nat (S div))) by (apply inject_Z_pos; lia).
    assert (Hile : 0 <= inject_Z (Z.of_nat i) <= inject_Z (Z.of_nat (S div))).
    { split; [apply inject_Z_nonneg | rewrite <- Zle_Qle]; lia. }
    set (n := inject_Z (Z.of_nat (S div))) in *.
    set (k := inject_Z (Z.of_nat i)) in *.
    assert (Hstep : k * ((stop - start) / n) == (k / n) * (stop - start)) by (field; lra).
    rewrite Hstep.
    assert (0 <= k / n <= 1).
    { split.
      - apply Qle_shift_div_l; lra.
      - apply Qle_shift_div_r; lra. }
    nra.
Qed.

Lemma np_max_ub (l : list Q) (m : Q) :
  np_max l = Ok m -> Forall (fun x => x <= m) l.
Proof.
  destruct l as [|x xs]; simpl; [discriminate|]. intros [= <-].
  assert (Hacc : forall acc, acc <= fold_left Qmax xs acc /\
                 Forall (fun y => y <= fold_left Qmax xs acc) xs).
  { induction xs as [|y ys IH]; intros acc; simpl; [split; [lra|constructor]|].
    destruct (IH (Qmax acc y)) as [H1 H2].
    pose proof (Q.le_max_l acc y). pose proof (Q.le_max_r acc y).
    split; [lra|]. constructor; [lra|exact H2]. }
  destruct (Hacc x) as [H1 H2]. now constructor.
Qed.

Lemma np_max_linspace_ok (g : Q -> Q) (a b : Q) :
  exists m, np_max (map g (linspace a b 100)) = Ok m.
Proof.
  pose proof (length_linspace a b 100) as Hlen.
  destruct (linspace a b 100) as [|x rest]; [discriminate | simpl; eauto].
Qed.
