(* ===== verification/InverseArea.v ===== *)
(** * The area under the curve and its inverse ([adams_patch.py], lines 29-62)

    [area_under_curve] is scipy's [quad] on the width function;
    [compute_inverse_function_value] solves [fun(x) = y] with [brentq] on
    [target(x) = fun(x) - y] ([fun] may raise, so it returns a [res]);
    [inverse_area_under_curve] is that solve applied to the cumulative area
    [area_fun f xmin = lambda x: area_under_curve(f, xmin, x)].  Both
    numerical primitives are the contracts of [Numerics].  The theorems
    show when the inverse raises (exactly when the target area is outside
    [0, total]), that it returns otherwise, and that it lands within the
    root finder's tolerance of the true inverse. *)

From Stdlib Require Import QArith Qminmax Lqa ZArith Lia List String.
From S2P Require Import Prelude Numerics NumPy.
Import ListNotations.
Open Scope Q_scope.
Open Scope py_scope.

Section InverseArea.
Context `{QD : Quadrature} `{RF : RootFinder}.

(** [integral, _ = quad(f, xmin, xmax); return integral] *)
Definition area_under_curve (f : Q -> Q) (xmin xmax : Q) : Q :=
  quad f xmin xmax.

(** [target(x) = fun(x) - y], then [brentq(target, xmin, xmax)]; [fun] may
    raise, so it returns a [res]. *)
Definition compute_inverse_function_value (fn : Q -> res Q) (y xmin xmax : Q) : res Q :=
  let target x := let* v := fn x in Ok (v - y) in
  brentq target xmin xmax.

Definition inverse_area_under_curve (area_fun : Q -> res Q) (area xmin xmax : Q) : res Q :=
  compute_inverse_function_value area_fun area xmin xmax.

(** [lambda x: area_under_curve(f, xmin, x)], which never raises. *)
Definition area_fun (f : Q -> Q) (xmin : Q) : Q -> res Q :=
  fun x => Ok (area_under_curve f xmin x).

Section Problem.
Variables (f : Q -> Q) (xmin xmax : Q).
Hypothesis Hf : Integrable f.
Hypothesis Hrange : xmin <= xmax.
Hypothesis Hpos : forall x, xmin <= x <= xmax -> 0 <= f x.

Local Abbreviation A := (area_under_curve f xmin).

Lemma area_total_nonneg : 0 <= A xmax.
Proof. now apply quad_nonneg. Qed.

Lemma area_mono (x y : Q) : xmin <= x -> x <= y -> y <= xmax -> A x <= A y.
Proof. intros. apply quad_mono; auto. intros z Hz. apply Hpos. lra. Qed.

(** What [brentq] promises, read on the cumulative area: the result lies
    within [xtol] of an interval [l, u] over which the area crosses the
    target. *)
Lemma inverse_area_sound (y x : Q) :
  inverse_area_under_curve (area_fun f xmin) y xmin xmax = Ok x ->
  exists l u, xmin <= l <= x /\ x <= u <= xmax /\ u - l <= xtol /\
              A l <= y <= A u.
Proof.
  intros Hx. destruct (brentq_sound _ _ _ _ Hrange Hx)
    as (l & u & Hl & Hu & Htol & gl & gu & Hgl & Hgu & Hprod).
  simpl in Hgl, Hgu. inv_res.
  exists l, u. repeat split; try lra.
  all: pose proof (area_mono l u ltac:(lra) ltac:(lra) ltac:(lra)); nra.
Qed.

Lemma inverse_area_err (y : Q) (e : exn) :
  inverse_area_under_curve (area_fun f xmin) y xmin xmax = Err e ->
  e = ValueError brentq_sign_msg /\ (y < 0 \/ A xmax < y).
Proof.
  intros He. destruct (brentq_err_src _ _ _ _ Hrange He)
    as [(x & _ & Hx) | (-> & fa & fb & Ha & Hb & Hprod)].
  - discriminate Hx.
  - simpl in Ha, Hb. inv_res. split; [reflexivity|].
    pose proof (quad_refl f Hf xmin). pose proof area_total_nonneg.
    unfold area_under_curve in *.
    destruct (Qlt_le_dec y 0); [now left | right]. nra.
Qed.

Lemma inverse_area_total (y : Q) :
  0 <= y <= A xmax ->
  exists x, inverse_area_under_curve (area_fun f xmin) y xmin xmax = Ok x.
Proof.
  intros Hy. apply brentq_total; [exact Hrange | | intros; simpl; eauto].
  exists (A xmin - y), (A xmax - y). simpl. repeat split.
  pose proof (quad_refl f Hf xmin). unfold area_under_curve in *. nra.
Qed.

(** C5. Inverting the cumulative area at the area up to [x0] gives back
    [x0], to within the root finder's tolerance, when [f] is bounded
    below by a positive constant. *)
Theorem inverse_area_under_curve_roundtrip (c x0 : Q) :
  0 < c -> (forall x, xmin <= x <= xmax -> c <= f x) -> xmin <= x0 <= xmax ->
  exists x : Q,
    inverse_area_under_curve (area_fun f xmin) (A x0) xmin xmax = Ok x /\
    x0 - xtol <= x <= x0 + xtol.
Proof.
  intros Hc Hlo Hx0.
  destruct (inverse_area_total (A x0)) as [x Hx].
  { pose proof (quad_refl f Hf xmin).
    pose proof (area_mono xmin x0 ltac:(lra) ltac:(lra) ltac:(lra)).
    pose proof (area_mono x0 xmax ltac:(lra) ltac:(lra) ltac:(lra)).
    unfold area_under_curve in *. lra. }
  exists x. split; [exact Hx|].
  destruct (inverse_area_sound _ _ Hx) as (l & u & Hl & Hu & Htol & Hy).
  assert (l <= x0).
  { destruct (Qlt_le_dec x0 l) as [Hlt|]; [exfalso|assumption].
    pose proof (quad_strict f Hf xmin x0 l c Hc Hlt
                  ltac:(intros z Hz; apply Hlo; lra)).
    unfold area_under_curve in *. lra. }
  assert (x0 <= u).
  { destruct (Qlt_le_dec u x0) as [Hlt|]; [exfalso|assumption].
    pose proof (quad_strict f Hf xmin u x0 c Hc Hlt
                  ltac:(intros z Hz; apply Hlo; lra)).
    unfold area_under_curve in *. lra. }
  lra.
Qed.

(** C8. [inverse_area_under_curve] on the cumulative area returns exactly
    when the target area lies in [[0, total area]]; otherwise it raises,
    and what it raises is brentq's [ValueError] for a bracket without a
    sign change. *)
Theorem inverse_area_under_curve_raises (y : Q) :
  match inverse_area_under_curve (area_fun f xmin) y xmin xmax with
  | Ok _ => 0 <= y <= A xmax
  | Err e => e = ValueError brentq_sign_msg /\ (y < 0 \/ A xmax < y)
  end.
Proof.
  destruct (inverse_area_under_curve (area_fun f xmin) y xmin xmax) as [x|e] eqn:H.
  - destruct (inverse_area_sound y x H) as (l & u & Hl & Hu & _ & Hy).
    pose proof (quad_refl f Hf xmin).
    pose proof (area_mono xmin l ltac:(lra) ltac:(lra) ltac:(lra)).
    pose proof (area_mono u xmax ltac:(lra) ltac:(lra) ltac:(lra)).
    unfold area_under_curve in *. lra.
  - now apply inverse_area_err.
Qed.
End Problem.

(** ** The general solver [compute_inverse_function_value] *)

(** C9. [compute_inverse_function_value fun y xmin xmax] returns a point of
    [[xmin, xmax]] within [xtol] of an interval over which [fun] crosses
    [y]: [fun] is evaluated at both ends of that interval and
    [fun - y] takes opposite (or zero) signs there. *)
Theorem compute_inverse_function_value_sound (fn : Q -> res Q) (y xmin xmax x : Q) :
  xmin <= xmax -> compute_inverse_function_value fn y xmin xmax = Ok x ->
  exists l u vl vu, xmin <= l <= x /\ x <= u <= xmax /\ u - l <= xtol /\
    fn l = Ok vl /\ fn u = Ok vu /\ (vl - y) * (vu - y) <= 0.
Proof.
  intros Hr Hx. destruct (brentq_sound _ _ _ _ Hr Hx)
    as (l & u & Hl & Hu & Htol & gl & gu & Hgl & Hgu & Hprod).
  apply bind_Ok_iff in Hgl as (vl & Hvl & [= <-]).
  apply bind_Ok_iff in Hgu as (vu & Hvu & [= <-]).
  exists l, u, vl, vu. split_and; auto; lra.
Qed.

End InverseArea.
