(* ===== verification/CoveredArea.v ===== *)
(** * The covered-area simulation ([compute_covered_area], adams_patch.py, lines 65-81)

    The Python loop is [covered_loop] over [covered_step], on the state
    [(total_area_covered, separator_locations)]; [compute_covered_area]
    runs it [npatches - 1] times from [(area_patch, [])].

    [place_separator] is the same iteration stated as the spec describes
    it (section 4.3): the current patch ends at a point [x] where the
    cumulative area reaches the running total (up to the root finder's
    tolerance), a separator of width [w] follows, and the total grows by
    the separator's area and one more patch; [layout_steps n] is [n] such
    steps.  The theorems show:
    - refinement: every result of [compute_covered_area] is reachable by
      [npatches - 1] abstract steps;
    - the layout invariant, by rule induction: one separator per
      iteration, each [w] wide and starting inside [xmin, xmax], and the
      total equal to the patches plus the separators' areas;
    - bounds on the covered area, and that every failure of the loop is the
      inner [brentq]'s [ValueError]. *)

From Stdlib Require Import QArith Qminmax Lqa ZArith Lia List String.
From S2P Require Import Prelude Numerics NumPy InverseArea.
Import ListNotations.
Open Scope Q_scope.
Open Scope py_scope.

Section CoveredArea.
Context `{QD : Quadrature} `{RF : RootFinder}.

(** One iteration of the [for] loop of [compute_covered_area]: the state is
    [(total_area_covered, separator_locations)]. *)
Definition covered_step (f : Q -> Q) (area_patch w xmin xmax : Q)
    (st : Q * list (Q * Q)) : res (Q * list (Q * Q)) :=
  let '(total_area_covered, separator_locations) := st in
  let* x_end_of_patch :=
    inverse_area_under_curve (area_fun f xmin) total_area_covered xmin xmax in
  let x_end_of_separator := x_end_of_patch + w in
  let area_separator := area_under_curve f x_end_of_patch x_end_of_separator in
  Ok (total_area_covered + (area_separator + area_patch),
      separator_locations ++ [(x_end_of_patch, x_end_of_separator)]).

Fixpoint covered_loop (f : Q -> Q) (area_patch w xmin xmax : Q) (n : nat)
    (st : Q * list (Q * Q)) : res (Q * list (Q * Q)) :=
  match n with
  | O => Ok st
  | S n' =>
      let* st' := covered_step f area_patch w xmin xmax st in
      covered_loop f area_patch w xmin xmax n' st'
  end.

(** [for patch in range(npatches - 1)]: no iteration when [npatches <= 1]. *)
Definition compute_covered_area (f : Q -> Q) (area_patch : Q) (npatches : Z)
    (w xmin xmax : Q) : res (Q * list (Q * Q)) :=
  covered_loop f area_patch w xmin xmax (Z.to_nat (npatches - 1)) (area_patch, []).

Section Layout.
Variables (f : Q -> Q) (xmin xmax : Q).

Local Abbreviation A := (area_under_curve f xmin).

Definition sep_area (p : Q * Q) : Q := area_under_curve f (fst p) (snd p).

Inductive place_separator (area_patch w : Q) :
    Q * list (Q * Q) -> Q * list (Q * Q) -> Prop :=
| place_separator_intro total seps x l u :
    xmin <= l <= x -> x <= u <= xmax -> u - l <= xtol -> A l <= total <= A u ->
    place_separator area_patch w (total, seps)
      (total + (area_under_curve f x (x + w) + area_patch), seps ++ [(x, x + w)]).

Inductive layout_steps (area_patch w : Q) :
    nat -> Q * list (Q * Q) -> Q * list (Q * Q) -> Prop :=
| layout_done st : layout_steps area_patch w 0 st st
| layout_next n st st' st'' :
    place_separator area_patch w st st' -> layout_steps area_patch w n st' st'' ->
    layout_steps area_patch w (S n) st st''.

(** After [k] iterations: [k] separators, each [w] wide and starting in
    [xmin, xmax], and the total is [k + 1] patches plus their areas. *)
Definition layout_inv (area_patch w : Q) (k : nat) (st : Q * list (Q * Q)) : Prop :=
  List.length (snd st) = k /\
  Forall (fun p => snd p = fst p + w /\ xmin <= fst p <= xmax) (snd st) /\
  fst st == inject_Z (Z.of_nat (S k)) * area_patch + qsum (map sep_area (snd st)).

Hypothesis Hf : Integrable f.
Hypothesis Hrange : xmin <= xmax.
Hypothesis Hpos_in : forall x, xmin <= x <= xmax -> 0 <= f x.

(** Every error of the covered-area loop is [brentq]'s sign error, raised
    by an inverse of the cumulative area. *)
Lemma covered_loop_err (area_patch w : Q) (n : nat) st e :
  covered_loop f area_patch w xmin xmax n st = Err e ->
  e = ValueError brentq_sign_msg.
Proof.
  revert st; induction n as [|n IH]; intros [t seps] H; simpl in H; [discriminate|].
  apply bind_Err_iff in H as [H | (st' & _ & H)]; [|eauto].
  apply bind_Err_iff in H as [H | (x & _ & H)]; [|discriminate].
  now apply inverse_area_err in H as [-> _].
Qed.

(** ** Refinement: the Python loop implements the abstract step *)

Lemma covered_step_refines area_patch w st st' :
  covered_step f area_patch w xmin xmax st = Ok st' ->
  place_separator area_patch w st st'.
Proof.
  destruct st as [total seps]. simpl. intros H. inv_res.
  destruct (inverse_area_sound f xmin xmax Hf Hrange Hpos_in _ _ Hm)
    as (l & u & Hl & Hu & Htol & Hy).
  econstructor; eauto.
Qed.

Lemma covered_loop_refines area_patch w n st st' :
  covered_loop f area_patch w xmin xmax n st = Ok st' ->
  layout_steps area_patch w n st st'.
Proof.
  revert st. induction n as [|n IH]; intros st H; simpl in H; inv_res.
  - constructor.
  - econstructor; [apply covered_step_refines; eassumption | now apply IH].
Qed.

(** ** The invariant, by induction on the steps *)

Lemma place_inv area_patch w k st st' :
  layout_inv area_patch w k st -> place_separator area_patch w st st' ->
  layout_inv area_patch w (S k) st'.
Proof.
  intros (Hlen & Hall & Htot) Hstep. destruct Hstep as [total seps x l u Hl Hu _ _].
  unfold layout_inv in *; cbn [fst snd] in *. split; [|split].
  - rewrite length_app, Hlen. simpl. lia.
  - apply Forall_app. split; [exact Hall|]. constructor; [|constructor].
    simpl. split; [reflexivity | lra].
  - rewrite map_app, qsum_app, Htot, (inject_Z_succ (S k)). simpl.
    change (sep_area (x, x + w)) with (area_under_curve f x (x + w)). ring.
Qed.

Lemma steps_inv area_patch w n st st' k :
  layout_steps area_patch w n st st' -> layout_inv area_patch w k st ->
  layout_inv area_patch w (k + n) st'.
Proof.
  intros Hs. revert k. induction Hs as [st|n st st' st'' Hp _ IH]; intros k Hinv.
  - now rewrite Nat.add_0_r.
  - rewrite Nat.add_succ_r, <- Nat.add_succ_l. apply IH. eapply place_inv; eauto.
Qed.

Lemma layout_inv_init area_patch w : layout_inv area_patch w 0 (area_patch, []).
Proof. split; [reflexivity | split; [constructor|]]. simpl. ring. Qed.

(** Every result of [compute_covered_area] satisfies the layout invariant
    after its [npatches - 1] iterations. *)
Lemma covered_area_inv area_patch npatches w r :
  compute_covered_area f area_patch npatches w xmin xmax = Ok r ->
  layout_inv area_patch w (Z.to_nat (npatches - 1)) r.
Proof.
  intros H. apply covered_loop_refines in H.
  exact (steps_inv _ _ _ _ _ _ H (layout_inv_init area_patch w)).
Qed.

(** C3. Refinement: every layout [compute_covered_area] returns is reached
    from [(area_patch, [])] by [npatches - 1] steps of the abstract
    algorithm [place_separator]. *)
Theorem compute_covered_area_refines area_patch npatches w r :
  compute_covered_area f area_patch npatches w xmin xmax = Ok r ->
  layout_steps area_patch w (Z.to_nat (npatches - 1)) (area_patch, []) r.
Proof. apply covered_loop_refines. Qed.

(** C4. The layout invariant of [compute_covered_area]: it returns one
    separator per iteration ([npatches - 1] of them, none when
    [npatches <= 1]), in placement order, each exactly [w] wide and
    starting inside [xmin, xmax]; the total is [npatches] patch areas
    plus the areas of the separators it placed. *)
Theorem compute_covered_area_layout area_patch npatches w total seps :
  compute_covered_area f area_patch npatches w xmin xmax = Ok (total, seps) ->
  List.length seps = Z.to_nat (npatches - 1) /\
  Forall (fun p => snd p = fst p + w /\ xmin <= fst p <= xmax) seps /\
  total == (inject_Z (Z.of_nat (Z.to_nat (npatches - 1))) + 1) * area_patch
           + qsum (map sep_area seps).
Proof.
  intros H. destruct (covered_area_inv _ _ _ _ H) as (Hlen & Hall & Htot).
  split_and; [exact Hlen | exact Hall |]. cbn [fst snd] in Htot. rewrite Htot, inject_Z_succ. ring.
Qed.

End Layout.

(** ** Bounds, for a width function that is non-negative everywhere
    (separators may reach past [xmax]) *)

Section Bounds.
Variables (f : Q -> Q) (xmin xmax : Q).
Hypothesis Hf : Integrable f.
Hypothesis Hrange : xmin <= xmax.
Hypothesis Hpos : forall x, 0 <= f x.

Local Abbreviation A := (area_under_curve f xmin).

Lemma sep_area_nonneg w (p : Q * Q) : 0 <= w -> snd p = fst p + w -> 0 <= sep_area f p.
Proof.
  intros Hw Hp. unfold sep_area, area_under_curve. rewrite Hp.
  apply quad_nonneg; [exact Hf | lra | intros; apply Hpos].
Qed.

Lemma sep_area_le w M (p : Q * Q) :
  0 <= w -> (forall x, xmin <= x <= xmax + w -> f x <= M) ->
  snd p = fst p + w /\ xmin <= fst p <= xmax -> sep_area f p <= w * M.
Proof.
  intros Hw HM (Hp & Hs). unfold sep_area, area_under_curve. rewrite Hp.
  setoid_replace (w * M) with (M * (fst p + w - fst p)) by ring.
  apply quad_upper; [exact Hf | lra | intros; apply HM; lra].
Qed.

Lemma sep_area_ge w m (p : Q * Q) :
  0 <= w -> (forall x, xmin <= x <= xmax + w -> m <= f x) ->
  snd p = fst p + w /\ xmin <= fst p <= xmax -> w * m <= sep_area f p.
Proof.
  intros Hw Hm (Hp & Hs). unfold sep_area, area_under_curve. rewrite Hp.
  setoid_replace (w * m) with (m * (fst p + w - fst p)) by ring.
  apply quad_lower; [exact Hf | lra | intros; apply Hm; lra].
Qed.

(** With [m <= f] where separators lie, the [k] separators add at
    least [k * w * m] to the [k + 1] patches. *)
Lemma layout_total_lower area_patch w m k st :
  0 <= w -> (forall x, xmin <= x <= xmax + w -> m <= f x) ->
  layout_inv f xmin xmax area_patch w k st ->
  inject_Z (Z.of_nat (S k)) * area_patch + inject_Z (Z.of_nat k) * (w * m) <= fst st.
Proof.
  intros Hw Hm (Hlen & Hall & Htot).
  assert (inject_Z (Z.of_nat k) * (w * m) <= qsum (map (sep_area f) (snd st))).
  { rewrite <- Hlen, <- (length_map (sep_area f)). apply qsum_ge_bound, Forall_map.
    eapply Forall_impl; [|exact Hall]. intros p Hp. now apply sep_area_ge. }
  lra.
Qed.

(** Patches plus separators: between [k + 1] patches and [k + 1] patches
    plus [k] separators at the largest width [M]. *)
Lemma layout_total_bounds area_patch w M k st :
  0 <= w -> (forall x, xmin <= x <= xmax + w -> f x <= M) ->
  layout_inv f xmin xmax area_patch w k st ->
  inject_Z (Z.of_nat (S k)) * area_patch <= fst st <=
  inject_Z (Z.of_nat (S k)) * area_patch + inject_Z (Z.of_nat k) * (w * M).
Proof.
  intros Hw HM (Hlen & Hall & Htot).
  assert (0 <= qsum (map (sep_area f) (snd st))).
  { apply qsum_nonneg, Forall_map. eapply Forall_impl; [|exact Hall].
    intros p [Hp _]. now apply sep_area_nonneg with w. }
  assert (qsum (map (sep_area f) (snd st)) <= inject_Z (Z.of_nat k) * (w * M)).
  { rewrite <- Hlen, <- (length_map (sep_area f)). apply qsum_le_bound, Forall_map.
    eapply Forall_impl; [|exact Hall]. intros p Hp. now apply sep_area_le. }
  lra.
Qed.

(** Each abstract step starts from a total the cumulative area reaches,
    and adds at least one patch: after [n] more steps the first total
    plus [n] patches still fits under the curve. *)
Lemma steps_first_total area_patch w n st st' :
  0 <= w -> layout_steps f xmin xmax area_patch w (S n) st st' ->
  fst st + inject_Z (Z.of_nat n) * area_patch <= A xmax.
Proof.
  intros Hw. revert st. induction n as [|n IH]; intros st Hs;
    inversion Hs as [|? ? st1 ? Hp Hrest]; subst;
    destruct Hp as [total seps x l u Hl Hu _ Hy]; cbn [fst] in *.
  - pose proof (area_mono f xmin xmax Hf (fun x _ => Hpos x) u xmax ltac:(lra) ltac:(lra) ltac:(lra)).
    change (inject_Z (Z.of_nat 0)) with 0. lra.
  - specialize (IH _ Hrest). cbn [fst] in IH.
    pose proof (sep_area_nonneg w (x, x + w) Hw eq_refl). unfold sep_area in *. cbn [fst snd] in *.
    rewrite inject_Z_succ. lra.
Qed.

(** C7. Bounds on the covered area: with separators of width [w >= 0]
    and [m <= f <= M] where they can lie, [compute_covered_area] covers
    [k + 1] patches plus between [k * w * m] and [k * w * M] of separator
    area, for [k = max(npatches - 1, 0)] iterations. *)
Theorem compute_covered_area_bounds area_patch npatches w m M total seps :
  0 <= w -> (forall x, xmin <= x <= xmax + w -> m <= f x <= M) ->
  compute_covered_area f area_patch npatches w xmin xmax = Ok (total, seps) ->
  let k := inject_Z (Z.of_nat (Z.to_nat (npatches - 1))) in
  (k + 1) * area_patch + k * (w * m) <= total <= (k + 1) * area_patch + k * (w * M).
Proof.
  intros Hw HmM H k.
  pose proof (covered_area_inv f xmin xmax Hf Hrange (fun x _ => Hpos x) _ _ _ _ H) as Hinv.
  pose proof (layout_total_bounds area_patch w M _ _ Hw (fun x Hx => proj2 (HmM x Hx)) Hinv) as Hb.
  pose proof (layout_total_lower area_patch w m _ _ Hw (fun x Hx => proj1 (HmM x Hx)) Hinv) as Hl.
  cbn [fst] in Hb, Hl. subst k. rewrite inject_Z_succ in Hb, Hl. lra.
Qed.

Lemma covered_loop_returns area_patch w M (m j : nat) st :
  0 <= area_patch -> 0 <= w -> (forall x, xmin <= x <= xmax + w -> f x <= M) ->
  layout_inv f xmin xmax area_patch w j st ->
  (forall i, (j <= i < j + m)%nat ->
     inject_Z (Z.of_nat (S i)) * area_patch + inject_Z (Z.of_nat i) * (w * M) <= A xmax) ->
  exists r, covered_loop f area_patch w xmin xmax m st = Ok r.
Proof.
  intros Ha Hw HM. revert j st. induction m as [|m IH]; intros j st Hinv Hfit; [simpl; eauto|].
  destruct (layout_total_bounds area_patch w M j st Hw HM Hinv) as [Hlo Hhi].
  specialize (Hfit j ltac:(lia)) as Hj.
  assert (0 <= inject_Z (Z.of_nat (S j)) * area_patch)
    by (apply Qmult_le_0_compat; [apply inject_Z_nonneg|]; lia || lra).
  destruct st as [t seps]. cbn [fst] in Hlo, Hhi.
  destruct (inverse_area_total f xmin xmax Hf Hrange t ltac:(lra))
    as [x Hx].
  set (st' := (t + (area_under_curve f x (x + w) + area_patch), seps ++ [(x, x + w)])).
  assert (Hstep : covered_step f area_patch w xmin xmax (t, seps) = Ok st')
    by (simpl; now rewrite Hx).
  cbn [covered_loop]. rewrite Hstep. cbn [bind]. apply (IH (S j)).
  - eapply place_inv; [exact Hinv|].
    exact (covered_step_refines f xmin xmax Hf Hrange (fun x _ => Hpos x) _ _ _ _ Hstep).
  - intros i Hi. apply Hfit. lia.
Qed.

(** C11. [compute_covered_area] returns (raises nothing) whenever the
    [npatches - 1] patches and [npatches - 2] separators at the largest
    width [M] placed before the last inversion fit under the total area. *)
Theorem compute_covered_area_returns (area_patch : Q) (npatches : Z) (w M : Q) :
  0 <= area_patch -> 0 <= w -> (forall x, xmin <= x <= xmax + w -> f x <= M) ->
  inject_Z (npatches - 1) * area_patch + inject_Z (npatches - 2) * (w * M) <= A xmax ->
  exists r, compute_covered_area f area_patch npatches w xmin xmax = Ok r.
Proof.
  intros Ha Hw HM Hfit. unfold compute_covered_area.
  destruct (Z.le_gt_cases npatches 1) as [Hle|Hgt].
  { replace (Z.to_nat (npatches - 1)) with 0%nat by lia. simpl. eauto. }
  assert (HM0 : 0 <= w * M).
  { apply Qmult_le_0_compat; [exact Hw|]. pose proof (Hpos xmin). pose proof (HM xmin ltac:(lra)). lra. }
  apply (covered_loop_returns area_patch w M _ 0 _ Ha Hw HM (layout_inv_init f xmin xmax area_patch w)).
  intros i Hi.
  assert (Hi1 : inject_Z (Z.of_nat (S i)) <= inject_Z (npatches - 1)) by (rewrite <- Zle_Qle; lia).
  assert (Hi2 : inject_Z (Z.of_nat i) <= inject_Z (npatches - 2)) by (rewrite <- Zle_Qle; lia).
  pose proof (Qmult_le_compat_r _ _ _ Hi1 Ha). pose proof (Qmult_le_compat_r _ _ _ Hi2 HM0). lra.
Qed.

End Bounds.
End CoveredArea.
