(* ===== verification/PatchOptimizer.v ===== *)
(** * The patch-area optimizer ([optimize_patch_area], adams_patch.py, lines 84-123)

    [optimize_patch_area] checks [w * (npatches - 1) < xmax - xmin], returns
    the total area when [npatches = 0], samples [f] on
    [numpy.linspace(xmin, xmax, 100)] for [f_max], and calls [brentq] on
    [optimize_target] (the code's local [target]: total area minus the area
    [compute_covered_area] covers) over the bracket
    [[0.9 * area_patch_min, 1.1 * area_patch_max]].  [main_solve] is the
    solve step of the [__main__] block.  The theorems show when it raises
    [ValueError('Unsatisfieable constraints')], the [npatches = 0] short
    cut, and that every satisfiable problem with twelve patches or more
    makes it raise brentq's [ValueError]. *)

From Stdlib Require Import QArith Qminmax Lqa ZArith Lia List String.
From S2P Require Import Prelude Numerics NumPy InverseArea CoveredArea.
Import ListNotations.
Open Scope Q_scope.
Open Scope py_scope.

Definition unsatisfiable_msg : string := "Unsatisfieable constraints".

Section PatchOptimizer.
Context `{QD : Quadrature} `{RF : RootFinder}.

(** The local [target] of [optimize_patch_area]. *)
Definition optimize_target (f : Q -> Q) (total_available_area : Q) (npatches : Z)
    (w xmin xmax : Q) (area_patch : Q) : res Q :=
  let* '(area_patched, _) := compute_covered_area f area_patch npatches w xmin xmax in
  Ok (total_available_area - area_patched).

(** [area_patch_min] and [area_patch_max] of [optimize_patch_area]: the
    bracket before it is widened by 10%. *)
Definition area_patch_min (total_available_area w f_max : Q) (npatches : Z) : Q :=
  Qmax ((total_available_area - (w * f_max) * inject_Z (npatches - 1))
        / inject_Z npatches) 0.

Definition area_patch_max (total_available_area : Q) (npatches : Z) : Q :=
  total_available_area / inject_Z npatches.

Definition optimize_patch_area (f : Q -> Q) (xmin xmax : Q) (npatches : Z) (w : Q)
    : res Q :=
  if Qle_bool (xmax - xmin) (w * inject_Z (npatches - 1))
  then Err (ValueError unsatisfiable_msg)
  else
    let total_available_area := area_under_curve f xmin xmax in
    if Z.eqb npatches 0 then Ok total_available_area
    else
      let* f_max := np_max (map f (linspace xmin xmax 100)) in
      brentq (optimize_target f total_available_area npatches w xmin xmax)
             (area_patch_min total_available_area w f_max npatches * (9 # 10))
             (area_patch_max total_available_area npatches * (11 # 10)).

(** The [__main__] block's problem: [fupper(x) - flower(x)] on [0, 3] with
    three patches and separators of width 0.3, solved and laid out. *)
Definition main_area_function (x : Q) : Q := (x * x + 1) - 0 * x.

Definition main_solve : res (Q * list (Q * Q)) :=
  let* area_patch := optimize_patch_area main_area_function 0 3 3 (3 # 10) in
  compute_covered_area main_area_function area_patch 3 (3 # 10) 0 3.

Section Solver.
Variables (f : Q -> Q) (xmin xmax : Q).
Hypothesis Hf : Integrable f.
Hypothesis Hrange : xmin <= xmax.
Hypothesis Hpos : forall x, xmin <= x <= xmax -> 0 <= f x.

Local Abbreviation A := (area_under_curve f xmin).

Lemma optimize_target_err total npatches w a e :
  optimize_target f total npatches w xmin xmax a = Err e ->
  e = ValueError brentq_sign_msg.
Proof.
  unfold optimize_target, compute_covered_area. intros H.
  apply bind_Err_iff in H as [H | ([t seps] & _ & H)]; [|discriminate].
  exact (covered_loop_err f xmin xmax Hf Hrange Hpos _ _ _ _ _ H).
Qed.

(** The sampled maximum of a non-negative width function is non-negative. *)
Lemma f_max_nonneg (fm : Q) :
  np_max (map f (linspace xmin xmax 100)) = Ok fm -> 0 <= fm.
Proof.
  intros Hm. apply np_max_ub in Hm.
  pose proof (length_linspace xmin xmax 100) as Hlen.
  destruct (linspace xmin xmax 100) as [|s rest] eqn:E; [discriminate|].
  inversion Hm as [|? ? Hs _]; subst.
  assert (Hin : In s (linspace xmin xmax 100)) by (rewrite E; now left).
  pose proof (Hpos s (linspace_bounds _ _ _ _ Hrange Hin)). lra.
Qed.

Lemma bracket_ordered (w fm : Q) (npatches : Z) :
  0 <= w -> 0 <= fm -> (1 <= npatches)%Z ->
  area_patch_min (A xmax) w fm npatches * (9 # 10)
    <= area_patch_max (A xmax) npatches * (11 # 10).
Proof.
  intros Hw Hfm Hn. unfold area_patch_min, area_patch_max.
  pose proof (area_total_nonneg f xmin xmax Hf Hrange Hpos).
  assert (HN : 0 < inject_Z npatches) by (apply inject_Z_pos; lia).
  assert (0 <= inject_Z (npatches - 1)) by (apply inject_Z_nonneg; lia).
  assert (0 <= w * fm * inject_Z (npatches - 1)) by
    (apply Qmult_le_0_compat; [apply Qmult_le_0_compat|]; lra).
  assert (Qmax ((A xmax - w * fm * inject_Z (npatches - 1)) / inject_Z npatches) 0
          <= A xmax / inject_Z npatches).
  { apply Q.max_lub; [apply Qdiv_le_mono_pos | apply Qdiv_nonneg]; lra. }
  pose proof (Q.le_max_r ((A xmax - w * fm * inject_Z (npatches - 1)) / inject_Z npatches) 0).
  lra.
Qed.

(** C1. [optimize_patch_area] raises [ValueError('Unsatisfieable
    constraints')] exactly when [w * (npatches - 1) >= xmax - xmin]; in
    that case it raises before it evaluates [f] at all, and on a
    satisfiable problem no other failure carries that message. *)
Theorem optimize_patch_area_unsatisfiable (npatches : Z) (w : Q) :
  (0 <= npatches)%Z -> 0 <= w ->
  optimize_patch_area f xmin xmax npatches w = Err (ValueError unsatisfiable_msg) <->
  xmax - xmin <= w * inject_Z (npatches - 1).
Proof.
  intros Hn Hw. unfold optimize_patch_area. qcase; [tauto|].
  split; [intros H; exfalso | lra].
  destruct (Z.eqb_spec npatches 0); [discriminate|].
  apply bind_Err_iff in H as [H | (fm & Hfm & H)].
  { destruct (linspace xmin xmax 100); discriminate. }
  apply brentq_err_src in H as [(x & _ & Hx) | [[=] _]].
  - apply optimize_target_err in Hx. discriminate.
  - apply bracket_ordered; [exact Hw | now apply f_max_nonneg with (fm := fm) | lia].
Qed.

(** C6. With no patch the solver returns the whole area under the
    curve, whenever the constraint check passes ([-w < xmax - xmin]). *)
Theorem optimize_patch_area_no_patches (w : Q) :
  - w < xmax - xmin ->
  optimize_patch_area f xmin xmax 0 w = Ok (area_under_curve f xmin xmax).
Proof.
  intros H. unfold optimize_patch_area.
  change (inject_Z (0 - 1)) with (-1). qcase; [lra | reflexivity].
Qed.


(** C10. What the solver returns: for [npatches >= 1] a result of
    [optimize_patch_area] lies in the widened bracket, within [xtol] of an
    interval [[l, u]] at both ends of which [compute_covered_area] returns,
    with covered areas on either side of the total area. *)
Theorem optimize_patch_area_result (npatches : Z) (w r : Q) :
  0 <= w -> (1 <= npatches)%Z -> optimize_patch_area f xmin xmax npatches w = Ok r ->
  exists fm l u tl sl tu su,
    np_max (map f (linspace xmin xmax 100)) = Ok fm /\
    area_patch_min (A xmax) w fm npatches * (9 # 10) <= l <= r /\
    r <= u <= area_patch_max (A xmax) npatches * (11 # 10) /\
    u - l <= xtol /\
    compute_covered_area f l npatches w xmin xmax = Ok (tl, sl) /\
    compute_covered_area f u npatches w xmin xmax = Ok (tu, su) /\
    (A xmax - tl) * (A xmax - tu) <= 0.
Proof.
  intros Hw Hn. unfold optimize_patch_area. qcase; [discriminate|].
  destruct (Z.eqb_spec npatches 0); [lia|].
  destruct (np_max (map f (linspace xmin xmax 100))) as [fm|e] eqn:Hfm; [simpl|discriminate].
  intros Hr. destruct (brentq_sound _ _ _ _ (bracket_ordered w fm npatches Hw
                         (f_max_nonneg fm Hfm) Hn) Hr)
    as (l & u & Hl & Hu & Htol & gl & gu & Hgl & Hgu & Hprod).
  unfold optimize_target in Hgl, Hgu.
  apply bind_Ok_iff in Hgl as ([tl sl] & Hcl & [= <-]).
  apply bind_Ok_iff in Hgu as ([tu su] & Hcu & [= <-]).
  exists fm, l, u, tl, sl, tu, su. split_and; auto; lra.
Qed.

End Solver.

(** ** The bracket, for a width function non-negative everywhere *)

Section NonnegWidth.
Variables (f : Q -> Q) (xmin xmax : Q).
Hypothesis Hf : Integrable f.
Hypothesis Hrange : xmin <= xmax.
Hypothesis Hnonneg : forall x, 0 <= f x.

Let Hpos : forall x, xmin <= x <= xmax -> 0 <= f x.
Proof. intros x _. apply Hnonneg. Qed.

Local Abbreviation A := (area_under_curve f xmin).

(** C2. The solver fails on every satisfiable problem with twelve patches
    or more: at the upper end of its bracket, [1.1 * total / npatches],
    the [npatches - 1] patches placed before the last separator already
    cover more than the total area, so the inner [brentq] of
    [inverse_area_under_curve] raises [ValueError] and
    [optimize_patch_area] propagates it. *)
Theorem optimize_patch_area_many_patches_raise npatches w :
  0 <= w -> (12 <= npatches)%Z -> 0 < A xmax ->
  w * inject_Z (npatches - 1) < xmax - xmin ->
  optimize_patch_area f xmin xmax npatches w = Err (ValueError brentq_sign_msg).
Proof.
  intros Hw Hn HT Hfeas. unfold optimize_patch_area. qcase; [lra|].
  destruct (Z.eqb_spec npatches 0); [lia|].
  destruct (np_max_linspace_ok f xmin xmax) as [fm Hfm]. rewrite Hfm. simpl.
  set (hi := area_patch_max (A xmax) npatches * (11 # 10)).
  assert (Hhi : optimize_target f (A xmax) npatches w xmin xmax hi =
                Err (ValueError brentq_sign_msg)).
  { unfold optimize_target.
    destruct (compute_covered_area f hi npatches w xmin xmax) as [[t seps]|e] eqn:Hc; simpl.
    - exfalso. apply (covered_loop_refines f xmin xmax Hf Hrange Hpos) in Hc.
      replace (Z.to_nat (npatches - 1)) with (S (Z.to_nat (npatches - 2))) in Hc by lia.
      apply (steps_first_total f xmin xmax Hf Hnonneg) in Hc; [|exact Hw]. simpl in Hc.
      rewrite (inject_Z_to_nat (npatches - 2)) in Hc by lia.
      assert (HN : 12 <= inject_Z npatches) by (change 12 with (inject_Z 12); now rewrite <- Zle_Qle).
      assert (Hhi : hi * inject_Z npatches == A xmax * (11 # 10)).
      { unfold hi, area_patch_max. field. lra. }
      rewrite inject_Z_sub in Hc. change (inject_Z 2) with 2 in Hc. nra.
    - unfold compute_covered_area in Hc.
      now rewrite (covered_loop_err f xmin xmax Hf Hrange Hpos _ _ _ _ _ Hc). }
  destruct (optimize_target f (A xmax) npatches w xmin xmax
              (area_patch_min (A xmax) w fm npatches * (9 # 10))) as [g1|e1] eqn:Hlo.
  - exact (brentq_err_b _ _ _ _ _ Hlo Hhi).
  - rewrite (brentq_err_a _ _ _ _ Hlo).
    now rewrite (optimize_target_err f xmin xmax Hf Hrange Hpos _ _ _ _ _ Hlo).
Qed.

(** The bracket has the signs [brentq] needs, whenever [f_max] bounds
    [f] where the separators can lie and the separators at that height fit
    under the total area: at the lower end [0.9 * area_patch_min] the
    target (total area minus covered area) is non-negative, at the upper
    end [1.1 * area_patch_max] it is non-positive. *)
Theorem optimize_bracket_signs (npatches : Z) (w fm : Q) :
  0 <= w -> (1 <= npatches)%Z ->
  (forall x, xmin <= x <= xmax + w -> f x <= fm) ->
  w * fm * inject_Z (npatches - 1) <= A xmax ->
  (forall g, optimize_target f (A xmax) npatches w xmin xmax
               (area_patch_min (A xmax) w fm npatches * (9 # 10)) = Ok g -> 0 <= g) /\
  (forall g, optimize_target f (A xmax) npatches w xmin xmax
               (area_patch_max (A xmax) npatches * (11 # 10)) = Ok g -> g <= 0).
Proof.
  intros Hw Hn HM Hfit.
  pose proof (area_total_nonneg f xmin xmax Hf Hrange Hpos) as HT.
  assert (HN : 0 < inject_Z npatches) by (apply inject_Z_pos; lia).
  assert (Hk : inject_Z (Z.of_nat (Z.to_nat (npatches - 1))) == inject_Z npatches - 1).
  { rewrite inject_Z_to_nat, inject_Z_sub by lia. reflexivity. }
  split; intros g Hg; unfold optimize_target in Hg;
    apply bind_Ok_iff in Hg as ([t seps] & Hc & [= <-]);
    destruct (layout_total_bounds f xmin xmax Hf Hnonneg _ _ fm _ _ Hw HM
                (covered_area_inv f xmin xmax Hf Hrange Hpos _ _ _ _ Hc)) as [Hlo Hhi];
    cbn [fst] in Hlo, Hhi; rewrite inject_Z_succ, Hk in Hlo, Hhi.
  - unfold area_patch_min in Hhi.
    rewrite Q.max_l in Hhi by (apply Qdiv_nonneg; lra).
    setoid_replace ((inject_Z npatches - 1 + 1) *
      ((A xmax - w * fm * inject_Z (npatches - 1)) / inject_Z npatches * (9 # 10)))
      with ((A xmax - w * fm * inject_Z (npatches - 1)) * (9 # 10)) in Hhi by (field; lra).
    rewrite inject_Z_sub in *. change (inject_Z 1) with 1 in *. nra.
  - unfold area_patch_max in Hlo.
    setoid_replace ((inject_Z npatches - 1 + 1) * (A xmax / inject_Z npatches * (11 # 10)))
      with (A xmax * (11 # 10)) in Hlo by (field; lra).
    lra.
Qed.

End NonnegWidth.
End PatchOptimizer.
