(* ===== verification/AdamsPatchDemo.v ===== *)
(** * The plot of the [__main__] block of [adams_patch.py]

    After solving its problem ([PatchOptimizer.main_solve]), the
    [__main__] block of [src/adams_patch/adams_patch.py] draws the
    result with matplotlib.  It draws the two curves, the patch region,
    80 randomly placed flowers, one grey band per separator (only the
    first of them labelled), and a legend.  The drawing is modelled as the
    list of matplotlib calls the block makes ([plot_cmd]), in order.
    numpy's random draws are an input ([draws]): the block's randomness
    is whatever [np.random] returns, and the theorems hold for every draw
    in [[0, 1]].

    What the block promises its reader is checked on this trace.  Every
    flower lies between the two curves over [[xmin, xmax]], and the
    legend lists [patches], [flowers] and, when there is a separator,
    [separators] once: the loop's [label = None] reset keeps the later
    bands out of the legend. *)

From Stdlib Require Import QArith Qminmax Lqa ZArith Lia List String.
From S2P Require Import Prelude Numerics NumPy InverseArea CoveredArea PatchOptimizer.
Import ListNotations.
Open Scope Q_scope.
Open Scope py_scope.

(** [flower = lambda x: 0*x] and [fupper = lambda x: x**2 + 1]. *)
Definition main_flower (x : Q) : Q := 0 * x.
Definition main_fupper (x : Q) : Q := x * x + 1.

(** The matplotlib calls of the block. *)
Inductive plot_cmd :=
| PltShow
| Subplots
| AxPlot (xs ys : list Q) (color : string)
| FillBetween (xs lower upper : list Q) (where_ : option (list bool)) (facecolor : string)
    (alpha : option Q) (label : option string)
| Scatter (xs ys : list Q) (colors : list string) (sizes : list Q) (marker label : string)
| Legend.

(** What [np.random] returns to the block: [rand(n_flowers)] for the
    flowers' positions, one [rand()] per flower for its height,
    [choice(palette, size=n_flowers)] and [rand(n_flowers)] for the sizes. *)
Record draws := mk_draws {
  rand_x : list Q; rand_y : list Q; rand_colors : list string; rand_sizes : list Q }.

Definition n_flowers : nat := 80.
Definition palette : list string := ["r"; "b"; "y"; "c"; "m"; "y"]%string.

(** [xmin + (xmax - xmin) * np.random.rand(n_flowers)] *)
Definition flowers_x (xmin xmax : Q) (d : draws) : list Q :=
  map (fun u => xmin + (xmax - xmin) * u) d.(rand_x).

(** [[flower(x) + (fupper(x) - flower(x)) * np.random.rand() for x in flowers_x]] *)
Definition flowers_y (flower fupper : Q -> Q) (fx vs : list Q) : list Q :=
  map (fun '(x, v) => flower x + (fupper x - flower x) * v) (combine fx vs).

(** [where=(x >= separator_xmin) & (x < separator_xmax)] *)
Definition separator_mask (x : list Q) (sep : Q * Q) : list bool :=
  map (fun t => Qle_bool (fst sep) t && negb (Qle_bool (snd sep) t))%bool x.

(** [label = 'separators'; for ...: ax.fill_between(..., label=label); label = None] *)
Fixpoint separator_fills (x ylower yupper : list Q) (seps : list (Q * Q))
    (label : option string) : list plot_cmd :=
  match seps with
  | [] => []
  | s :: rest =>
      FillBetween x ylower yupper (Some (separator_mask x s)) "grey" None label
        :: separator_fills x ylower yupper rest None
  end.

(** Lines 126 to 159: the drawing, for the separators [seps]. *)
Definition plot_layout (flower fupper : Q -> Q) (xmin xmax : Q) (seps : list (Q * Q))
    (d : draws) : list plot_cmd :=
  let x := linspace xmin xmax 100 in
  let ylower := map flower x in
  let yupper := map fupper x in
  let fx := flowers_x xmin xmax d in
  let fy := flowers_y flower fupper fx d.(rand_y) in
  [PltShow; Subplots; AxPlot x ylower "grey"; AxPlot x yupper "grey";
   FillBetween x ylower yupper None "green" (Some (1 # 2)) (Some "patches");
   Scatter fx fy d.(rand_colors) (map (fun u => u * 30) d.(rand_sizes)) "*" "flowers"]%string
  ++ separator_fills x ylower yupper seps (Some "separators"%string) ++ [Legend].

(** The whole block: solve, lay out the separators, draw. *)
Definition main_block `{Quadrature} `{RootFinder} (d : draws) : res (list plot_cmd) :=
  let* '(_, separator_locations) := main_solve in
  Ok (plot_layout main_flower main_fupper 0 3 separator_locations d).

(** ** What the trace shows *)

(** The points of the scatter calls. *)
Definition scatter_points (cmds : list plot_cmd) : list (Q * Q) :=
  flat_map (fun c => match c with Scatter xs ys _ _ _ _ => combine xs ys | _ => [] end) cmds.

(** The entries of [ax.legend()]: the labels given to artists. *)
Definition legend_labels (cmds : list plot_cmd) : list string :=
  flat_map (fun c => match c with
                     | FillBetween _ _ _ _ _ _ (Some l) => [l]
                     | Scatter _ _ _ _ _ l => [l]
                     | _ => []
                     end) cmds.

(** Every draw of [np.random.rand] lies in [[0, 1]]. *)
Definition unit_draws (d : draws) : bool :=
  forallb (fun u => Qle_bool 0 u && Qle_bool u 1)%bool (d.(rand_x) ++ d.(rand_y)).

Lemma separator_fills_unlabelled (x lo hi : list Q) (seps : list (Q * Q)) :
  legend_labels (separator_fills x lo hi seps None) = [] /\
  scatter_points (separator_fills x lo hi seps None) = [].
Proof. induction seps as [|s seps IH]; cbn; [split; reflexivity | exact IH]. Qed.

(** The separator bands add the first band's label to the legend, once. *)
Lemma separator_fills_labels (x lo hi : list Q) (seps : list (Q * Q)) (l : string) :
  legend_labels (separator_fills x lo hi seps (Some l)) =
    match seps with [] => [] | _ => [l] end /\
  scatter_points (separator_fills x lo hi seps (Some l)) = [].
Proof.
  destruct seps as [|s seps]; [split; reflexivity|].
  destruct (separator_fills_unlabelled x lo hi seps) as [H1 H2].
  unfold legend_labels, scatter_points in *. cbn [separator_fills flat_map].
  rewrite H1, H2. split; reflexivity.
Qed.

Lemma unit_draws_spec (d : draws) :
  unit_draws d = true ->
  Forall (fun u => 0 <= u <= 1) d.(rand_x) /\ Forall (fun u => 0 <= u <= 1) d.(rand_y).
Proof.
  unfold unit_draws. rewrite forallb_forall. intros H.
  split; apply Forall_forall; intros u Hu;
    destruct (andb_prop _ _ (H u ltac:(apply in_or_app; auto))) as [H1 H2];
    apply Qle_bool_iff in H1, H2; lra.
Qed.

Lemma flowers_x_bounds (xmin xmax : Q) (d : draws) :
  xmin <= xmax -> Forall (fun u => 0 <= u <= 1) d.(rand_x) ->
  Forall (fun x => xmin <= x <= xmax) (flowers_x xmin xmax d).
Proof.
  intros Hr Hu. unfold flowers_x. apply Forall_map.
  eapply Forall_impl; [|exact Hu]. intros u Hu1. cbv beta in *.
  assert (0 <= (xmax - xmin) * u) by (apply Qmult_le_0_compat; lra).
  assert (0 <= (xmax - xmin) * (1 - u)) by (apply Qmult_le_0_compat; lra).
  lra.
Qed.

(** A flower at [x] is drawn between [flower(x)] and [fupper(x)]. *)
Lemma flowers_between (flower fupper : Q -> Q) (lo hi : Q) (fx vs : list Q) :
  Forall (fun x => lo <= x <= hi) fx -> Forall (fun v => 0 <= v <= 1) vs ->
  (forall x, lo <= x <= hi -> flower x <= fupper x) ->
  forall p, In p (combine fx (flowers_y flower fupper fx vs)) ->
    lo <= fst p <= hi /\ flower (fst p) <= snd p <= fupper (fst p).
Proof.
  intros Hx. revert vs. unfold flowers_y.
  induction Hx as [|x fx Hx0 _ IH]; intros vs Hv Hf p Hp; [destruct Hp|].
  destruct vs as [|v vs]; [destruct Hp|].
  inversion Hv as [|? ? Hv0 Hvs]; subst.
  destruct Hp as [<- | Hp]; [|exact (IH vs Hvs Hf p Hp)].
  cbn. pose proof (Hf x Hx0). split; [exact Hx0|].
  assert (0 <= (fupper x - flower x) * v) by (apply Qmult_le_0_compat; lra).
  assert (0 <= (fupper x - flower x) * (1 - v)) by (apply Qmult_le_0_compat; lra).
  lra.
Qed.

(** C18. Whatever [np.random] returns in [[0, 1]], the plot of the
    [__main__] block draws every flower inside the patch region, between
    [flower(x)] and [fupper(x)] over [[xmin, xmax]].  Its legend lists
    [patches], [flowers] and, if there is a separator, [separators] exactly
    once, because the loop resets [label] to [None] after the first band. *)
Theorem plot_layout_flowers_and_legend (flower fupper : Q -> Q) (xmin xmax : Q)
    (seps : list (Q * Q)) (d : draws) :
  xmin <= xmax -> (forall x, xmin <= x <= xmax -> flower x <= fupper x) ->
  unit_draws d = true ->
  (forall p, In p (scatter_points (plot_layout flower fupper xmin xmax seps d)) ->
     xmin <= fst p <= xmax /\ flower (fst p) <= snd p <= fupper (fst p)) /\
  legend_labels (plot_layout flower fupper xmin xmax seps d) =
    List.app ["patches"; "flowers"]%string (match seps with [] => [] | _ => ["separators"%string] end).
Proof.
  intros Hr Hf Hd. destruct (unit_draws_spec d Hd) as [Hux Huy].
  destruct (separator_fills_labels (linspace xmin xmax 100) (map flower (linspace xmin xmax 100))
              (map fupper (linspace xmin xmax 100)) seps "separators") as [Hl Hs].
  unfold plot_layout, scatter_points, legend_labels in *. cbn [flat_map app].
  rewrite !flat_map_app. rewrite Hl, Hs. split.
  - intros p Hp. cbn [flat_map app] in Hp. rewrite !app_nil_r in Hp.
    exact (flowers_between flower fupper xmin xmax _ _ (flowers_x_bounds xmin xmax d Hr Hux) Huy Hf p Hp).
  - cbn [flat_map]. now rewrite app_nil_r.
Qed.
