(* ===== verification/Trapezoid.v ===== *)
(** * The trapezoidal rule, two implementations

    [src/doctest/solutions.py:integrate_using_trapezoidal_rule] and
    [src/pytest/solutions.py:integrate] both integrate a function sampled on
    a grid [x] by the trapezoidal rule, with numpy array arithmetic written
    differently (halving every term before the sum, or the sum after).  The
    function [fun] is applied to the whole array, which for the lambdas of
    the repository is the elementwise application [map fn x].  Both are
    proved equal to the textbook sum [trapezoid_ref] over consecutive
    points; that sum is exact on affine functions, additive under
    concatenation of grids, monotone in the integrand, and bounded by the
    integrand's bounds times the grid's width. *)

From Stdlib Require Import QArith Qminmax Lqa ZArith Lia List String Morphisms.
From S2P Require Import Prelude NumPy.
Import ListNotations.
Open Scope Q_scope.

(** [((fun_x[:-1] + fun_x[1:])/2 * np.diff(x)).sum()] *)
Definition integrate_using_trapezoidal_rule (fn : Q -> Q) (x : list Q) : Q :=
  let fun_x := map fn x in
  qsum (np_mul (np_div_scalar (np_add (removelast fun_x) (tl fun_x)) 2) (np_diff x)).

(** [np.sum((y[:-1] + y[1:]) * np.diff(x)) / 2] *)
Definition integrate (f : Q -> Q) (x : list Q) : Q :=
  let y := map f x in
  qsum (np_mul (np_add (removelast y) (tl y)) (np_diff x)) / 2.

(** The reference: one trapezoid per pair of consecutive grid points. *)
Definition trapezoid_ref (f : Q -> Q) (x : list Q) : Q :=
  qsum (map (fun '(a, b) => (b - a) * (f a + f b) / 2) (pairwise x)).

(** The antiderivative of [t |-> c1 * t + c0]. *)
Definition affine_primitive (c1 c0 t : Q) : Q := c1 * (t * t) / 2 + c0 * t.

(** Grid points in ascending order, as [np.linspace] produces them. *)
Definition ascending (x : list Q) : bool :=
  forallb (fun '(a, b) => Qle_bool a b) (pairwise x).

(** ** The implementations against the reference *)

Lemma np_mul_pairwise (g : Q * Q -> Q) (x : list Q) :
  np_mul (map g (pairwise x)) (np_diff x) =
  map (fun '(a, b) => g (a, b) * (b - a)) (pairwise x).
Proof.
  unfold np_mul, np_diff. induction (pairwise x) as [|[a b] l IH]; simpl; [reflexivity|].
  now rewrite IH.
Qed.

Ltac rewrite_np_mul :=
  match goal with
  | |- context [np_mul (map ?g (pairwise ?x)) (np_diff ?x)] => rewrite (np_mul_pairwise g x)
  end.

Lemma qsum_map_ext (A : Type) (g h : A -> Q) (l : list A) :
  (forall p, g p == h p) -> qsum (map g l) == qsum (map h l).
Proof.
  intros H. induction l as [|p l IH]; simpl; [reflexivity|]. rewrite H, IH. reflexivity.
Qed.

Lemma qsum_map_div2 (A : Type) (g : A -> Q) (l : list A) :
  qsum (map (fun p => g p / 2) l) == qsum (map g l) / 2.
Proof. induction l as [|p l IH]; simpl; [reflexivity|]. rewrite IH. field. Qed.

Lemma integrate_using_trapezoidal_rule_ref (fn : Q -> Q) (x : list Q) :
  integrate_using_trapezoidal_rule fn x == trapezoid_ref fn x.
Proof.
  unfold integrate_using_trapezoidal_rule, trapezoid_ref, np_div_scalar.
  rewrite np_add_slices, map_map.
  rewrite_np_mul.
  apply qsum_map_ext. intros [a b]. field.
Qed.

Lemma integrate_ref (f : Q -> Q) (x : list Q) : integrate f x == trapezoid_ref f x.
Proof.
  unfold integrate, trapezoid_ref.
  rewrite np_add_slices. rewrite_np_mul.
  rewrite <- qsum_map_div2. apply qsum_map_ext. intros [a b]. field.
Qed.

(** ** The reference sum *)

Lemma trapezoid_ref_cons2 (f : Q -> Q) (a b : Q) (x : list Q) :
  trapezoid_ref f (a :: b :: x) = (b - a) * (f a + f b) / 2 + trapezoid_ref f (b :: x).
Proof. reflexivity. Qed.

Lemma trapezoid_ref_single (f : Q -> Q) (a : Q) : trapezoid_ref f [a] = 0.
Proof. reflexivity. Qed.

#[export] Instance trapezoid_ref_proper :
  Proper (pointwise_relation Q Qeq ==> eq ==> Qeq) trapezoid_ref.
Proof.
  intros f g Hfg x y <-. unfold trapezoid_ref. apply qsum_map_ext.
  intros [a b]. rewrite (Hfg a), (Hfg b). reflexivity.
Qed.

Lemma pairwise_app_cons {A : Type} (l1 : list A) (m : A) (l2 : list A) :
  pairwise (l1 ++ m :: l2) = pairwise (l1 ++ [m]) ++ pairwise (m :: l2).
Proof.
  induction l1 as [|a l1 IH]; [reflexivity|].
  destruct l1 as [|b l1]; [reflexivity|].
  cbn [app] in *.
  rewrite (pairwise_cons2 a b (l1 ++ m :: l2)), (pairwise_cons2 a b (l1 ++ [m])), IH.
  reflexivity.
Qed.

Lemma last_cons_cons {A : Type} (a b : A) (x : list A) : last (b :: x) a = last x b.
Proof.
  revert a b. induction x as [|c x IH]; intros a b; [reflexivity|].
  change (last (c :: x) a = last (c :: x) b). rewrite !IH. reflexivity.
Qed.

Lemma trapezoid_ref_affine (c1 c0 a : Q) (x : list Q) :
  trapezoid_ref (fun t => c1 * t + c0) (a :: x) ==
  affine_primitive c1 c0 (last x a) - affine_primitive c1 c0 a.
Proof.
  unfold affine_primitive.
  revert a. induction x as [|b x IH]; intros a; [rewrite trapezoid_ref_single; cbn [last]; field|].
  rewrite trapezoid_ref_cons2, IH, last_cons_cons. cbv beta. field.
Qed.

Lemma trapezoid_term_bounds (lo hi a b fa fb : Q) :
  a <= b -> lo <= fa <= hi -> lo <= fb <= hi ->
  lo * (b - a) <= (b - a) * (fa + fb) / 2 <= hi * (b - a).
Proof.
  intros Hab Ha Hb.
  assert (E1 : (b - a) * (fa + fb) / 2 - lo * (b - a) == (b - a) * ((fa - lo) + (fb - lo)) / 2)
    by field.
  assert (E2 : hi * (b - a) - (b - a) * (fa + fb) / 2 == (b - a) * ((hi - fa) + (hi - fb)) / 2)
    by field.
  assert (0 <= (b - a) * ((fa - lo) + (fb - lo)) / 2)
    by (apply Qdiv_nonneg; [lra | apply Qmult_le_0_compat; lra]).
  assert (0 <= (b - a) * ((hi - fa) + (hi - fb)) / 2)
    by (apply Qdiv_nonneg; [lra | apply Qmult_le_0_compat; lra]).
  lra.
Qed.

Lemma ascending_cons2 (a b : Q) (x : list Q) :
  ascending (a :: b :: x) = true <-> a <= b /\ ascending (b :: x) = true.
Proof.
  unfold ascending. rewrite pairwise_cons2. cbn [forallb].
  rewrite andb_true_iff, Qle_bool_iff. reflexivity.
Qed.

Lemma trapezoid_ref_bounds (f : Q -> Q) (lo hi a : Q) (x : list Q) :
  ascending (a :: x) = true ->
  (forall t, In t (a :: x) -> lo <= f t <= hi) ->
  lo * (last x a - a) <= trapezoid_ref f (a :: x) <= hi * (last x a - a).
Proof.
  revert a. induction x as [|b x IH]; intros a Hasc Hf.
  - rewrite trapezoid_ref_single. simpl. lra.
  - apply ascending_cons2 in Hasc as [Hab Hasc'].
    pose proof (Hf a (or_introl eq_refl)) as Ha.
    pose proof (Hf b (or_intror (or_introl eq_refl))) as Hb.
    specialize (IH b Hasc' (fun t Ht => Hf t (or_intror Ht))). rewrite trapezoid_ref_cons2.
    rewrite last_cons_cons.
    pose proof (trapezoid_term_bounds lo hi a b (f a) (f b) Hab Ha Hb). lra.
Qed.

(** ** Properties of the two implementations *)

(** C13. The doctest's [integrate_using_trapezoidal_rule] (halve each
    trapezoid, then sum) and the pytest's [integrate] (sum, then halve)
    compute the same value on every function and every grid. *)
Theorem integrate_implementations_agree (fn : Q -> Q) (x : list Q) :
  integrate_using_trapezoidal_rule fn x == integrate fn x.
Proof. rewrite integrate_using_trapezoidal_rule_ref, integrate_ref. reflexivity. Qed.

(** C14. Both implementations are exact on affine integrands: on a
    nonempty grid, they return the antiderivative's difference between the
    last and the first grid point, whatever the spacing of the grid. *)
Theorem integrate_affine_exact (f : Q -> Q) (c1 c0 : Q) (x : list Q) :
  x <> [] -> (forall t, f t == c1 * t + c0) ->
  integrate f x == affine_primitive c1 c0 (last x 0) - affine_primitive c1 c0 (hd 0 x) /\
  integrate_using_trapezoidal_rule f x ==
    affine_primitive c1 c0 (last x 0) - affine_primitive c1 c0 (hd 0 x).
Proof.
  intros Hx Hf. destruct x as [|a x]; [congruence|].
  assert (Hext : pointwise_relation Q Qeq f (fun t => c1 * t + c0)) by exact Hf.
  rewrite integrate_ref, integrate_using_trapezoidal_rule_ref, Hext, trapezoid_ref_affine.
  cbn [hd]. rewrite last_cons_cons. split; reflexivity.
Qed.

(** Integrating over a grid split at one of its points gives the sum
    of the integrals over the two parts. *)
Theorem integrate_split (f : Q -> Q) (l1 : list Q) (m : Q) (l2 : list Q) :
  integrate f (l1 ++ m :: l2) == integrate f (l1 ++ [m]) + integrate f (m :: l2).
Proof.
  rewrite !integrate_ref. unfold trapezoid_ref.
  rewrite pairwise_app_cons, map_app, qsum_app. reflexivity.
Qed.

(** On an ascending grid where the integrand stays within
    [[lo, hi]] at every grid point, the integral lies between [lo] and [hi]
    times the width of the grid. *)
Theorem integrate_bounds (f : Q -> Q) (lo hi : Q) (x : list Q) :
  ascending x = true -> (forall t, In t x -> lo <= f t <= hi) ->
  lo * (last x 0 - hd 0 x) <= integrate f x <= hi * (last x 0 - hd 0 x).
Proof.
  intros Hasc Hf. rewrite integrate_ref. destruct x as [|a x]; [cbn; lra|].
  cbn [hd]. rewrite last_cons_cons. exact (trapezoid_ref_bounds f lo hi a x Hasc Hf).
Qed.

(** ** Witnesses: the doctest examples on [np.linspace(0, 1, 10)] *)

Lemma integrate_affine_exact_witness :
  integrate_using_trapezoidal_rule (fun t => 0 * t + 2) (linspace 0 1 10) == 2 /\
  integrate_using_trapezoidal_rule (fun t => t) (linspace 0 1 10) == 1 # 2.
Proof.
  split; eapply Qeq_trans.
  - apply (integrate_affine_exact (fun t => 0 * t + 2) 0 2 (linspace 0 1 10));
      [vm_compute; discriminate | intros t; reflexivity].
  - vm_compute. reflexivity.
  - apply (integrate_affine_exact (fun t => t) 1 0 (linspace 0 1 10));
      [vm_compute; discriminate | intros t; ring].
  - vm_compute. reflexivity.
Defined.

Lemma integrate_bounds_witness :
  0 * (last (linspace 0 1 10) 0 - hd 0 (linspace 0 1 10)) <= integrate (fun t => t) (linspace 0 1 10)
  <= 1 * (last (linspace 0 1 10) 0 - hd 0 (linspace 0 1 10)).
Proof.
  apply (integrate_bounds (fun t => t) 0 1 (linspace 0 1 10));
    [vm_compute; reflexivity | intros t Ht; exact (linspace_bounds 0 1 10 t ltac:(lra) Ht)].
Defined.
