(* ===== verification/Mean.v ===== *)
(** * [mean] and its property-based tests ([src/hypothesis/intro_mean_*.py])

    The five files each define the same [mean(x) = sum(x) / len(x)] and
    differ in the [test_mean] property and in the hypothesis strategy
    generating [x].  Each file is a module [IntroMean0] to [IntroMean4]
    with its own [mean] (the shared [mean] for [intro_mean_0]),
    [test_mean], [strategy] and decorated [hypothesis_test].
    Python's [sum], [len], [/], [min] and [max] are written out over a class
    [PyNum] of number types: [sum] folds [+] from the left starting at [0];
    [/] by a zero length raises [ZeroDivisionError]; [min]/[max] keep the
    first element and replace it when a later one compares [<] (resp. [>]),
    raising [ValueError] on an empty list.  A test run on one input [x] is
    an [outcome]: passed, an assertion failed, an exception escaped, or
    skipped by [assume].

    Two instances: exact rationals, on which every test from
    [intro_mean_1] on passes for every nonempty list, and IEEE binary64
    ([PrimFloat]), on which the tests evaluate by [vm_compute] and the
    inputs hypothesis reports are counterexamples (NaN, infinities,
    rounding, overflow). *)

From Stdlib Require Import QArith Qminmax Lqa ZArith Lia List String Floats Uint63.
From S2P Require Import Prelude.
Import ListNotations.
Open Scope Q_scope.

(** The number operations the tests use; the literal [1e-8] of
    [intro_mean_4] is [num_tol]. *)
Class PyNum (A : Type) := {
  num_zero : A;
  num_add : A -> A -> A;
  num_sub : A -> A -> A;
  num_div : A -> A -> A;
  num_of_nat : nat -> A;
  num_le : A -> A -> bool;
  num_lt : A -> A -> bool;
  num_tol : A
}.

Definition division_by_zero_msg : string := "division by zero".
Definition min_empty_msg : string := "min() arg is an empty sequence".
Definition max_empty_msg : string := "max() arg is an empty sequence".

Section PyMean.
Context {A : Type} `{PyNum A}.

(** [sum(x)]: [0 + x[0] + x[1] + ...]. *)
Definition py_sum (x : list A) : A := fold_left num_add x num_zero.

(** [mean(x) = sum(x) / len(x)] *)
Definition mean (x : list A) : res A :=
  if Nat.eqb (List.length x) 0 then Err (ZeroDivisionError division_by_zero_msg)
  else Ok (num_div (py_sum x) (num_of_nat (List.length x))).

(** [min(x)] and [max(x)] of CPython's [min_max]. *)
Definition py_min (x : list A) : res A :=
  match x with
  | [] => Err (ValueError min_empty_msg)
  | v :: vs => Ok (fold_left (fun cur item => if num_lt item cur then item else cur) vs v)
  end.

Definition py_max (x : list A) : res A :=
  match x with
  | [] => Err (ValueError max_empty_msg)
  | v :: vs => Ok (fold_left (fun cur item => if num_lt cur item then item else cur) vs v)
  end.

(** [assert lo <= m <= hi], the chained comparison evaluating [hi] only
    when [lo <= m] holds; an exception of [lo], [m] or [hi] escapes. *)
Definition assert_chain (lo : res A) (m : unit -> res A) (hi : unit -> res A) : outcome :=
  match lo with
  | Err e => Raised e
  | Ok l =>
      match m tt with
      | Err e => Raised e
      | Ok v =>
          if num_le l v then
            match hi tt with
            | Err e => Raised e
            | Ok h => if num_le v h then Passed else AssertionFailed
            end
          else AssertionFailed
      end
  end.

(** [assume(x)] skips the example when [x] is empty. *)
Definition assume_nonempty (x : list A) (body : outcome) : outcome :=
  match x with [] => Skipped | _ => body end.

End PyMean.

(** ** Exact rationals *)

#[export] Instance pynum_Q : PyNum Q := {|
  num_zero := 0;
  num_add := Qplus;
  num_sub := Qminus;
  num_div := Qdiv;
  num_of_nat n := inject_Z (Z.of_nat n);
  num_le := Qle_bool;
  num_lt x y := negb (Qle_bool y x);
  num_tol := 1 # 100000000
|}.

(** ** IEEE binary64, Python's [float] *)

(** [int] to [float] conversion of a length, exact below [2^53]. *)
Definition float_of_nat (n : nat) : float := PrimFloat.of_uint63 (Uint63.of_Z (Z.of_nat n)).

#[export] Instance pynum_float : PyNum float := {|
  num_zero := 0%float;
  num_add := PrimFloat.add;
  num_sub := PrimFloat.sub;
  num_div := PrimFloat.div;
  num_of_nat := float_of_nat;
  num_le := PrimFloat.leb;
  num_lt := PrimFloat.ltb;
  num_tol := 1e-8%float
|}.

(** hypothesis' [floats(allow_nan=..., allow_infinity=...)] as the set of
    values it may draw, and [lists(elements=...)]. *)
Definition floats (allow_nan allow_infinity : bool) (v : float) : bool :=
  (allow_nan || negb (PrimFloat.is_nan v)) && (allow_infinity || negb (PrimFloat.is_infinity v)).

Definition lists (elements : float -> bool) (x : list float) : bool := forallb elements x.

(** [@example(e1) ... @given(x=strategy)]: the property-based test holds
    when it passes (or is skipped) on every explicit example and on every
    list the strategy can draw. *)
Definition given (examples : list (list float)) (strategy : list float -> bool)
    (test : list float -> outcome) : Prop :=
  Forall (fun x => test_ok (test x) = true) examples /\
  (forall x, strategy x = true -> test_ok (test x) = true).

(** ** The five test files *)

Module IntroMean0.
Section Test.
Context {A : Type} `{PyNum A}.
(** [assert min(x) <= mean(x) <= max(x)] *)
Definition test_mean (x : list A) : outcome :=
  assert_chain (py_min x) (fun _ => mean x) (fun _ => py_max x).
End Test.
(** [@given(x=lists(elements=floats()))] *)
Definition strategy : list float -> bool := lists (floats true true).
Definition hypothesis_test : Prop := given [] strategy test_mean.
End IntroMean0.

Module IntroMean1.
Section Test.
Context {A : Type} `{PyNum A}.
(** This file's own [def mean(x): return sum(x) / len(x)]. *)
Definition mean (x : list A) : res A := mean x.
(** [assume(x)], then [assert min(x) <= mean(x) <= max(x)] *)
Definition test_mean (x : list A) : outcome :=
  assume_nonempty x (assert_chain (py_min x) (fun _ => mean x) (fun _ => py_max x)).
End Test.
Definition strategy : list float -> bool := lists (floats true true).
Definition hypothesis_test : Prop := given [] strategy test_mean.
End IntroMean1.

Module IntroMean2.
Section Test.
Context {A : Type} `{PyNum A}.
(** This file's own [def mean(x): return sum(x) / len(x)]. *)
Definition mean (x : list A) : res A := mean x.
Definition test_mean (x : list A) : outcome :=
  assume_nonempty x (assert_chain (py_min x) (fun _ => mean x) (fun _ => py_max x)).
End Test.
(** [@given(x=lists(elements=floats(allow_nan=False)))] *)
Definition strategy : list float -> bool := lists (floats false true).
Definition hypothesis_test : Prop := given [] strategy test_mean.
End IntroMean2.

Module IntroMean3.
Section Test.
Context {A : Type} `{PyNum A}.
(** This file's own [def mean(x): return sum(x) / len(x)]. *)
Definition mean (x : list A) : res A := mean x.
Definition test_mean (x : list A) : outcome :=
  assume_nonempty x (assert_chain (py_min x) (fun _ => mean x) (fun _ => py_max x)).
End Test.
(** [@given(x=lists(elements=floats(allow_nan=False, allow_infinity=False)))] *)
Definition strategy : list float -> bool := lists (floats false false).
Definition hypothesis_test : Prop := given [] strategy test_mean.
End IntroMean3.

Module IntroMean4.
Section Test.
Context {A : Type} `{PyNum A}.
(** This file's own [def mean(x): return sum(x) / len(x)]. *)
Definition mean (x : list A) : res A := mean x.
(** [assume(x)], then [assert min(x) - 1e-8 <= mean(x) <= max(x) + 1e-8] *)
Definition test_mean (x : list A) : outcome :=
  assume_nonempty x
    (assert_chain (let* m := py_min x in Ok (num_sub m num_tol)) (fun _ => mean x)
                  (fun _ => let* m := py_max x in Ok (num_add m num_tol))).
End Test.
Definition strategy : list float -> bool := lists (floats false false).
(** [@example([0.1, 0.1, 0.1])] *)
Definition examples : list (list float) := [[0.1; 0.1; 0.1]%float].
Definition hypothesis_test : Prop := given examples strategy test_mean.
End IntroMean4.

(** ** [min], [max] and [mean] on exact rationals *)

Section ExactMean.

Lemma py_min_le_Q (x : list Q) (m : Q) : py_min x = Ok m -> Forall (fun y => m <= y) x.
Proof.
  destruct x as [|v vs]; cbn [py_min]; [discriminate|]. intros E; inv_res.
  revert v. induction vs as [|w vs IH]; intros v; [cbn [fold_left]; constructor; [lra | constructor]|].
  cbn [fold_left]. specialize (IH (if negb (Qle_bool v w) then w else v)).
  inversion IH as [|? ? Hvw Hvs]; subst.
  destruct (Qle_bool_spec v w) as [Hq|Hq]; cbn [negb] in *;
    repeat constructor; try lra; exact Hvs.
Qed.

Lemma py_max_ge_Q (x : list Q) (m : Q) : py_max x = Ok m -> Forall (fun y => y <= m) x.
Proof.
  destruct x as [|v vs]; cbn [py_max]; [discriminate|]. intros E; inv_res.
  revert v. induction vs as [|w vs IH]; intros v; [cbn [fold_left]; constructor; [lra | constructor]|].
  cbn [fold_left]. specialize (IH (if negb (Qle_bool w v) then w else v)).
  inversion IH as [|? ? Hvw Hvs]; subst.
  destruct (Qle_bool_spec w v) as [Hq|Hq]; cbn [negb] in *;
    repeat constructor; try lra; exact Hvs.
Qed.

Lemma assert_chain_passed {A : Type} `{PyNum A} (lo : res A) (m hi : unit -> res A) (l v h : A) :
  lo = Ok l -> m tt = Ok v -> hi tt = Ok h -> num_le l v = true -> num_le v h = true ->
  assert_chain lo m hi = Passed.
Proof. intros -> Hm Hh Hl Hv. cbn [assert_chain]. now rewrite Hm, Hl, Hh, Hv. Qed.

Lemma py_min_max_ok {A : Type} `{PyNum A} (x : list A) :
  x <> [] -> (exists m, py_min x = Ok m) /\ (exists m, py_max x = Ok m).
Proof. destruct x; [congruence|]. intros _. split; eexists; reflexivity. Qed.

Lemma mean_ok {A : Type} `{PyNum A} (x : list A) :
  x <> [] -> mean x = Ok (num_div (py_sum x) (num_of_nat (List.length x))).
Proof. destruct x; [congruence|]. reflexivity. Qed.

(** The mean of a nonempty list lies between any lower and upper bound
    of its elements. *)
Lemma mean_between_Q (x : list Q) (lo hi : Q) :
  x <> [] -> Forall (fun y => lo <= y) x -> Forall (fun y => y <= hi) x ->
  lo <= num_div (py_sum x) (num_of_nat (List.length x)) <= hi.
Proof.
  intros Hx Hlo Hhi. cbn [num_div num_of_nat pynum_Q]. unfold py_sum. cbn [num_add num_zero pynum_Q].
  rewrite fold_left_Qplus, Qplus_0_l.
  assert (Hn : 0 < inject_Z (Z.of_nat (List.length x))).
  { destruct x; [congruence|]. apply inject_Z_pos. cbn [List.length]. lia. }
  pose proof (qsum_ge_bound x lo Hlo). pose proof (qsum_le_bound x hi Hhi).
  split; [apply Qle_shift_div_l | apply Qle_shift_div_r]; lra.
Qed.

End ExactMean.

Lemma assert_chain_not_raised {A : Type} `{PyNum A} (l : A) (m hi : unit -> res A) (v h : A) (e : exn) :
  m tt = Ok v -> hi tt = Ok h -> assert_chain (Ok l) m hi <> Raised e.
Proof.
  intros Hm Hh. cbn [assert_chain]. rewrite Hm.
  destruct (num_le l v); [rewrite Hh; destruct (num_le v h)|]; discriminate.
Qed.

Lemma given_fails (examples : list (list float)) (strategy : list float -> bool)
    (test : list float -> outcome) (x : list float) :
  strategy x = true -> test_ok (test x) = false -> ~ given examples strategy test.
Proof. intros Hs Ht [_ Hg]. specialize (Hg x Hs). congruence. Qed.

(** On exact rationals, the tests' assertions hold on every nonempty list. *)
Lemma test_mean_bodies_Q (x : list Q) :
  x <> [] -> IntroMean0.test_mean x = Passed /\ IntroMean4.test_mean x = Passed.
Proof.
  intros Hx.
  destruct (py_min_max_ok x Hx) as [[mn Hmn] [mx Hmx]].
  pose proof (mean_between_Q x mn mx Hx (py_min_le_Q x mn Hmn) (py_max_ge_Q x mx Hmx)) as Hb.
  split.
  - unfold IntroMean0.test_mean. apply (assert_chain_passed _ _ _ mn _ mx Hmn (mean_ok x Hx) Hmx);
      apply Qle_bool_iff; lra.
  - destruct x as [|v vs]; [congruence|]. unfold IntroMean4.test_mean, assume_nonempty.
    apply (assert_chain_passed _ _ _ (mn - (1 # 100000000))
                                  (num_div (py_sum (v :: vs)) (num_of_nat (List.length (v :: vs))))
                                  (mx + (1 # 100000000)));
      [now rewrite Hmn | exact (mean_ok _ Hx) | cbn [bind]; now rewrite Hmx
      | apply Qle_bool_iff; cbn [num_sub num_tol pynum_Q]; lra
      | apply Qle_bool_iff; cbn [num_add num_tol pynum_Q]; lra].
Qed.

(** ** The tests on exact rationals and on floats *)

(** In exact arithmetic every version of [test_mean] is correct: on
    a nonempty list the assertion [min(x) <= mean(x) <= max(x)] (and its
    [1e-8]-slack variant) holds; on the empty list [intro_mean_0] raises
    [min]'s [ValueError] before [mean] could divide by zero, and the later
    versions skip it through [assume(x)]. *)
Theorem test_mean_exact (x : list Q) :
  IntroMean0.test_mean x = match x with [] => Raised (ValueError min_empty_msg) | _ => Passed end /\
  IntroMean1.test_mean x = match x with [] => Skipped | _ => Passed end /\
  IntroMean4.test_mean x = match x with [] => Skipped | _ => Passed end.
Proof.
  destruct x as [|v vs]; [split_and; reflexivity|].
  destruct (test_mean_bodies_Q (v :: vs) ltac:(discriminate)) as [H0 H4].
  split_and; [exact H0 | exact H0 | exact H4].
Qed.

(** In binary64, [intro_mean_3]'s test fails on [[0.1, 0.1, 0.1]],
    a list its strategy (no NaN, no infinity) draws: the sum rounds to
    [0.30000000000000004] and the mean exceeds the maximum.
    [intro_mean_4] adds this list as an [@example] and passes on it. *)
Example intro_mean_3_rounding :
  IntroMean3.strategy [0.1; 0.1; 0.1]%float = true /\
  IntroMean3.mean [0.1; 0.1; 0.1]%float = Ok 0.10000000000000002%float /\
  IntroMean3.test_mean [0.1; 0.1; 0.1]%float = AssertionFailed /\
  IntroMean4.test_mean [0.1; 0.1; 0.1]%float = Passed.
Proof. split_and; vm_compute; reflexivity. Qed.

(** [intro_mean_4]'s absolute slack [1e-8] does not make its test
    pass on its own strategy: the mean of three copies of [3e23] rounds
    above them by far more than [1e-8], and the sum of two copies of the
    largest finite float overflows to infinity. *)
Example intro_mean_4_counterexamples :
  IntroMean4.strategy [3e23; 3e23; 3e23]%float = true /\
  IntroMean4.test_mean [3e23; 3e23; 3e23]%float = AssertionFailed /\
  lists (floats false false) [1.7976931348623157e308; 1.7976931348623157e308]%float = true /\
  IntroMean4.mean [1.7976931348623157e308; 1.7976931348623157e308]%float = Ok infinity /\
  IntroMean4.test_mean [1.7976931348623157e308; 1.7976931348623157e308]%float = AssertionFailed.
Proof. split_and; vm_compute; reflexivity. Qed.

(** The counterexamples that motivate each strategy change: the
    empty list for [intro_mean_0] (raising [min]'s [ValueError]), [[nan]]
    for [intro_mean_1] (every comparison with NaN is false), and
    [[inf, -inf]] for [intro_mean_2] (the sum is NaN). *)
Example intro_mean_strategy_counterexamples :
  IntroMean0.test_mean (@nil float) = Raised (ValueError min_empty_msg) /\
  lists (floats true true) [nan]%float = true /\
  IntroMean1.test_mean [nan]%float = AssertionFailed /\
  lists (floats false true) [infinity; neg_infinity]%float = true /\
  IntroMean1.test_mean [infinity; neg_infinity]%float = AssertionFailed.
Proof. split_and; vm_compute; reflexivity. Qed.

(** C15. No test run lets an exception escape except [min]'s
    [ValueError] on the empty list in [intro_mean_0]: in particular
    [mean]'s [ZeroDivisionError] never escapes, since [min(x)] is
    evaluated first and [assume(x)] skips the empty list.  This holds for
    every number type, floats with NaN and infinities included. *)
Theorem test_mean_exceptions {A : Type} `{PyNum A} (x : list A) :
  (forall e, IntroMean0.test_mean x = Raised e -> x = [] /\ e = ValueError min_empty_msg) /\
  (forall e, IntroMean1.test_mean x <> Raised e) /\
  (forall e, IntroMean2.test_mean x <> Raised e) /\
  (forall e, IntroMean3.test_mean x <> Raised e) /\
  (forall e, IntroMean4.test_mean x <> Raised e).
Proof.
  destruct x as [|v vs].
  - split_and; intros e; cbn; [intros E; injection E as <-; split; reflexivity | discriminate ..].
  - assert (Hx : v :: vs <> []) by discriminate.
    pose proof (mean_ok _ Hx) as Hm.
    split_and; intros e;
      [intros E; exfalso; exact (assert_chain_not_raised _ _ _ _ _ e Hm eq_refl E)
      |exact (assert_chain_not_raised _ _ _ _ _ e Hm eq_refl) ..].
Qed.

(** Each of the five property-based tests is falsified in binary64
    by a list its own strategy draws: [[]] for [intro_mean_0], [[nan]] for
    [intro_mean_1], [[inf, -inf]] for [intro_mean_2],
    [[0.1, 0.1, 0.1]] for [intro_mean_3], and [[3e23, 3e23, 3e23]] for
    [intro_mean_4], whose [@example] and [1e-8] slack do not cover it. *)
Theorem hypothesis_tests_falsified :
  ~ IntroMean0.hypothesis_test /\ ~ IntroMean1.hypothesis_test /\ ~ IntroMean2.hypothesis_test /\
  ~ IntroMean3.hypothesis_test /\ ~ IntroMean4.hypothesis_test.
Proof.
  split_and.
  - apply (given_fails _ _ _ []); reflexivity.
  - apply (given_fails _ _ _ [nan]%float); vm_compute; reflexivity.
  - apply (given_fails _ _ _ [infinity; neg_infinity]%float); vm_compute; reflexivity.
  - apply (given_fails _ _ _ [0.1; 0.1; 0.1]%float); vm_compute; reflexivity.
  - apply (given_fails _ _ _ [3e23; 3e23; 3e23]%float); vm_compute; reflexivity.
Qed.
