(* ===== verification/Hypothesis.v ===== *)
(** * hypothesis's search, and the [__main__] blocks of the mean tutorials

    [Mean.given] states what a decorated test claims: it passes on every
    explicit [@example] and on every list its strategy can draw.  What
    hypothesis does is a search ([hypothesis_run]).  It runs the explicit
    examples first, in order, and fails on the first that fails; an
    example that [assume] rejects is passed over.  It then runs the test
    on the lists its engine draws, in the order drawn, and fails on the
    first failure.  Otherwise the test passes, unless lists were drawn and
    [assume] rejected every one of them: then hypothesis raises
    [Unsatisfiable].  hypothesis shrinks a failing example before it
    reports it.  Shrinking changes which example is reported but not
    whether the test fails, so it is not modelled.

    The engine's draws are an input of the run, as numpy's are in
    [AdamsPatchDemo]: every theorem holds for every sequence of lists the
    strategy can produce.  The engine's first draw is the all-zero choice
    sequence ([ConjectureRunner.generate_new_examples]), which for
    [lists(...)] is the empty list.  [hypothesis_run_refines] shows that
    the search refines [given]: the property holds exactly when every run
    passes, runs that [assume] starves apart.

    Each [src/hypothesis/intro_mean_K.py] ends with
    [if __name__ == '__main__': pytest.main([__file__])].  The module
    [IntroMeanKMain] collects its one item [test_mean], runs it under the
    search, and returns pytest's exit code ([Pytest.pytest_main]). *)

From Stdlib Require Import List String Bool Arith Lia Floats.
From S2P Require Import Prelude Pytest Mean.
Import ListNotations.

Section Search.

Variable test : list float -> outcome.

(** The outcome of the first run that fails, if any. *)
Fixpoint first_failure (xs : list (list float)) : option outcome :=
  match xs with
  | [] => None
  | x :: rest => let o := test x in if test_ok o then first_failure rest else Some o
  end.

(** Lists were drawn, and [assume] rejected each of them. *)
Definition all_rejected (draws : list (list float)) : bool :=
  match draws with
  | [] => false
  | _ => forallb (fun x => match test x with Skipped => true | _ => false end) draws
  end.

(** [@example(...) @given(...)] run by pytest, for the test function
    [name] and the lists [draws] the engine draws. *)
Definition hypothesis_run (name : string) (examples draws : list (list float)) : outcome :=
  match first_failure examples with
  | Some o => o
  | None =>
      match first_failure draws with
      | Some o => o
      | None =>
          if all_rejected draws
          then Raised (Unsatisfiable ("Unable to satisfy assumptions of " ++ name))
          else Passed
      end
  end.

End Search.

(** [pytest.main([__file__])] on a module whose one test item is the
    decorated [test_mean]. *)
Definition main_of (file : string) (test : list float -> outcome) (examples draws : list (list float))
    : exit_code * string :=
  pytest_main [((file ++ "::test_mean")%string, hypothesis_run test "test_mean" examples draws)].

Module IntroMean0Main.
Definition main (draws : list (list float)) : exit_code * string :=
  main_of "intro_mean_0.py" IntroMean0.test_mean [] draws.
End IntroMean0Main.

Module IntroMean1Main.
Definition main (draws : list (list float)) : exit_code * string :=
  main_of "intro_mean_1.py" IntroMean1.test_mean [] draws.
End IntroMean1Main.

Module IntroMean2Main.
Definition main (draws : list (list float)) : exit_code * string :=
  main_of "intro_mean_2.py" IntroMean2.test_mean [] draws.
End IntroMean2Main.

Module IntroMean3Main.
Definition main (draws : list (list float)) : exit_code * string :=
  main_of "intro_mean_3.py" IntroMean3.test_mean [] draws.
End IntroMean3Main.

Module IntroMean4Main.
Definition main (draws : list (list float)) : exit_code * string :=
  main_of "intro_mean_4.py" IntroMean4.test_mean IntroMean4.examples draws.
End IntroMean4Main.

(** ** The search *)

Section SearchFacts.

Variable test : list float -> outcome.

Lemma first_failure_none (xs : list (list float)) :
  first_failure test xs = None <-> Forall (fun x => test_ok (test x) = true) xs.
Proof.
  induction xs as [|x xs IH]; cbn; [split; auto|].
  destruct (test_ok (test x)) eqn:E; rewrite ?IH.
  - split; [constructor; auto | now inversion 1].
  - split; [discriminate | inversion 1; congruence].
Qed.

Lemma first_failure_some (xs : list (list float)) (o : outcome) :
  first_failure test xs = Some o -> test_ok o = false /\ exists x, In x xs /\ test x = o.
Proof.
  induction xs as [|x xs IH]; cbn; [discriminate|].
  destruct (test_ok (test x)) eqn:E.
  - intros H. destruct (IH H) as [Ho [y [Hy Hty]]]. split; [exact Ho | exists y; auto].
  - intros [= <-]. split; [exact E | exists x; auto].
Qed.

(** A run fails whenever one of the explicit examples or of the drawn
    lists fails. *)
Lemma hypothesis_run_fails (name : string) (examples draws : list (list float)) (x : list float) :
  In x (examples ++ draws) -> test_ok (test x) = false ->
  test_ok (hypothesis_run test name examples draws) = false.
Proof.
  intros Hin Hx. unfold hypothesis_run.
  destruct (first_failure test examples) as [o|] eqn:E1;
    [exact (proj1 (first_failure_some _ _ E1))|].
  destruct (first_failure test draws) as [o|] eqn:E2;
    [exact (proj1 (first_failure_some _ _ E2))|].
  apply first_failure_none in E1, E2. rewrite Forall_forall in E1, E2.
  apply in_app_or in Hin as [Hin|Hin]; [rewrite (E1 x Hin) in Hx | rewrite (E2 x Hin) in Hx];
    discriminate.
Qed.

Lemma hypothesis_run_passes (name : string) (examples draws : list (list float)) :
  Forall (fun x => test_ok (test x) = true) examples ->
  Forall (fun x => test_ok (test x) = true) draws ->
  hypothesis_run test name examples draws =
    if all_rejected test draws
    then Raised (Unsatisfiable ("Unable to satisfy assumptions of " ++ name)) else Passed.
Proof.
  intros H1 H2. unfold hypothesis_run.
  apply first_failure_none in H1, H2. now rewrite H1, H2.
Qed.

End SearchFacts.

(** A module's [pytest.main] fails its one item, and says so, whenever
    the search meets a failing example. *)
Lemma main_of_fails (file : string) (test : list float -> outcome) (examples draws : list (list float))
    (x : list float) :
  In x (examples ++ draws) -> test_ok (test x) = false ->
  main_of file test examples draws = (TESTS_FAILED, "1 failed"%string).
Proof.
  intros Hin Hx. pose proof (hypothesis_run_fails test "test_mean" examples draws x Hin Hx) as H.
  unfold main_of. destruct (hypothesis_run test "test_mean" examples draws); try discriminate;
    reflexivity.
Qed.

(** When [assume] rejects the empty list and the engine draws nothing
    else, hypothesis raises [Unsatisfiable], and pytest fails the item. *)
Lemma main_of_unsatisfiable (file : string) (test : list float -> outcome)
    (examples : list (list float)) (n : nat) :
  Forall (fun x => test_ok (test x) = true) examples -> test [] = Skipped ->
  main_of file test examples (repeat [] (S n)) = (TESTS_FAILED, "1 failed"%string).
Proof.
  intros Hex Hs.
  assert (Hd : Forall (fun x => test_ok (test x) = true) (repeat [] (S n))).
  { apply Forall_forall. intros x Hx. apply repeat_spec in Hx as ->. now rewrite Hs. }
  assert (Hr : all_rejected test (repeat [] (S n)) = true).
  { unfold all_rejected. apply forallb_forall. intros x Hx.
    apply repeat_spec in Hx as ->. now rewrite Hs. }
  unfold main_of. rewrite (hypothesis_run_passes test "test_mean" examples _ Hex Hd), Hr.
  reflexivity.
Qed.

(** hypothesis's search refines the property a decorated test states.
    [given examples strategy test] holds exactly when every run of the
    search over lists the strategy draws passes, except the runs in which
    [assume] rejected every drawn list (those raise [Unsatisfiable]). *)
Lemma hypothesis_run_refines (test : list float -> outcome) (strategy : list float -> bool)
    (examples : list (list float)) (name : string) :
  given examples strategy test <->
  (forall draws, forallb strategy draws = true ->
     hypothesis_run test name examples draws = Passed \/ all_rejected test draws = true).
Proof.
  split.
  - intros [Hex Hst] draws Hd.
    assert (Hdr : Forall (fun x => test_ok (test x) = true) draws).
    { apply Forall_forall. intros x Hx. apply Hst. exact (proj1 (forallb_forall _ _) Hd x Hx). }
    rewrite (hypothesis_run_passes test name examples draws Hex Hdr).
    destruct (all_rejected test draws); [right | left]; reflexivity.
  - intros H. split.
    + apply Forall_forall. intros x Hx.
      destruct (test_ok (test x)) eqn:E; [reflexivity|].
      pose proof (hypothesis_run_fails test name examples [] x (in_or_app _ _ _ (or_introl Hx)) E).
      destruct (H [] eq_refl) as [Hp | Hr]; [rewrite Hp in *; discriminate | discriminate].
    + intros x Hx. destruct (test_ok (test x)) eqn:E; [reflexivity|].
      pose proof (hypothesis_run_fails test name examples [x] x
                    (in_or_app _ _ _ (or_intror (or_introl eq_refl) : _ \/ In x [x])) E) as Hf.
      destruct (H [x] ltac:(cbn; rewrite Hx; reflexivity)) as [Hp | Hr];
        [rewrite Hp in Hf; discriminate|].
      cbn in Hr. destruct (test x); discriminate.
Qed.

(** The same through pytest: the module's session exits [OK] with
    [1 passed] on every draw sequence that [assume] does not starve,
    exactly when the decorated test's property holds. *)
Lemma main_of_refines (file : string) (test : list float -> outcome) (strategy : list float -> bool)
    (examples : list (list float)) :
  given examples strategy test <->
  (forall draws, forallb strategy draws = true -> all_rejected test draws = false ->
     main_of file test examples draws = (OK, "1 passed"%string)).
Proof.
  rewrite (hypothesis_run_refines test strategy examples "test_mean").
  split; intros H draws Hd.
  - intros Hr. destruct (H draws Hd) as [Hp | Hr']; [|congruence].
    unfold main_of. rewrite Hp. reflexivity.
  - destruct (all_rejected test draws) eqn:Hr; [right; reflexivity | left].
    specialize (H draws Hd Hr). unfold main_of in H.
    destruct (hypothesis_run test "test_mean" examples draws); try reflexivity; vm_compute in H;
      congruence.
Qed.

(** For each of the five files, [pytest.main([__file__])] in its
    [__main__] block passes on every draw sequence of the file's strategy
    that [assume] does not starve, exactly when the property its decorated
    [test_mean] states holds.  The session refines the property. *)
Theorem mean_mains_refine_given :
  (IntroMean0.hypothesis_test <->
     forall draws, forallb IntroMean0.strategy draws = true ->
       all_rejected IntroMean0.test_mean draws = false ->
       IntroMean0Main.main draws = (OK, "1 passed"%string)) /\
  (IntroMean1.hypothesis_test <->
     forall draws, forallb IntroMean1.strategy draws = true ->
       all_rejected IntroMean1.test_mean draws = false ->
       IntroMean1Main.main draws = (OK, "1 passed"%string)) /\
  (IntroMean2.hypothesis_test <->
     forall draws, forallb IntroMean2.strategy draws = true ->
       all_rejected IntroMean2.test_mean draws = false ->
       IntroMean2Main.main draws = (OK, "1 passed"%string)) /\
  (IntroMean3.hypothesis_test <->
     forall draws, forallb IntroMean3.strategy draws = true ->
       all_rejected IntroMean3.test_mean draws = false ->
       IntroMean3Main.main draws = (OK, "1 passed"%string)) /\
  (IntroMean4.hypothesis_test <->
     forall draws, forallb IntroMean4.strategy draws = true ->
       all_rejected IntroMean4.test_mean draws = false ->
       IntroMean4Main.main draws = (OK, "1 passed"%string)).
Proof. split_and; apply main_of_refines. Qed.

(** [pytest.main([__file__])] in each [__main__] block reports the
    test as failed with exit code 1 on the runs hypothesis makes.
    [intro_mean_0] fails whatever the engine draws after its first draw,
    the empty list.  The later files fail on every draw sequence that
    meets their counterexample: [[nan]], [[inf, -inf]], [[0.1, 0.1, 0.1]],
    and [[3e23, 3e23, 3e23]], which [intro_mean_4]'s [@example] does not
    cover.  And when the engine draws only empty lists, which [assume]
    rejects, hypothesis raises [Unsatisfiable] and the session fails as
    well. *)
Theorem intro_mean_mains_fail (draws : list (list float)) :
  IntroMean0Main.main ([] :: draws) = (TESTS_FAILED, "1 failed"%string) /\
  (In [nan]%float draws -> IntroMean1Main.main draws = (TESTS_FAILED, "1 failed"%string)) /\
  (In [infinity; neg_infinity]%float draws ->
     IntroMean2Main.main draws = (TESTS_FAILED, "1 failed"%string)) /\
  (In [0.1; 0.1; 0.1]%float draws -> IntroMean3Main.main draws = (TESTS_FAILED, "1 failed"%string)) /\
  (In [3e23; 3e23; 3e23]%float draws ->
     IntroMean4Main.main draws = (TESTS_FAILED, "1 failed"%string)) /\
  (forall n, IntroMean1Main.main (repeat [] (S n)) = (TESTS_FAILED, "1 failed"%string) /\
             IntroMean4Main.main (repeat [] (S n)) = (TESTS_FAILED, "1 failed"%string)).
Proof.
  split; [|split; [|split; [|split; [|split]]]];
    [..|intros n; split; apply main_of_unsatisfiable; solve [repeat constructor | vm_compute; reflexivity]];
    [|intros H ..]; eapply main_of_fails;
    solve [apply in_or_app; right; first [exact H | left; reflexivity] | vm_compute; reflexivity].
Qed.

(** The engine's draws [[], [nan], [inf, -inf], [0.1]*3, [3e23]*3], one
    after the other. *)
Lemma intro_mean_mains_fail_witness :
  let d := [[]; [nan]; [infinity; neg_infinity]; [0.1; 0.1; 0.1]; [3e23; 3e23; 3e23]]%float in
  IntroMean3Main.main d = (TESTS_FAILED, "1 failed"%string) /\
  IntroMean4Main.main d = (TESTS_FAILED, "1 failed"%string).
Proof.
  intros d. destruct (intro_mean_mains_fail d) as [_ [_ [_ [H3 H4]]]].
  split; [apply H3 | apply H4]; cbn; tauto.
Defined.
