(* ===== verification/NumPyFloat.v ===== *)
(** * numpy's float64 arithmetic for the trapezoid tutorials

    The trapezoid functions of [src/doctest/solutions.py] and
    [src/pytest/solutions.py] run on numpy float64 arrays.  [Trapezoid]
    proves them right in exact arithmetic.  This file gives the values
    they compute in IEEE binary64, the arithmetic that decides
    [test_integrate]'s exact comparison [integrate(fun, x) == integral].

    - [linspace_f] is numpy 1.x's [linspace(start, stop, num)] with
      [endpoint=True]: [step = (stop - start) / div] with [div = num - 1].
      Element [i] is [i * step + start] (or [(i / div) * delta + start]
      when [step] is zero), and the last element is set to [stop].
    - [pairwise_sum] is numpy's [pairwise_sum] for contiguous double
      arrays (the inner loop of [np.add.reduce]).  Below 8 elements it is a
      plain loop.  Up to 128 elements it uses eight accumulators, combined
      as [((r0 + r1) + (r2 + r3)) + ((r4 + r5) + (r6 + r7))], and then adds
      the remainder.  Longer arrays split at a multiple of 8 near the
      middle.  [np_sum] starts from the identity [0.0].  It is generic in
      the number class [PyNum] of [Mean]; over [Q] it is the plain sum
      ([pairwise_sum_Q]).
    - the elementwise operations [+], [*], [/ 2] and [np.diff] on
      arrays of equal length.

    [fuel] in [pairwise_sum] is the length of the array.  Every split
    makes both halves strictly shorter, so it never runs out
    ([pairwise_sum_fuel_irrelevant]). *)

From Stdlib Require Import QArith Lqa ZArith Lia List Floats.
From S2P Require Import Prelude NumPy Trapezoid Mean.
Import ListNotations.
Local Open Scope nat_scope.

(** ** Arrays of float64 *)

Definition linspace_f (start stop : float) (num : nat) : list float :=
  match num with
  | O => []
  | S O => [(0 * (stop - start) + start)%float]
  | S (S _ as div) =>
      let delta := (stop - start)%float in
      let step := (delta / float_of_nat div)%float in
      map (fun i =>
             if Nat.eqb i div then stop
             else if PrimFloat.eqb step 0 then (float_of_nat i / float_of_nat div * delta + start)%float
             else (float_of_nat i * step + start)%float)
          (seq 0 num)
  end.

(** Elementwise [u + v] and [u * v] on arrays of the same shape, [u / c],
    and [np.diff]. *)
Definition add_f (u v : list float) : list float := map (fun '(a, b) => (a + b)%float) (combine u v).
Definition mul_f (u v : list float) : list float := map (fun '(a, b) => (a * b)%float) (combine u v).
Definition div_scalar_f (u : list float) (c : float) : list float := map (fun a => (a / c)%float) u.
Definition diff_f (x : list float) : list float := map (fun '(a, b) => (b - a)%float) (combine (removelast x) (tl x)).

(** ** numpy's pairwise summation *)

Section Pairwise.
Context {A : Type} `{PyNum A}.

(** [k] blocks of eight consecutive elements. *)
Fixpoint blocks8 (k : nat) (l : list A) : list (list A) :=
  match k with
  | O => []
  | S k' => firstn 8 l :: blocks8 k' (skipn 8 l)
  end.

Definition add8 (r b : list A) : list A := map (fun '(x, y) => num_add x y) (combine r b).

Definition combine8 (r : list A) : A :=
  match r with
  | [r0; r1; r2; r3; r4; r5; r6; r7] =>
      num_add (num_add (num_add r0 r1) (num_add r2 r3)) (num_add (num_add r4 r5) (num_add r6 r7))
  | _ => num_zero
  end.

(** [pairwise_sum(a, n, stride)] of [numpy/core/src/umath/loops_utils.h]. *)
Fixpoint pairwise_sum (fuel : nat) (a : list A) : A :=
  let n := List.length a in
  if Nat.ltb n 8 then fold_left num_add a num_zero
  else if Nat.leb n 128 then
    let m := n - n mod 8 in
    let r := fold_left add8 (blocks8 ((m - 8) / 8) (skipn 8 a)) (firstn 8 a) in
    fold_left num_add (skipn m a) (combine8 r)
  else
    match fuel with
    | O => num_zero
    | S fuel' =>
        let n2 := n / 2 - (n / 2) mod 8 in
        num_add (pairwise_sum fuel' (firstn n2 a)) (pairwise_sum fuel' (skipn n2 a))
    end.

(** [np.sum(a)] and [a.sum()] on a one-dimensional array: the identity
    [0] plus the pairwise sum of all elements. *)
Definition np_sum (a : list A) : A := num_add num_zero (pairwise_sum (List.length a) a).

End Pairwise.

(** ** The trapezoid functions in float64 *)

(** [fun_x = fun(x); ((fun_x[:-1] + fun_x[1:])/2 * np.diff(x)).sum()] *)
Definition integrate_using_trapezoidal_rule_f (fn : float -> float) (x : list float) : float :=
  let fun_x := map fn x in
  np_sum (mul_f (div_scalar_f (add_f (removelast fun_x) (tl fun_x)) 2) (diff_f x)).

(** [y = f(x); np.sum((y[:-1] + y[1:]) * np.diff(x)) / 2] *)
Definition integrate_f (fn : float -> float) (x : list float) : float :=
  let y := map fn x in
  (np_sum (mul_f (add_f (removelast y) (tl y)) (diff_f x)) / 2)%float.

(** [test_integrate(fun, integral)]:
    [assert integrate(fun, np.linspace(0, 1, 100)) == integral]. *)
Definition test_integrate_f (fn : float -> float) (integral : float) : outcome :=
  if PrimFloat.eqb (integrate_f fn (linspace_f 0 1 100)) integral then Passed else AssertionFailed.

(** The [parametrize] list of [test_integrate]: [lambda x: x] with [0.5],
    [lambda x: 0*x + 1] with [1]. *)
Definition test_integrate_cases_f : list ((float -> float) * float) :=
  [(fun t => t, 0.5%float); (fun t => (0 * t + 1)%float, 1%float)].

(** ** Blocks of eight *)

Section Blocks.
Context {A : Type}.

Lemma firstn_add_split (a b : nat) (l : list A) :
  firstn (a + b) l = firstn a l ++ firstn b (skipn a l).
Proof.
  revert l. induction a as [|a IH]; intros [|x l]; cbn; try reflexivity.
  - now rewrite firstn_nil.
  - now rewrite IH.
Qed.

Lemma blocks8_concat (k : nat) (l : list A) :
  concat (@blocks8 A k l) = firstn (8 * k) l.
Proof.
  revert l. induction k as [|k IH]; intros l; [reflexivity|].
  cbn [blocks8 concat]. rewrite IH.
  replace (8 * S k) with (8 + 8 * k) by lia. now rewrite firstn_add_split.
Qed.

Lemma blocks8_length (k : nat) (l : list A) :
  8 * k <= List.length l -> Forall (fun b => List.length b = 8) (@blocks8 A k l).
Proof.
  revert l. induction k as [|k IH]; intros l Hl; constructor.
  - rewrite length_firstn. lia.
  - apply IH. rewrite length_skipn. lia.
Qed.

End Blocks.

(** ** Over exact rationals the pairwise sum is the sum *)

Section ExactSum.
Local Open Scope Q_scope.

Lemma add8_length (r b : list Q) :
  List.length r = List.length b -> List.length (add8 r b) = List.length r.
Proof. intros H. unfold add8. rewrite length_map, length_combine. lia. Qed.

Lemma add8_qsum (r b : list Q) :
  List.length r = List.length b -> qsum (add8 r b) == qsum r + qsum b.
Proof.
  revert b. induction r as [|x r IH]; intros [|y b] Hl; cbn in Hl; try discriminate.
  - reflexivity.
  - unfold add8 in *. cbn. rewrite IH by lia. unfold qsum. ring.
Qed.

Lemma fold_add8_qsum (bs : list (list Q)) (r : list Q) :
  List.length r = 8%nat -> Forall (fun b => List.length b = 8%nat) bs ->
  List.length (fold_left add8 bs r) = 8%nat /\
  qsum (fold_left add8 bs r) == qsum r + qsum (concat bs).
Proof.
  intros Hr Hbs. revert r Hr. induction Hbs as [|b bs Hb _ IH]; intros r Hr; cbn.
  - split; [exact Hr | unfold qsum; ring].
  - destruct (IH (add8 r b)) as [Hl Hs]; [rewrite add8_length; lia|].
    split; [exact Hl|]. rewrite Hs, add8_qsum, qsum_app by lia. ring.
Qed.

Lemma combine8_qsum (r : list Q) : List.length r = 8%nat -> combine8 r == qsum r.
Proof.
  intros Hr. do 8 (destruct r as [|? r]; [discriminate|]).
  destruct r; [|discriminate]. cbn. ring.
Qed.

(** The block branch: eight accumulators over the first [m] elements,
    then the remainder. *)
Lemma pairwise_block_qsum (a : list Q) :
  (8 <= List.length a)%nat ->
  let n := List.length a in
  let m := (n - n mod 8)%nat in
  fold_left num_add (skipn m a)
    (combine8 (fold_left add8 (blocks8 ((m - 8) / 8) (skipn 8 a)) (firstn 8 a))) == qsum a.
Proof.
  intros H8 n m.
  pose proof (Nat.div_mod n 8 ltac:(lia)). pose proof (Nat.mod_upper_bound n 8 ltac:(lia)).
  assert (Hm : (m - 8 = 8 * (n / 8 - 1))%nat) by (unfold m; nia).
  replace ((m - 8) / 8)%nat with (n / 8 - 1)%nat
    by (rewrite Hm, Nat.mul_comm; symmetry; apply Nat.div_mul; lia).
  destruct (fold_add8_qsum (blocks8 (n / 8 - 1) (skipn 8 a)) (firstn 8 a)) as [Hl Hs].
  - rewrite length_firstn. lia.
  - apply blocks8_length. rewrite length_skipn. fold n. nia.
  - cbn [num_add pynum_Q]. rewrite fold_left_Qplus, combine8_qsum, Hs by exact Hl.
    rewrite blocks8_concat, <- Hm.
    rewrite <- (qsum_app (firstn 8 a)), <- firstn_add_split.
    replace (8 + (m - 8))%nat with m by (unfold m; nia).
    rewrite <- qsum_app, firstn_skipn. reflexivity.
Qed.

End ExactSum.

(** The split of an array longer than 128 elements: both halves are
    nonempty and shorter. *)
Lemma split_point_bounds (n : nat) :
  (128 < n)%nat -> let n2 := (n / 2 - (n / 2) mod 8)%nat in (0 < n2 /\ n2 < n)%nat.
Proof.
  intros Hn n2. pose proof (Nat.div_mod n 2 ltac:(lia)). pose proof (Nat.mod_upper_bound n 2 ltac:(lia)).
  pose proof (Nat.mod_upper_bound (n / 2) 8 ltac:(lia)). unfold n2. lia.
Qed.

Section Fuel.
Context {A : Type} `{PyNum A}.

Lemma pairwise_sum_fuel_irrelevant (f1 f2 : nat) (a : list A) :
  (List.length a <= f1)%nat -> (List.length a <= f2)%nat -> pairwise_sum f1 a = pairwise_sum f2 a.
Proof.
  revert f2 a. induction f1 as [|f1 IH]; intros f2 a H1 H2.
  - destruct a; [|cbn in H1; lia]. destruct f2; reflexivity.
  - destruct f2 as [|f2]; [destruct a; [reflexivity | cbn in H2; lia]|].
    cbn [pairwise_sum].
    destruct (Nat.ltb (List.length a) 8) eqn:E8; [reflexivity|].
    destruct (Nat.leb (List.length a) 128) eqn:E128; [reflexivity|].
    apply Nat.ltb_ge in E8. apply Nat.leb_gt in E128.
    destruct (split_point_bounds (List.length a) E128) as [Hlo Hhi].
    f_equal; apply IH; rewrite ?length_firstn, ?length_skipn; lia.
Qed.

End Fuel.

(** ** Theorems *)

Section ExactSumTheorems.
Local Open Scope Q_scope.

Lemma pairwise_sum_Q (fuel : nat) (a : list Q) :
  (List.length a <= fuel)%nat -> pairwise_sum fuel a == qsum a.
Proof.
  revert a. induction fuel as [|f IH]; intros a Hl.
  - destruct a; [reflexivity | cbn in Hl; lia].
  - cbn [pairwise_sum].
    destruct (Nat.ltb_spec (List.length a) 8).
    + cbn [num_add num_zero pynum_Q]. rewrite fold_left_Qplus. ring.
    + destruct (Nat.leb_spec (List.length a) 128).
      * now apply pairwise_block_qsum.
      * destruct (split_point_bounds (List.length a) ltac:(lia)) as [Hlo Hhi].
        cbn [num_add pynum_Q].
        rewrite !IH by (rewrite ?length_firstn, ?length_skipn; lia).
        rewrite <- qsum_app, firstn_skipn. reflexivity.
Qed.

(** numpy's summation is the plain sum in exact arithmetic. *)
Lemma np_sum_exact (a : list Q) : np_sum a == qsum a.
Proof. unfold np_sum. cbn [num_add num_zero pynum_Q]. rewrite pairwise_sum_Q by lia. ring. Qed.

(** The exact-arithmetic models of both trapezoid integrators sum
    with [qsum]; the code sums with [np.sum], whose eight-way unrolled
    pairwise reduction only reorders the additions.  Over [Q] the two give
    the same value on every grid and integrand. *)
Theorem trapezoid_np_sum_exact (f : Q -> Q) (x : list Q) :
  integrate f x ==
    np_sum (np_mul (np_add (removelast (map f x)) (tl (map f x))) (np_diff x)) / 2 /\
  integrate_using_trapezoidal_rule f x ==
    np_sum (np_mul (np_div_scalar (np_add (removelast (map f x)) (tl (map f x))) 2) (np_diff x)).
Proof. unfold integrate, integrate_using_trapezoidal_rule. split; rewrite np_sum_exact; reflexivity. Qed.

End ExactSumTheorems.

(** In IEEE binary64, as numpy computes them, both cases of
    [test_integrate] pass although they compare floats with [==]:
    [integrate(lambda x: x, linspace(0, 1, 100))] is exactly [0.5] and
    [integrate(lambda x: 0*x + 1, ...)] exactly [1.0]. *)
Example test_integrate_binary64 :
  Forall (fun '(fn, i) => test_integrate_f fn i = Passed) test_integrate_cases_f /\
  integrate_f (fun t => t) (linspace_f 0 1 100) = 0.5%float /\
  integrate_f (fun t => 0 * t + 1)%float (linspace_f 0 1 100) = 1%float.
Proof. split_and; [repeat constructor | |]; vm_compute; reflexivity. Qed.
