(* ===== verification/PyMultiply.v ===== *)
(** * [multiply(a, b) = a * b] ([src/doctest/intro_1_multiply.py])

    The doctest tutorial's [multiply] returns [a * b]; what it computes is
    Python's [*] (CPython 3.11, 64-bit build) on the values its doctests
    pass.  Integers multiply.  A sequence (list, tuple, str) times an
    integer [n], in either order, is the sequence repeated [n] times
    (empty for [n <= 0]).  Any other pair raises [TypeError] with CPython's
    message.  Values are the inductive [pyval]; integers are unbounded [Z],
    as Python's [int].

    The error paths of the C code are written out.  The count goes through
    [PyNumber_AsSsize_t] and raises [OverflowError] outside [Py_ssize_t].
    [list_repeat] and [tuple_repeat] raise [MemoryError], and
    [unicode_repeat] raises [OverflowError], when the result length
    overflows [PY_SSIZE_T_MAX].  The allocators ([PyMem_New],
    [tuple_alloc], [PyUnicode_New], [_PyLong_New]) check their size
    limits.  The final allocation raises [MemoryError] when it asks for
    more bytes than the process can still get.  That amount, [avail], is a
    parameter of the model, since it depends on the machine. *)

From Stdlib Require Import ZArith Lia List String Ascii.
From S2P Require Import Prelude.
Import ListNotations.

(** The Python values the doctests build. *)
Inductive pyval : Type :=
| PInt (z : Z)
| PStr (s : string)
| PList (l : list pyval)
| PTuple (l : list pyval).

Definition type_name (v : pyval) : string :=
  match v with
  | PInt _ => "int"
  | PStr _ => "str"
  | PList _ => "list"
  | PTuple _ => "tuple"
  end%string.

(** [PY_SSIZE_T_MAX] on a 64-bit build. *)
Definition ssize_max : Z := (2 ^ 63 - 1)%Z.

(** [PyNumber_AsSsize_t(n, PyExc_OverflowError)]. *)
Definition as_ssize (n : Z) : res Z :=
  if ((- 2 ^ 63 <=? n) && (n <=? ssize_max))%Z%bool then Ok n
  else Err (OverflowError "cannot fit 'int' into an index-sized integer").

(** [seq * n]: [n] copies concatenated, none when [n <= 0]. *)
Definition seq_repeat {A : Type} (l : list A) (n : Z) : list A :=
  List.concat (repeat l (Z.to_nat n)).

Definition str_repeat (s : string) (n : Z) : string :=
  String.concat ""%string (repeat s (Z.to_nat n)).

Definition non_int_msg (v : pyval) : string :=
  ("can't multiply sequence by non-int of type '" ++ type_name v ++ "'")%string.

Definition no_memory {A : Type} : res A := Err (MemoryError "").

Section Allocation.

(** The bytes the process can still allocate. *)
Variable avail : Z.

(** [PyObject_Malloc] of [bytes]: fails when the memory is not there. *)
Definition alloc {A : Type} (bytes : Z) (r : A) : res A :=
  if (bytes <=? avail)%Z then Ok r else no_memory.

(** [list_repeat], then [list_new_prealloc]'s [PyMem_New(PyObject *, n)]. *)
Definition list_repeat (l : list pyval) (n : Z) : res (list pyval) :=
  let size := Z.of_nat (List.length l) in
  if ((size =? 0) || (n <=? 0))%Z%bool then Ok []
  else if (ssize_max / n <? size)%Z then no_memory
  else
    let out := (size * n)%Z in
    if (ssize_max / 8 <? out)%Z then no_memory else alloc (8 * out)%Z (seq_repeat l n).

(** [tuple_repeat]: the tuple itself when [n == 1], then [tuple_alloc]'s
    limit and a GC object of [24 + 8 * n] bytes with its 16-byte header. *)
Definition tuple_repeat (l : list pyval) (n : Z) : res (list pyval) :=
  let size := Z.of_nat (List.length l) in
  if ((size =? 0) || (n =? 1))%Z%bool then Ok (seq_repeat l n)
  else if (n <=? 0)%Z then Ok []
  else if (ssize_max / n <? size)%Z then no_memory
  else
    let out := (size * n)%Z in
    if ((ssize_max - 24) / 8 <? out)%Z then no_memory else alloc (40 + 8 * out)%Z (seq_repeat l n).

(** [sizeof(PyASCIIObject)] or [sizeof(PyCompactUnicodeObject)] for a
    string of one-byte characters (CPython 3.11). *)
Definition str_struct_size (s : string) : Z :=
  if forallb (fun c => Nat.ltb (nat_of_ascii c) 128) (list_ascii_of_string s) then 48 else 72.

(** [unicode_repeat], then [PyUnicode_New]. *)
Definition unicode_repeat (s : string) (n : Z) : res string :=
  let len := Z.of_nat (String.length s) in
  if (n <? 1)%Z then Ok ""%string
  else if (n =? 1)%Z then Ok s
  else if (ssize_max / n <? len)%Z then Err (OverflowError "repeated string is too long")
  else
    let nchars := (len * n)%Z in
    if (nchars =? 0)%Z then Ok ""%string
    else if ((ssize_max - str_struct_size s) - 1 <? nchars)%Z then no_memory
    else alloc (str_struct_size s + nchars + 1)%Z (str_repeat s n).

(** A sequence's [sq_repeat] with the count [n] already converted. *)
Definition sequence_repeat (v : pyval) (n : Z) : option (res pyval) :=
  match v with
  | PInt _ => None
  | PStr s => Some (let* r := unicode_repeat s n in Ok (PStr r))
  | PList l => Some (let* r := list_repeat l n in Ok (PList r))
  | PTuple l => Some (let* r := tuple_repeat l n in Ok (PTuple r))
  end.

(** [binary_op1]'s [sequence_repeat]: the count must fit [Py_ssize_t]. *)
Definition repeat_by (seq : pyval) (n : Z) : res pyval :=
  let* count := as_ssize n in
  match sequence_repeat seq count with
  | Some r => r
  | None => Err (TypeError (non_int_msg seq))
  end.

(** The number of 30-bit digits of an [int]. *)
Definition long_digits (z : Z) : Z :=
  if (z =? 0)%Z then 0 else (Z.log2 (Z.abs z) / 30 + 1)%Z.

(** [long_mul]: small operands multiply in machine words; otherwise
    [_PyLong_New(size_a + size_b)] raises [OverflowError] past
    [MAX_LONG_DIGITS] and allocates 24 bytes plus 4 per digit. *)
Definition long_mul (x y : Z) : res Z :=
  if ((long_digits x <=? 1) && (long_digits y <=? 1))%Z%bool then Ok (x * y)%Z
  else
    let size := (long_digits x + long_digits y)%Z in
    if ((ssize_max - 24) / 4 <? size)%Z then Err (OverflowError "too many digits in integer")
    else alloc (24 + 4 * size)%Z (x * y)%Z.

(** Python's binary [*] on these values: [int.__mul__], then the
    sequence's [sq_repeat] with the other operand as the count. *)
Definition py_mul (a b : pyval) : res pyval :=
  match a, b with
  | PInt x, PInt y => let* z := long_mul x y in Ok (PInt z)
  | PInt n, _ => repeat_by b n
  | _, PInt n => repeat_by a n
  | _, _ => Err (TypeError (non_int_msg b))
  end.

End Allocation.

Module Intro1Multiply.

(** [def multiply(a, b): return a * b], in a process that can still
    allocate [avail] bytes. *)
Definition multiply (avail : Z) (a b : pyval) : res pyval := py_mul avail a b.

End Intro1Multiply.

