(* ===== verification/Csv.v ===== *)
(** * CSV text as pandas writes and reads it

    [DataFrame.to_csv] writes through Python's [csv.writer] with
    [QUOTE_MINIMAL], delimiter [,], the double-quote character as quote character and line terminator
    [\n]: a field is quoted when it contains the delimiter, the quote
    character or the line terminator, and a quote inside a quoted field is
    doubled.  [pandas.read_csv] splits the text with its C tokenizer, a
    state machine over the characters: here [lex_step] on the state
    [lex_acc] (state, reversed field buffer, current row, finished rows)
    and [lex] its run over the text, with the end-of-file rules.  Blank
    lines are skipped, [\r] and [\r\n] end a line outside quotes, and end
    of file inside a quoted field is an error.

    The round trip [lex_write_rows]: lexing the text written for rows of
    non-empty fields without [\r] gives the rows back.  Integers are
    printed with [str] (Stdlib's decimal strings) and parsed back by
    [parse_int] ([parse_int_str]). *)

From Stdlib Require Import List String Ascii ZArith Lia Bool DecimalString DecimalZ DecimalPos.
From S2P Require Import Prelude.
Import ListNotations.

Definition comma : ascii := ",".
Definition quote : ascii := "034".
Definition newline : ascii := "010".
Definition carriage_return : ascii := "013".

Definition chars : Type := list ascii.

(** ** Writing: [csv.writer] with [QUOTE_MINIMAL] *)

Definition special_char (c : ascii) : bool :=
  Ascii.eqb c comma || Ascii.eqb c quote || Ascii.eqb c newline.

Definition needs_quote (f : chars) : bool := existsb special_char f.

Fixpoint escape_quotes (f : chars) : chars :=
  match f with
  | [] => []
  | c :: f' => if Ascii.eqb c quote then quote :: quote :: escape_quotes f' else c :: escape_quotes f'
  end.

Definition quote_field (f : chars) : chars :=
  if needs_quote f then quote :: escape_quotes f ++ [quote] else f.

Fixpoint join_fields (fs : list chars) : chars :=
  match fs with
  | [] => []
  | [f] => quote_field f
  | f :: fs' => quote_field f ++ comma :: join_fields fs'
  end.

(** A row; a row of one empty field is written as a quoted empty field,
    so that it is not a blank line. *)
Definition write_row (fs : list chars) : chars :=
  match fs with
  | [[]] => [quote; quote; newline]
  | _ => join_fields fs ++ [newline]
  end.

Definition write_rows (rows : list (list chars)) : chars := List.concat (map write_row rows).

(** ** Reading: the tokenizer of [pandas.read_csv] *)

Inductive lex_state : Type :=
| StartRecord
| StartField
| InField
| InQuoted
| QuoteInQuoted
| EatCRNL.

Record lex_acc : Type := mk_lex {
  lx_state : lex_state;
  lx_buf : chars;
  lx_row : list chars;
  lx_rows : list (list chars)
}.

Definition is_eol (c : ascii) : bool := Ascii.eqb c newline || Ascii.eqb c carriage_return.

(** Ending the field in the buffer, and with it the row. *)
Definition end_field (a : lex_acc) : list chars := lx_row a ++ [rev (lx_buf a)].

Definition end_record (a : lex_acc) (c : ascii) : lex_acc :=
  mk_lex (if Ascii.eqb c newline then StartRecord else EatCRNL) [] [] (lx_rows a ++ [end_field a]).

(** The first character of a field. *)
Definition start_field (a : lex_acc) (c : ascii) : lex_acc :=
  if Ascii.eqb c quote then mk_lex InQuoted [] (lx_row a) (lx_rows a)
  else if Ascii.eqb c comma then mk_lex StartField [] (end_field a) (lx_rows a)
  else if is_eol c then end_record a c
  else mk_lex InField [c] (lx_row a) (lx_rows a).

(** One character: skip blank lines at the start of a record; split
    unquoted text at [,] and line ends; inside quotes take everything up
    to a quote, which a second quote escapes. *)
Definition lex_step (a : lex_acc) (c : ascii) : lex_acc :=
  match lx_state a with
  | StartRecord => if is_eol c then mk_lex StartRecord [] [] (lx_rows a) else start_field a c
  | StartField => start_field a c
  | InField =>
      if Ascii.eqb c comma then mk_lex StartField [] (end_field a) (lx_rows a)
      else if is_eol c then end_record a c
      else mk_lex InField (c :: lx_buf a) (lx_row a) (lx_rows a)
  | InQuoted =>
      if Ascii.eqb c quote then mk_lex QuoteInQuoted (lx_buf a) (lx_row a) (lx_rows a)
      else mk_lex InQuoted (c :: lx_buf a) (lx_row a) (lx_rows a)
  | QuoteInQuoted =>
      if Ascii.eqb c quote then mk_lex InQuoted (quote :: lx_buf a) (lx_row a) (lx_rows a)
      else if Ascii.eqb c comma then mk_lex StartField [] (end_field a) (lx_rows a)
      else if is_eol c then end_record a c
      else mk_lex InField (c :: lx_buf a) (lx_row a) (lx_rows a)
  | EatCRNL =>
      if Ascii.eqb c newline then mk_lex StartRecord [] [] (lx_rows a)
      else if is_eol c then mk_lex StartRecord [] [] (lx_rows a)
      else start_field a c
  end.

Definition lex_chars (s : chars) (a : lex_acc) : lex_acc := fold_left lex_step s a.

Definition eof_in_string_msg : string := "Error tokenizing data. C error: EOF inside string".

(** The whole text: at end of file a pending field ends its row, and a
    quoted field still open is an error. *)
Definition lex (s : chars) : res (list (list chars)) :=
  let a := lex_chars s (mk_lex StartRecord [] [] []) in
  match lx_state a with
  | StartRecord | EatCRNL => Ok (lx_rows a)
  | InQuoted => Err (ValueError eof_in_string_msg)
  | _ => Ok (lx_rows a ++ [end_field a])
  end.

(** ** Integers: [str(n)] and the parser's integer conversion *)

Definition str_of_Z (z : Z) : string := NilZero.string_of_int (Z.to_int z).

(** An optional sign and at least one digit. *)
Definition parse_int (s : string) : option Z :=
  match s with
  | String c s' =>
      if Ascii.eqb c "+" then option_map (fun d => Z.of_uint d) (NilZero.uint_of_string s')
      else option_map Z.of_int (NilZero.int_of_string s)
  | EmptyString => None
  end.

(** ** The round trip *)

(** A field the writer and the tokenizer agree on: not empty (an empty
    first field would make a blank line) and without [\r], which the
    writer leaves unquoted and the tokenizer reads as a line end. *)
Definition field_ok (f : chars) : Prop := f <> [] /\ ~ In carriage_return f.

Lemma lex_chars_app (s1 s2 : chars) (a : lex_acc) :
  lex_chars (s1 ++ s2) a = lex_chars s2 (lex_chars s1 a).
Proof. apply fold_left_app. Qed.

Lemma lex_chars_cons (c : ascii) (s : chars) (a : lex_acc) :
  lex_chars (c :: s) a = lex_chars s (lex_step a c).
Proof. reflexivity. Qed.

Lemma lex_plain (f : chars) (buf : chars) (row : list chars) (rows : list (list chars)) :
  needs_quote f = false -> ~ In carriage_return f ->
  lex_chars f (mk_lex InField buf row rows) = mk_lex InField (rev f ++ buf) row rows.
Proof.
  revert buf. induction f as [|c f IH]; intros buf Hq Hcr; [reflexivity|].
  cbn [needs_quote existsb] in Hq. apply orb_false_iff in Hq as [Hc Hq].
  unfold special_char in Hc. apply orb_false_iff in Hc as [Hc Hnl]. apply orb_false_iff in Hc as [Hcm Hqt].
  assert (Hcr' : Ascii.eqb c carriage_return = false)
    by (apply Ascii.eqb_neq; intros ->; apply Hcr; left; reflexivity).
  rewrite lex_chars_cons. unfold lex_step; cbn [lx_state lx_buf lx_row lx_rows].
  rewrite Hcm. unfold is_eol. rewrite Hnl, Hcr'. cbn [orb].
  rewrite IH by (auto; intros H; apply Hcr; right; exact H).
  cbn [rev]. rewrite <- app_assoc. reflexivity.
Qed.

Lemma lex_escaped (f : chars) (buf : chars) (row : list chars) (rows : list (list chars)) :
  lex_chars (escape_quotes f) (mk_lex InQuoted buf row rows) = mk_lex InQuoted (rev f ++ buf) row rows.
Proof.
  revert buf. induction f as [|c f IH]; intros buf; [reflexivity|].
  cbn [escape_quotes]. destruct (Ascii.eqb_spec c quote) as [->|Hc].
  - rewrite !lex_chars_cons. cbn. rewrite IH. cbn [rev]. rewrite <- app_assoc. reflexivity.
  - rewrite lex_chars_cons. unfold lex_step; cbn [lx_state lx_buf lx_row lx_rows].
    apply Ascii.eqb_neq in Hc. rewrite Hc.
    rewrite IH. cbn [rev]. rewrite <- app_assoc. reflexivity.
Qed.

Lemma lex_start_step (a : lex_acc) (c : ascii) :
  lx_state a = StartField \/ lx_state a = StartRecord -> is_eol c = false ->
  lex_step a c = start_field a c.
Proof. intros [Hs|Hs] Hc; unfold lex_step; rewrite Hs; [reflexivity | now rewrite Hc]. Qed.

Lemma lex_end_comma (st : lex_state) (buf : chars) (row : list chars) (rows : list (list chars)) :
  st = InField \/ st = QuoteInQuoted ->
  lex_step (mk_lex st buf row rows) comma = mk_lex StartField [] (row ++ [rev buf]) rows.
Proof. intros [->| ->]; reflexivity. Qed.

Lemma lex_end_newline (st : lex_state) (buf : chars) (row : list chars) (rows : list (list chars)) :
  st = InField \/ st = QuoteInQuoted ->
  lex_step (mk_lex st buf row rows) newline = mk_lex StartRecord [] [] (rows ++ [row ++ [rev buf]]).
Proof. intros [->| ->]; reflexivity. Qed.

Lemma start_field_quote (a : lex_acc) : start_field a quote = mk_lex InQuoted [] (lx_row a) (lx_rows a).
Proof. reflexivity. Qed.

(** A written field, read from the start of a field, fills the buffer;
    the next character decides how it ends. *)
Lemma lex_field (f : chars) (a : lex_acc) :
  lx_state a = StartField \/ lx_state a = StartRecord -> field_ok f ->
  lex_chars (quote_field f) a =
  mk_lex (if needs_quote f then QuoteInQuoted else InField) (rev f) (lx_row a) (lx_rows a).
Proof.
  intros Hs [Hne Hcr]. unfold quote_field. destruct (needs_quote f) eqn:Hq.
  - rewrite lex_chars_cons, lex_start_step by (auto; reflexivity).
    rewrite start_field_quote, lex_chars_app, lex_escaped.
    rewrite app_nil_r. reflexivity.
  - destruct f as [|c f]; [congruence|].
    cbn [needs_quote existsb] in Hq. apply orb_false_iff in Hq as [Hc Hq].
    unfold special_char in Hc. apply orb_false_iff in Hc as [Hc Hnl]. apply orb_false_iff in Hc as [Hcm Hqt].
    assert (Hcr' : Ascii.eqb c carriage_return = false)
      by (apply Ascii.eqb_neq; intros ->; apply Hcr; left; reflexivity).
    assert (He : is_eol c = false) by (unfold is_eol; now rewrite Hnl, Hcr').
    rewrite lex_chars_cons, lex_start_step by auto.
    unfold start_field. rewrite Hqt, Hcm, He.
    rewrite lex_plain by (auto; intros H; apply Hcr; right; exact H). reflexivity.
Qed.

Lemma quoted_state (f : chars) :
  (if needs_quote f then QuoteInQuoted else InField) = InField \/
  (if needs_quote f then QuoteInQuoted else InField) = QuoteInQuoted.
Proof. destruct (needs_quote f); auto. Qed.

(** A written row, read from the start of a record, is added to the rows. *)
Lemma lex_join (fs : list chars) (a : lex_acc) :
  fs <> [] -> Forall field_ok fs -> lx_state a = StartField \/ lx_state a = StartRecord ->
  lex_chars (join_fields fs ++ [newline]) a = mk_lex StartRecord [] [] (lx_rows a ++ [lx_row a ++ fs]).
Proof.
  revert a. induction fs as [|f fs IH]; intros a Hne Hok Hs; [congruence|].
  inversion Hok as [|? ? Hf Hfs]; subst.
  destruct fs as [|f2 fs].
  - cbn [join_fields]. rewrite lex_chars_app, lex_field by assumption.
    rewrite lex_chars_cons, lex_end_newline by apply quoted_state.
    rewrite rev_involutive. reflexivity.
  - change (join_fields (f :: f2 :: fs)) with (quote_field f ++ comma :: join_fields (f2 :: fs)).
    rewrite <- app_assoc, lex_chars_app, lex_field by assumption.
    rewrite <- app_comm_cons, lex_chars_cons, lex_end_comma by apply quoted_state.
    rewrite IH by (auto; discriminate). cbn [lx_rows lx_row].
    rewrite rev_involutive, <- app_assoc. reflexivity.
Qed.

Lemma write_row_join (fs : list chars) :
  Forall field_ok fs -> write_row fs = join_fields fs ++ [newline].
Proof.
  intros Hok. destruct fs as [|f fs]; [reflexivity|].
  inversion Hok as [|? ? [Hne _] _]; subst. destruct f; [congruence | reflexivity].
Qed.

(** The rows of the text [write_rows] produces. *)
Theorem lex_write_rows (rows : list (list chars)) :
  Forall (fun r => r <> [] /\ Forall field_ok r) rows -> lex (write_rows rows) = Ok rows.
Proof.
  intros Hrows. unfold lex.
  assert (H : forall acc, lex_chars (write_rows rows) (mk_lex StartRecord [] [] acc) =
                          mk_lex StartRecord [] [] (acc ++ rows)).
  { induction Hrows as [|r rows [Hne Hok] _ IH]; intros acc; [now rewrite app_nil_r|].
    cbn [write_rows map List.concat]. fold (write_rows rows).
    rewrite write_row_join by exact Hok.
    rewrite lex_chars_app, lex_join by (auto; right; reflexivity).
    cbn [lx_rows lx_row app]. rewrite IH, <- app_assoc. reflexivity. }
  rewrite H. reflexivity.
Qed.

(** ** Integers *)

Lemma to_int_nonnil (z : Z) : Z.to_int z <> Decimal.Pos Decimal.Nil /\ Z.to_int z <> Decimal.Neg Decimal.Nil.
Proof.
  assert (Hp : forall p, Pos.to_uint p <> Decimal.Nil).
  { intros p H. pose proof (DecimalPos.Unsigned.of_to p) as E. rewrite H in E. discriminate. }
  destruct z as [|p|p]; cbn; split; try discriminate; intros [= E]; exact (Hp p E).
Qed.

Lemma str_of_Z_head (z : Z) : exists c s, str_of_Z z = String c s /\ Ascii.eqb c "+" = false.
Proof.
  unfold str_of_Z. destruct (to_int_nonnil z) as [Hp Hn].
  destruct (Z.to_int z) as [d|d]; cbn.
  - destruct d; try congruence; eexists _, _; split; reflexivity.
  - eexists _, _; split; reflexivity.
Qed.

(** Parsing [str(z)] gives [z] back. *)
Lemma parse_int_str (z : Z) : parse_int (str_of_Z z) = Some z.
Proof.
  destruct (str_of_Z_head z) as (c & s & E & Hc). unfold parse_int. rewrite E, Hc.
  rewrite <- E. unfold str_of_Z. destruct (to_int_nonnil z) as [Hp Hn].
  rewrite NilZero.isi by assumption. cbn. now rewrite DecimalZ.of_to.
Qed.

Lemma str_of_Z_ne (z : Z) : list_ascii_of_string (str_of_Z z) <> [].
Proof. destruct (str_of_Z_head z) as (c & s & -> & _). discriminate. Qed.
