(* ===== verification/PyFloat.v ===== *)
(** * Printing Python floats: ['{:.<prec>f}'.format(x)] and [repr(x)]

    A binary64 value ([PrimFloat]) is read as the exact rational it
    denotes ([float_to_Q], through [Prim2SF]).  ['{:.4f}'] rounds that
    exact value half to even at four decimals, as CPython's [format] does.
    [repr] is CPython's shortest round-trip representation.  It is the
    fewest significant digits whose decimal value lies within the rounding
    interval of the float: half a gap to each neighbour, closed when the
    significand is even, as round-half-even reading would map it back.
    Among those candidates it takes the one closest to the float.  The
    digits are laid out in fixed notation when the decimal point falls
    between [-4] and [16] digits, and with an exponent otherwise. *)

From Stdlib Require Import QArith Qabs Qround Qpower ZArith Lia List String Ascii Floats.
From S2P Require Import Prelude Csv.
Import ListNotations.

(** The exact rational value of a finite float. *)
Definition float_to_Q (f : float) : option Q :=
  match Prim2SF f with
  | S754_zero _ => Some 0
  | S754_finite s m e =>
      Some ((if s then -1 else 1) * inject_Z (Zpos m) * Qpower (2 # 1) e)
  | _ => None
  end.

(** Round to the nearest integer, ties to even. *)
Definition round_half_even (q : Q) : Z :=
  let f := Qfloor q in
  let r := q - inject_Z f in
  if Qle_bool (1 # 2) r then
    if Qeq_bool r (1 # 2) then (if Z.even f then f else f + 1)%Z else (f + 1)%Z
  else f.

Fixpoint pad_zeros (k : nat) (s : string) : string :=
  match k with O => s | S k' => String "0" (pad_zeros k' s) end.

Definition pad_zeros_right (k : nat) : string := pad_zeros k EmptyString.

(** ['{:.<prec>f}'.format(q)]. *)
Definition format_fixed (prec : nat) (q : Q) : string :=
  let n := round_half_even (Qabs q * inject_Z (10 ^ Z.of_nat prec)) in
  let s := str_of_Z n in
  let s := pad_zeros (S prec - String.length s) s in
  let w := String.length s in
  ((if Qle_bool 0 q then EmptyString else "-") ++ substring 0 (w - prec) s ++
   (if Nat.eqb prec 0 then EmptyString else "." ++ substring (w - prec) prec s))%string.

(** ['{:.<prec>f}'.format(f)] on a float: the sign of a negative zero is
    kept, and the special values print as [inf], [-inf] and [nan]. *)
Definition format_float_fixed (prec : nat) (f : float) : string :=
  match Prim2SF f with
  | S754_infinity s => if s then "-inf" else "inf"
  | S754_nan => "nan"
  | S754_zero s => ((if s then "-" else "") ++ format_fixed prec 0)%string
  | _ => match float_to_Q f with Some q => format_fixed prec q | None => "nan" end
  end.

(** ** [repr] *)

(** [floor(log10 q)] for [q > 0]: an estimate from the binary sizes,
    corrected by a few steps. *)
Fixpoint adjust_exponent (fuel : nat) (q : Q) (e : Z) : Z :=
  match fuel with
  | O => e
  | S k =>
      if Qlt_le_dec q (Qpower 10 e) then adjust_exponent k q (e - 1)
      else if Qle_bool (Qpower 10 (e + 1)) q then adjust_exponent k q (e + 1)
      else e
  end.

Definition decimal_exponent (q : Q) : Z :=
  let e2 := (Z.log2 (Qnum q) - Z.log2 (Zpos (Qden q)))%Z in
  adjust_exponent 8 q ((e2 * 30103) / 100000)%Z.

(** The rounding interval of [m * 2^e]: its two half-gaps. *)
Definition half_gaps (m : positive) (e : Z) : Q * Q :=
  let up := Qpower 2 e / 2 in
  let down := if andb (Pos.eqb m (2 ^ 52)) (Z.ltb (-1074) e) then up / 2 else up in
  (down, up).

Definition in_interval (even : bool) (v lo hi d : Q) : bool :=
  if even then Qle_bool (v - lo) d && Qle_bool d (v + hi)
  else negb (Qle_bool d (v - lo)) && negb (Qle_bool (v + hi) d).

(** The closest of [D - 1], [D], [D + 1] (times [scale]) inside the
    interval. *)
Definition pick_candidate (even : bool) (v lo hi scale : Q) (d : Z) : option Z :=
  let inside c := andb (Z.ltb 0 c) (in_interval even v lo hi (inject_Z c * scale)) in
  let dist c := Qabs (inject_Z c * scale - v) in
  fold_left (fun best c =>
      if inside c then
        match best with
        | Some b => if Qlt_le_dec (dist c) (dist b) then Some c else best
        | None => Some c
        end
      else best) [d; (d - 1)%Z; (d + 1)%Z] None.

(** The shortest digits: the first [k] in [1..17] with a candidate, as
    [(digits, exponent of the last digit)]. *)
Fixpoint shortest_digits (fuel k : nat) (even : bool) (v lo hi : Q) (e10 : Z) : Z * Z :=
  match fuel with
  | O => (round_half_even v, 0%Z)
  | S fuel' =>
      let ex := (e10 - Z.of_nat k + 1)%Z in
      let scale := Qpower 10 ex in
      match pick_candidate even v lo hi scale (round_half_even (v / scale)) with
      | Some d => (d, ex)
      | None => shortest_digits fuel' (S k) even v lo hi e10
      end
  end.

Fixpoint strip_zeros (fuel : nat) (d ex : Z) : Z * Z :=
  match fuel with
  | O => (d, ex)
  | S k => if andb (Z.eqb (d mod 10) 0) (Z.ltb 0 d) then strip_zeros k (d / 10) (ex + 1) else (d, ex)
  end.

(** CPython's [format_float_short] with [repr]'s rules, from the digits
    [ds] and the position [decpt] of the decimal point. *)
Definition layout_repr (ds : string) (decpt : Z) : string :=
  let n := Z.of_nat (String.length ds) in
  if orb (Z.leb decpt (-4)) (Z.ltb 16 decpt) then
    let x := (decpt - 1)%Z in
    (substring 0 1 ds ++
     (if Nat.ltb 1 (String.length ds) then "." ++ substring 1 (String.length ds - 1) ds else "") ++
     "e" ++ (if Z.ltb x 0 then "-" else "+") ++
     (if Z.ltb (Z.abs x) 10 then "0" else "") ++ str_of_Z (Z.abs x))%string
  else if Z.leb decpt 0 then
    ("0." ++ pad_zeros (Z.to_nat (- decpt)) ds)%string
  else if Z.leb n decpt then
    (ds ++ pad_zeros_right (Z.to_nat (decpt - n)) ++ ".0")%string
  else
    (substring 0 (Z.to_nat decpt) ds ++ "." ++ substring (Z.to_nat decpt) (String.length ds - Z.to_nat decpt) ds)%string.

(** [repr(f)]: [float_repr_r] in CPython's [Python/pystrtod.c] with mode 0
    of [_Py_dg_dtoa]. *)
Definition float_repr (f : float) : string :=
  match Prim2SF f with
  | S754_zero s => if s then "-0.0" else "0.0"
  | S754_infinity s => if s then "-inf" else "inf"
  | S754_nan => "nan"
  | S754_finite s m e =>
      let v := inject_Z (Zpos m) * Qpower 2 e in
      let '(lo, hi) := half_gaps m e in
      let e10 := decimal_exponent v in
      let '(d, ex) := shortest_digits 17 1 (Z.even (Zpos m)) v lo hi e10 in
      let '(d, ex) := strip_zeros 17 d ex in
      let ds := str_of_Z d in
      ((if s then "-" else "") ++
       layout_repr ds (Z.of_nat (String.length ds) + ex))%string
  end.
