(* ===== verification/DocTest.v ===== *)
(** * Python's [doctest]: the parser, the output checker and the runner

    The repository tests its tutorial functions with doctests.  This file
    translates the parts of CPython's [Lib/doctest.py] that decide whether
    a docstring's examples pass:

    - [DocTestParser.parse]/[_parse_example]: the docstring is dedented by
      its least indentation ([min_indent]), then read line by line by the
      state machine [parse_step].  This is the regular expression
      [_EXAMPLE_RE]: a [>>>] line, its [...] continuation lines, and the
      expected output up to a blank line or the next prompt.  Each raw
      example is checked ([check_prompt_blank], [check_prefix]), stripped
      of its prompts, and given its expected exception message
      ([exception_msg], [_EXCEPTION_RE]) and its option directives
      ([find_options]).
    - [OutputChecker.check_output]: exact match, [True]/[1], [<BLANKLINE>],
      [NORMALIZE_WHITESPACE] and [ELLIPSIS] ([ellipsis_match]).
    - [DocTestRunner.__run]: each example runs in the namespace the earlier
      examples left; its printed output, or the last line of its traceback,
      is compared with the expected text under the option flags.  The
      counts are [(failures, tries)].

    Executing an example is a parameter of the runner: an [interp] maps a
    namespace and the source of one example to the new namespace, the
    printed text and the exception it raised, or to [None] when the source
    is outside the modelled code.  Text is ASCII, so doctest's
    [_toAscii] is the identity. *)

From Stdlib Require Import List String Ascii Bool Arith Lia DecimalString.
From S2P Require Import Prelude.
Import ListNotations.
Local Open Scope string_scope.

(** ** Text *)

Definition nl : ascii := "010".
Definition nl_str : string := String nl EmptyString.

(** [str.split('\n')]. *)
Fixpoint split_nl (s : string) : list string :=
  match s with
  | EmptyString => [EmptyString]
  | String c r =>
      if Ascii.eqb c nl then EmptyString :: split_nl r
      else match split_nl r with
           | l :: ls => String c l :: ls
           | [] => [String c EmptyString]
           end
  end.

(** ['\n'.join(lines)]. *)
Definition join_nl (ls : list string) : string := String.concat nl_str ls.

(** [s[k:]]. *)
Fixpoint drop (k : nat) (s : string) : string :=
  match k, s with
  | O, _ => s
  | S k', String _ r => drop k' r
  | S _, EmptyString => EmptyString
  end.

Fixpoint count_spaces (s : string) : nat :=
  match s with
  | String c r => if Ascii.eqb c " " then S (count_spaces r) else O
  | EmptyString => O
  end.

Fixpoint spaces (k : nat) : string :=
  match k with O => EmptyString | S k' => String " " (spaces k') end.

(** [str.isspace] on one ASCII character. *)
Definition py_isspace (c : ascii) : bool :=
  let n := nat_of_ascii c in
  Nat.eqb n 32 || (Nat.leb 9 n && Nat.leb n 13) || (Nat.leb 28 n && Nat.leb n 31).

(** A word character of [re]'s [\w] on ASCII. *)
Definition is_word_char (c : ascii) : bool :=
  let n := nat_of_ascii c in
  (Nat.leb 48 n && Nat.leb n 57) || (Nat.leb 65 n && Nat.leb n 90) ||
  (Nat.leb 97 n && Nat.leb n 122) || Nat.eqb n 95.

(** [re.match('[ ]*$', line)]: only spaces. *)
Fixpoint is_blank (s : string) : bool :=
  match s with
  | EmptyString => true
  | String c r => Ascii.eqb c " " && is_blank r
  end.

Definition after_indent (s : string) : string := drop (count_spaces s) s.

Definition is_ps1 (line : string) : bool := String.prefix ">>>" (after_indent line).
Definition is_ps2 (line : string) : bool := String.prefix "..." (after_indent line).

Definition ends_with_nl (s : string) : bool :=
  match String.get (String.length s - 1) s with
  | Some c => Nat.ltb 0 (String.length s) && Ascii.eqb c nl
  | None => false
  end.

(** [str.split()]: the maximal runs of non-whitespace. *)
Fixpoint split_ws_acc (s : string) (cur : string) : list string :=
  match s with
  | EmptyString => if String.eqb cur EmptyString then [] else [cur]
  | String c r =>
      if py_isspace c then
        List.app (if String.eqb cur EmptyString then [] else [cur]) (split_ws_acc r EmptyString)
      else split_ws_acc r (String.append cur (String c EmptyString))
  end.

Definition split_ws (s : string) : list string := split_ws_acc s EmptyString.

(** ** Examples and option flags *)

(** The names [register_optionflag] declares, in doctest's order. *)
Inductive doctest_flag :=
| DONT_ACCEPT_TRUE_FOR_1 | DONT_ACCEPT_BLANKLINE | NORMALIZE_WHITESPACE | ELLIPSIS
| SKIP | IGNORE_EXCEPTION_DETAIL | REPORT_UDIFF | REPORT_CDIFF | REPORT_NDIFF
| REPORT_ONLY_FIRST_FAILURE | FAIL_FAST.

Definition doctest_flag_eq_dec (a b : doctest_flag) : {a = b} + {a <> b}.
Proof. decide equality. Defined.

Definition flag_eqb (a b : doctest_flag) : bool := if doctest_flag_eq_dec a b then true else false.

Definition flag_names : list (string * doctest_flag) :=
    [("DONT_ACCEPT_TRUE_FOR_1", DONT_ACCEPT_TRUE_FOR_1); ("DONT_ACCEPT_BLANKLINE", DONT_ACCEPT_BLANKLINE);
     ("NORMALIZE_WHITESPACE", NORMALIZE_WHITESPACE); ("ELLIPSIS", ELLIPSIS); ("SKIP", SKIP);
     ("IGNORE_EXCEPTION_DETAIL", IGNORE_EXCEPTION_DETAIL); ("REPORT_UDIFF", REPORT_UDIFF);
     ("REPORT_CDIFF", REPORT_CDIFF); ("REPORT_NDIFF", REPORT_NDIFF);
     ("REPORT_ONLY_FIRST_FAILURE", REPORT_ONLY_FIRST_FAILURE); ("FAIL_FAST", FAIL_FAST)].

(** [OPTIONFLAGS_BY_NAME[name]]. *)
Definition flag_of_name (s : string) : option doctest_flag :=
  option_map snd (List.find (fun p => String.eqb (fst p) s) flag_names).

Definition tab : ascii := "009".
Definition dquote : ascii := "034".
Definition squote : ascii := "039".
Definition backslash : ascii := "092".

(** [str.expandtabs()]: tabs to the next multiple of 8 columns; the
    column restarts after [\n] and [\r]. *)
Fixpoint expandtabs_col (col : nat) (s : string) : string :=
  match s with
  | EmptyString => EmptyString
  | String c r =>
      if Ascii.eqb c tab then
        let k := 8 - col mod 8 in spaces k ++ expandtabs_col (col + k) r
      else if orb (Ascii.eqb c nl) (Ascii.eqb c "013") then String c (expandtabs_col 0 r)
      else String c (expandtabs_col (S col) r)
  end.

Definition expandtabs (s : string) : string := expandtabs_col 0 s.

(** [repr] of a Python [str]: single quotes unless the text has a single
    quote and no double quote; backslash, the quote, [\t], [\n], [\r]
    escaped, other unprintable characters as [\xhh]. *)
Definition hex_digit (n : nat) : ascii := ascii_of_nat (if Nat.ltb n 10 then 48 + n else 87 + n).

Definition escape_char (q c : ascii) : string :=
  let n := nat_of_ascii c in
  if Ascii.eqb c backslash then String backslash (String backslash EmptyString)
  else if Ascii.eqb c q then String backslash (String q EmptyString)
  else if Ascii.eqb c tab then String backslash "t"
  else if Ascii.eqb c nl then String backslash "n"
  else if Ascii.eqb c "013" then String backslash "r"
  else if Nat.ltb n 32 || Nat.eqb n 127 || (Nat.leb 128 n && Nat.leb n 160) || Nat.eqb n 173
  then String backslash (String "x" (String (hex_digit (n / 16)) (String (hex_digit (n mod 16)) EmptyString)))
  else String c EmptyString.

Fixpoint has_char (c : ascii) (s : string) : bool :=
  match s with EmptyString => false | String d r => Ascii.eqb c d || has_char c r end.

Fixpoint escape_all (q : ascii) (s : string) : string :=
  match s with EmptyString => EmptyString | String c r => escape_char q c ++ escape_all q r end.

Definition str_repr (s : string) : string :=
  let q := if has_char squote s && negb (has_char dquote s) then dquote else squote in
  String q (escape_all q s ++ String q EmptyString).

(** The result of the first failing call of a list of calls, or all
    their results. *)
Fixpoint res_map {A B : Type} (f : A -> res B) (l : list A) : res (list B) :=
  match l with
  | [] => Ok []
  | x :: r => let* y := f x in let* ys := res_map f r in Ok (y :: ys)
  end.

(** ** Parsing a docstring *)

(** [_INDENT_RE]: a line's indentation when a non-whitespace character
    follows it. *)
Definition indent_of_line (line : string) : option nat :=
  match String.get (count_spaces line) line with
  | Some c => if py_isspace c then None else Some (count_spaces line)
  | None => None
  end.

Definition min_indent (s : string) : nat :=
  match flat_map (fun l => match indent_of_line l with Some k => [k] | None => [] end)
                 (split_nl s) with
  | [] => 0
  | k :: ks => fold_left Nat.min ks k
  end.

(** An example as [_EXAMPLE_RE] matches it: the indentation of its
    prompt, its line number, its source and expected lines (last first). *)
Record raw_example := mk_raw {
  rx_indent : nat; rx_lineno : nat; rx_source : list string; rx_want : list string }.

Inductive parse_state := PIdle | PSource (r : raw_example) | PWant (r : raw_example).

Definition start_example (i : nat) (line : string) : parse_state :=
  PSource (mk_raw (count_spaces line) i [line] []).

Definition parse_step (acc : parse_state * list raw_example) (ln : nat * string)
    : parse_state * list raw_example :=
  let '(st, out) := acc in
  let '(i, line) := ln in
  match st with
  | PIdle => if is_ps1 line then (start_example i line, out) else (PIdle, out)
  | PSource r =>
      if is_ps2 line then
        (PSource (mk_raw r.(rx_indent) r.(rx_lineno) (line :: r.(rx_source)) []), out)
      else if is_blank line then (PIdle, r :: out)
      else if is_ps1 line then (start_example i line, r :: out)
      else (PWant (mk_raw r.(rx_indent) r.(rx_lineno) r.(rx_source) [line]), out)
  | PWant r =>
      if is_blank line then (PIdle, r :: out)
      else if is_ps1 line then (start_example i line, r :: out)
      else (PWant (mk_raw r.(rx_indent) r.(rx_lineno) r.(rx_source) (line :: r.(rx_want))), out)
  end.

Definition flush (st : parse_state) (out : list raw_example) : list raw_example :=
  match st with PIdle => out | PSource r | PWant r => r :: out end.

Definition raw_examples (s : string) : list raw_example :=
  let ls := split_nl s in
  let '(st, out) := fold_left parse_step (combine (seq 0 (List.length ls)) ls) (PIdle, []) in
  rev (flush st out).

(** [_check_prompt_blank]: every source line has a space after its
    prompt. *)
Fixpoint check_prompt_blank (lines : list string) (indent : nat) (name : string)
    (lineno : nat) : res unit :=
  match lines with
  | [] => Ok tt
  | line :: rest =>
      let blank := match String.get (indent + 3) line with
                   | Some c => Ascii.eqb c " " | None => false end in
      if Nat.leb (indent + 4) (String.length line) && negb blank then
        Err (ValueError ("line " ++ str_of_nat (lineno + 1) ++ " of the docstring for " ++ name ++
                         " lacks blank after " ++ substring indent 3 line ++ ": " ++ str_repr line))
      else check_prompt_blank rest indent name (S lineno)
  end.

(** [_check_prefix]: every non-empty line starts with [prefix]. *)
Fixpoint check_prefix (lines : list string) (prefix name : string) (lineno : nat) : res unit :=
  match lines with
  | [] => Ok tt
  | line :: rest =>
      if negb (String.eqb line "") && negb (String.prefix prefix line) then
        Err (ValueError ("line " ++ str_of_nat (lineno + 1) ++ " of the docstring for " ++ name ++
                         " has inconsistent leading whitespace: " ++ str_repr line))
      else check_prefix rest prefix name (S lineno)
  end.

(** [_EXCEPTION_RE]: a traceback header line, then the message from the
    first line that starts with a word character. *)
Fixpoint all_space (s : string) : bool :=
  match s with EmptyString => true | String c r => py_isspace c && all_space r end.

Definition traceback_header (line : string) : bool :=
  let h1 := "Traceback (most recent call last):" in
  let h2 := "Traceback (innermost last):" in
  (String.prefix h1 line && all_space (drop (String.length h1) line)) ||
  (String.prefix h2 line && all_space (drop (String.length h2) line)).

Fixpoint msg_lines (ls : list string) : option (list string) :=
  match ls with
  | [] => None
  | l :: r =>
      match String.get 0 l with
      | Some c => if is_word_char c then Some ls else msg_lines r
      | None => msg_lines r
      end
  end.

Definition exception_msg (want_lines : list string) : option string :=
  match want_lines with
  | h :: rest => if traceback_header h then option_map join_nl (msg_lines rest) else None
  | [] => None
  end.

(** [_OPTION_DIRECTIVE_RE]: [#], whitespace, [doctest:], whitespace, then
    the rest of the line, which must hold no quote. *)
Fixpoint skip_ws (s : string) : string :=
  match s with String c r => if py_isspace c then skip_ws r else s | EmptyString => s end.

Fixpoint directive_tail (s : string) : option (string * string) :=
  match s with
  | EmptyString => Some (EmptyString, EmptyString)
  | String c r =>
      if Ascii.eqb c nl then Some (EmptyString, s)
      else if Ascii.eqb c squote || Ascii.eqb c dquote then None
      else option_map (fun '(g, rest) => (String c g, rest)) (directive_tail r)
  end.

Definition directive_at (s : string) : option (string * string) :=
  let t := skip_ws s in
  if String.prefix "doctest:" t then directive_tail (skip_ws (drop 8 t)) else None.

(** The groups of [finditer]; [fuel] is the length of the source, and
    every step consumes a character. *)
Fixpoint scan_directives (fuel : nat) (s : string) : list string :=
  match fuel with
  | O => []
  | S f =>
      match s with
      | EmptyString => []
      | String c r =>
          if Ascii.eqb c "#" then
            match directive_at r with
            | Some (g, rest) => g :: scan_directives f rest
            | None => scan_directives f r
            end
          else scan_directives f r
      end
  end.

Fixpoint map_chars (f : ascii -> ascii) (s : string) : string :=
  match s with EmptyString => EmptyString | String c r => String (f c) (map_chars f r) end.

(** [options[flag] = value] on a dict kept in insertion order. *)
Fixpoint set_option (opts : list (doctest_flag * bool)) (f : doctest_flag) (b : bool)
    : list (doctest_flag * bool) :=
  match opts with
  | [] => [(f, b)]
  | (g, c) :: r => if flag_eqb f g then (g, b) :: r else (g, c) :: set_option r f b
  end.

Fixpoint add_options (toks : list string) (name : string) (lineno : nat)
    (opts : list (doctest_flag * bool)) : res (list (doctest_flag * bool)) :=
  match toks with
  | [] => Ok opts
  | t :: r =>
      let invalid := ValueError ("line " ++ str_of_nat (lineno + 1) ++ " of the doctest for " ++
                                 name ++ " has an invalid option: " ++ str_repr t) in
      match t with
      | String c rest =>
          if Ascii.eqb c "+" || Ascii.eqb c "-" then
            match flag_of_name rest with
            | Some f => add_options r name lineno (set_option opts f (Ascii.eqb c "+"))
            | None => Err invalid
            end
          else Err invalid
      | EmptyString => Err invalid
      end
  end.

(** [_IS_BLANK_OR_COMMENT]: spaces, then nothing or a comment, on one
    line (a final newline allowed). *)
Definition is_blank_or_comment (s : string) : bool :=
  let t := after_indent s in
  let one_line := match split_nl t with [_] => true | [_; ""] => true | _ => false end in
  one_line && (String.eqb t "" || String.eqb t nl_str || String.prefix "#" t).

Definition find_options (source name : string) (lineno : nat)
    : res (list (doctest_flag * bool)) :=
  let comma_to_space c := if Ascii.eqb c "," then " "%char else c in
  let* opts := fold_left (fun acc g => let* o := acc in
                            add_options (split_ws (map_chars comma_to_space g)) name lineno o)
                         (scan_directives (String.length source) source) (Ok []) in
  match opts with
  | _ :: _ =>
      if is_blank_or_comment source then
        Err (ValueError ("line " ++ str_of_nat lineno ++ " of the doctest for " ++ name ++
             " has an option directive on a line with no example: " ++ str_repr source))
      else Ok opts
  | [] => Ok opts
  end.

(** [Example]: source, expected output, expected exception message, line
    number, indentation and option overrides; [__init__] ends each text
    with a newline. *)
Record example := mk_example {
  ex_source : string; ex_want : string; ex_exc_msg : option string;
  ex_lineno : nat; ex_indent : nat; ex_options : list (doctest_flag * bool) }.

Definition add_nl (s : string) : string := if ends_with_nl s then s else s ++ nl_str.

Definition make_example (source want : string) (exc_msg : option string) (lineno indent : nat)
    (options : list (doctest_flag * bool)) : example :=
  mk_example (add_nl source) (if String.eqb want "" then want else add_nl want)
             (option_map add_nl exc_msg) lineno indent options.

(** [_parse_example] and the filter of [parse]: [None] for a source that
    is blank or a comment. *)
Definition parse_example (name : string) (min_ind : nat) (r : raw_example)
    : res (option example) :=
  let source_lines := rev r.(rx_source) in
  let indent := r.(rx_indent) in
  let lineno := r.(rx_lineno) in
  let* _ := check_prompt_blank source_lines indent name lineno in
  let* _ := check_prefix (tl source_lines) (spaces indent ++ ".") name lineno in
  let source := join_nl (map (drop (indent + 4)) source_lines) in
  let want_lines := rev r.(rx_want) in
  let* _ := check_prefix want_lines (spaces indent) name (lineno + List.length source_lines) in
  let want_lines := map (drop indent) want_lines in
  let* options := find_options source name lineno in
  if is_blank_or_comment source then Ok None
  else Ok (Some (make_example source (join_nl want_lines) (exception_msg want_lines)
                         lineno (min_ind + indent) options)).

(** [DocTestParser.get_examples(string, name)]. *)
Definition get_examples (name doc : string) : res (list example) :=
  let s := expandtabs doc in
  let m := min_indent s in
  let s := if Nat.ltb 0 m then join_nl (map (drop m) (split_nl s)) else s in
  let* exs := res_map (parse_example name m) (raw_examples s) in
  Ok (flat_map (fun o => match o with Some e => [e] | None => [] end) exs).

(** ** The output checker *)

Definition has_flag (f : doctest_flag) (flags : list doctest_flag) : bool :=
  existsb (flag_eqb f) flags.

(** [str.split(sep)] for a non-empty separator; [fuel] bounds the pieces. *)
Fixpoint split_on (fuel : nat) (sep s : string) : list string :=
  match fuel with
  | O => [s]
  | S f =>
      match String.index 0 sep s with
      | Some i => substring 0 i s :: split_on f sep (drop (i + String.length sep) s)
      | None => [s]
      end
  end.

Definition ends_with (w s : string) : bool :=
  Nat.leb (String.length w) (String.length s) &&
  String.eqb (substring (String.length s - String.length w) (String.length w) s) w.

Fixpoint find_pieces (ws : list string) (got : string) (startpos endpos : nat) : bool :=
  match ws with
  | [] => true
  | w :: r =>
      match String.index startpos w (substring 0 endpos got) with
      | Some i => find_pieces r got (i + String.length w) endpos
      | None => false
      end
  end.

(** [_ellipsis_match(want, got)]: [...] in [want] matches any text. *)
Definition ellipsis_match (want got : string) : bool :=
  match String.index 0 "..." want with
  | None => String.eqb want got
  | Some _ =>
      let ws := split_on (S (String.length want)) "..." want in
      let w0 := hd "" ws in
      match (if String.eqb w0 "" then Some (0, ws)
             else if String.prefix w0 got then Some (String.length w0, tl ws) else None) with
      | None => false
      | Some (startpos, ws1) =>
          let wl := last ws1 "" in
          match (if String.eqb wl "" then Some (String.length got, ws1)
                 else if ends_with wl got
                      then Some (String.length got - String.length wl, removelast ws1)
                 else None) with
          | None => false
          | Some (endpos, ws2) =>
              if Nat.ltb endpos startpos then false else find_pieces ws2 got startpos endpos
          end
      end
  end.

Definition blankline_marker : string := "<BLANKLINE>".

(** [re.sub('(?m)^<BLANKLINE>\s*?$', '', want)], line by line. *)
Definition unmark_blankline (line : string) : string :=
  if String.prefix blankline_marker line &&
     all_space (drop (String.length blankline_marker) line) then "" else line.

(** [re.sub('(?m)^[^\S\n]+$', '', got)], line by line. *)
Definition clear_space_line (line : string) : string :=
  if all_space line then "" else line.

(** [OutputChecker.check_output(want, got, optionflags)]. *)
Definition check_output (want got : string) (flags : list doctest_flag) : bool :=
  if String.eqb got want then true
  else if negb (has_flag DONT_ACCEPT_TRUE_FOR_1 flags) &&
          ((String.eqb got ("True" ++ nl_str) && String.eqb want ("1" ++ nl_str)) ||
           (String.eqb got ("False" ++ nl_str) && String.eqb want ("0" ++ nl_str))) then true
  else
    let '(want, got, same) :=
      if has_flag DONT_ACCEPT_BLANKLINE flags then (want, got, false)
      else let w := join_nl (map unmark_blankline (split_nl want)) in
           let g := join_nl (map clear_space_line (split_nl got)) in
           (w, g, String.eqb g w) in
    if same then true
    else
      let '(want, got, same) :=
        if has_flag NORMALIZE_WHITESPACE flags then
          let g := String.concat " " (split_ws got) in
          let w := String.concat " " (split_ws want) in
          (w, g, String.eqb g w)
        else (want, got, false) in
      if same then true
      else if has_flag ELLIPSIS flags then ellipsis_match want got
      else false.

(** ** The runner *)

(** What executing an example's source in [single] mode shows: the text
    it printed (for an expression, [repr] of its value and a newline),
    and the exception it raised, if any. *)
Record exec_result := mk_exec { out_text : string; raised : option exn }.

(** The interpreter of a module's examples over its namespace [S];
    [None] for a source outside the model. *)
Definition interp (S : Type) : Type := S -> string -> option (S * exec_result).

(** [traceback.format_exception_only(...)[-1]]. *)
Definition format_exception_only (e : exn) : string :=
  if String.eqb (exn_arg e) "" then exn_name e ++ nl_str
  else exn_name e ++ ": " ++ exn_arg e ++ nl_str.

(** [_strip_exception_details]: the exception name of the first line,
    without its module path and its message. *)
Fixpoint rindex_dot (s : string) (i : nat) (acc : option nat) : option nat :=
  match s with
  | EmptyString => acc
  | String c r => rindex_dot r (S i) (if Ascii.eqb c "." then Some i else acc)
  end.

Definition strip_exception_details (msg : string) : string :=
  let first := hd "" (split_nl msg) in
  let upto_colon := match String.index 0 ":" first with
                    | Some i => substring 0 i first | None => first end in
  match rindex_dot upto_colon 0 None with
  | Some i => drop (S i) upto_colon
  | None => upto_colon
  end.

Definition apply_options (flags : list doctest_flag) (opts : list (doctest_flag * bool))
    : list doctest_flag :=
  fold_left (fun (fl : list doctest_flag) (p : doctest_flag * bool) =>
               let '(f, b) := p in
               if b then (if has_flag f fl then fl else f :: fl)
               else filter (fun g => negb (flag_eqb f g)) fl) opts flags.

Inductive example_outcome := SUCCESS | FAILURE | BOOM.

(** One iteration of [__run] after the [SKIP] test. *)
Definition run_example {NS : Type} (ev : interp NS) (flags : list doctest_flag) (g : NS)
    (ex : example) : option (NS * example_outcome) :=
  match ev g ex.(ex_source) with
  | None => None
  | Some (g', r) =>
      Some (g',
        match r.(raised) with
        | None => if check_output ex.(ex_want) r.(out_text) flags then SUCCESS else FAILURE
        | Some e =>
            let exc_msg := format_exception_only e in
            match ex.(ex_exc_msg) with
            | None => BOOM
            | Some m =>
                if check_output m exc_msg flags then SUCCESS
                else if has_flag IGNORE_EXCEPTION_DETAIL flags &&
                        check_output (strip_exception_details m)
                                     (strip_exception_details exc_msg) flags
                then SUCCESS else FAILURE
            end
        end)
  end.

(** [DocTestRunner.__run]: [(failures, tries)]. *)
Fixpoint run_examples {NS : Type} (ev : interp NS) (flags0 : list doctest_flag) (g : NS)
    (exs : list example) (failures tries : nat) : option (nat * nat) :=
  match exs with
  | [] => Some (failures, tries)
  | ex :: rest =>
      let flags := apply_options flags0 ex.(ex_options) in
      if has_flag SKIP flags then run_examples ev flags0 g rest failures tries
      else
        match run_example ev flags g ex with
        | None => None
        | Some (g', o) =>
            let failures := match o with SUCCESS => failures | _ => S failures end in
            if Nat.ltb 0 failures && has_flag FAIL_FAST flags then Some (failures, S tries)
            else run_examples ev flags0 g' rest failures (S tries)
        end
  end.

(** A docstring's [DocTest], run from the module's namespace [g0]. *)
Definition run_docstring {NS : Type} (ev : interp NS) (flags : list doctest_flag) (g0 : NS)
    (name doc : string) : res (option (nat * nat)) :=
  let* exs := get_examples name doc in
  Ok (run_examples ev flags g0 exs 0 0).

Definition add_results (a b : option (nat * nat)) : option (nat * nat) :=
  match a, b with
  | Some (f1, t1), Some (f2, t2) => Some (f1 + f2, t1 + t2)
  | _, _ => None
  end.

(** [doctest.testmod()]: every docstring of the module, each from a copy
    of the module's namespace; the summed [TestResults(failed, attempted)]. *)
Definition testmod {NS : Type} (ev : interp NS) (g0 : NS) (docs : list (string * string))
    : res (option (nat * nat)) :=
  fold_left (fun (acc : res (option (nat * nat))) (d : string * string) =>
               let '(name, doc) := d in
               let* a := acc in let* b := run_docstring ev [] g0 name doc in Ok (add_results a b))
            docs (Ok (Some (0, 0))).

(** ** Lemmas on the text helpers and the runner *)

Lemma has_char_app (c : ascii) (s1 s2 : string) :
  has_char c (s1 ++ s2) = (has_char c s1 || has_char c s2)%bool.
Proof. induction s1 as [|d s1 IH]; cbn; [reflexivity | now rewrite IH, orb_assoc]. Qed.

(** A line without a newline stays whole under [split_nl]. *)
Lemma split_nl_no_nl (a s : string) :
  has_char nl a = false -> split_nl (a ++ s) = (a ++ hd "" (split_nl s))%string :: tl (split_nl s).
Proof.
  induction a as [|c a IH].
  - intros _. cbn [append]. destruct (split_nl s) as [|l ls] eqn:E; [exfalso | reflexivity].
    destruct s as [|c r]; cbn in E; [discriminate|].
    destruct (Ascii.eqb c nl); [discriminate|]. destruct (split_nl r); discriminate.
  - intros H. cbn [has_char] in H. apply orb_false_iff in H as [Hc Ha].
    cbn [append split_nl]. rewrite Ascii.eqb_sym, Hc, (IH Ha). reflexivity.
Qed.

Lemma ends_with_app (w s : string) : ends_with w (s ++ w) = true.
Proof.
  unfold ends_with. rewrite string_length_append.
  replace (String.length s + String.length w - String.length w) with (String.length s) by lia.
  rewrite (proj2 (substring_app_l s w _)), substring_length_self, String.eqb_refl, andb_true_r.
  apply Nat.leb_le. lia.
Qed.

(** [testmod] sums the results of the docstrings' runs. *)
Lemma testmod_results {NS : Type} (ev : interp NS) (g0 : NS) (docs : list (string * string)) :
  testmod ev g0 docs =
  fold_left (fun acc r => let* a := acc in let* b := r in Ok (add_results a b))
    (map (fun d => run_docstring ev [] g0 (fst d) (snd d)) docs) (Ok (Some (0, 0))).
Proof.
  unfold testmod. generalize (Ok (Some (0, 0)) : res (option (nat * nat))).
  induction docs as [|[n d] docs IH]; intros acc; cbn; [reflexivity | apply IH].
Qed.
