(* ===== verification/Doctests.v ===== *)
(** * The remaining doctest and pytest tutorial functions

    [src/doctest/solutions.py]: [unordered_return_value] (a dict whose
    doctest compares it with [==] and prints its sorted items),
    [many_digit_number] ([1/42], printed with ['{:.4f}']),
    [some_exception] and [multiply]; [src/pytest/solutions.py]:
    [some_exception] and [test_some_exception]; [src/pytest/test_exception.py]:
    [fun] and [test_fun_raises_zero_division_error].

    A dict with string keys and int values is an association list in
    insertion order (CPython 3.7+), built from a literal by [dict_setitem];
    [==] on dicts ignores the order; [sorted] is a stable insertion sort by
    Python's tuple order.  Floats are [PrimFloat] values, formatted by
    [PyFloat].  [pytest.raises] becomes a function returning an [outcome].

    The docstrings of [intro_1_multiply.py] ([Intro1Doctests]) and of
    [solutions.py] ([SolutionsDoctests]) are kept as text, line for line,
    and run under the doctest model of [DocTest].  What an example's
    source does is the model of the call it makes.  [repr] of the value is
    printed for an expression, and an exception for a call that raises.
    The examples of [integrate_using_trapezoidal_rule] bind [x] and [fun]
    in a namespace, and the others are a table from source to result.

    [fancy_plot] returns the [Axes] it plots on, and its example prints
    [repr] of it.  What the examples of [solutions.py] print depends on
    the numpy and matplotlib versions and on the axes' address
    ([environment]).  [SolutionsDoctests.run_testmod] is the module's
    [doctest.testmod()] under each of them. *)

From Stdlib Require Import QArith Qabs Qround Lqa ZArith Lia List String Ascii Floats
  Permutation Sorted OrdersEx.
From S2P Require Import Prelude Mean NumPyFloat PyMultiply Csv PyFloat DocTest.
Import ListNotations.

(** ** Dicts with string keys *)

Definition dict : Type := list (string * Z).

Definition keys (d : dict) : list string := map fst d.

(** [d[k]], [None] for a missing key. *)
Fixpoint dict_get (d : dict) (k : string) : option Z :=
  match d with
  | [] => None
  | (k', v) :: d' => if String.eqb k k' then Some v else dict_get d' k
  end.

(** [d[k] = v]: replace the value in place, or append a new key. *)
Fixpoint dict_setitem (d : dict) (k : string) (v : Z) : dict :=
  match d with
  | [] => [(k, v)]
  | (k', v') :: d' => if String.eqb k k' then (k', v) :: d' else (k', v') :: dict_setitem d' k v
  end.

(** A literal [{k1: v1, k2: v2, ...}], evaluated left to right. *)
Definition dict_of_literal (kvs : list (string * Z)) : dict :=
  fold_left (fun d '(k, v) => dict_setitem d k v) kvs [].

(** The value a literal binds to [k]: its last occurrence. *)
Definition literal_lookup (kvs : list (string * Z)) (k : string) : option Z :=
  fold_left (fun acc '(k', v) => if String.eqb k k' then Some v else acc) kvs None.

(** [d1 == d2]: same size, and every item of [d1] is an item of [d2]. *)
Definition dict_eq (d1 d2 : dict) : bool :=
  Nat.eqb (List.length d1) (List.length d2) &&
  forallb (fun '(k, v) => match dict_get d2 k with Some v' => Z.eqb v v' | None => false end) d1.

(** [d.items()] *)
Definition items (d : dict) : list (string * Z) := d.

(** Python's order on [(str, int)] tuples: the keys first, by code point,
    then the values. *)
Definition item_compare (a b : string * Z) : comparison :=
  match String_as_OT.compare (fst a) (fst b) with
  | Eq => Z.compare (snd a) (snd b)
  | c => c
  end.

Definition item_lt (a b : string * Z) : bool :=
  match item_compare a b with Lt => true | _ => false end.

Fixpoint insert_item (x : string * Z) (l : list (string * Z)) : list (string * Z) :=
  match l with
  | [] => [x]
  | y :: l' => if item_lt x y then x :: y :: l' else y :: insert_item x l'
  end.

(** [sorted(l)]: stable, so equal to any stable sort by [<]. *)
Definition py_sorted (l : list (string * Z)) : list (string * Z) :=
  fold_left (fun acc x => insert_item x acc) l [].

(** ** Exceptions in doctests and in [pytest.raises] *)


Definition is_zero_division (e : exn) : bool :=
  match e with ZeroDivisionError _ => true | _ => false end.

(** The bytes the doctest process can still allocate.  The products the
    doctests compute need less than a hundred bytes, so every value from
    [64] on gives the same results ([doctest_products_memory]). *)
Definition machine_avail : Z := (2 ^ 32)%Z.

(** ** The tutorial functions *)

Module DoctestSolutions.

(** The [Axes] that [plt.subplots()] returns, with the lines plotted on
    it: [ax.plot(y)] draws [y] against [0, 1, ..., len(y) - 1].  No label,
    title or axis label is ever set on it. *)
Record axes := mk_axes { ax_lines : list (list Z * list Z) }.

Definition ax_plot (ax : axes) (ys : list Z) : axes :=
  mk_axes (ax.(ax_lines) ++ [(map Z.of_nat (seq 0 (List.length ys)), ys)]).

(** [fig, ax = plt.subplots(); ax.plot([1, 2]); return ax] *)
Definition fancy_plot (_ : unit) : axes :=
  let ax := mk_axes [] in
  ax_plot ax [1; 2]%Z.

(** [return {'b': 2, 'a': 1}] *)
Definition unordered_return_value (_ : unit) : dict := dict_of_literal [("b", 2%Z); ("a", 1%Z)]%string.

(** [return 1/42] *)
Definition many_digit_number (_ : unit) : float := (1 / 42)%float.

(** [raise ZeroDivisionError('O.o')] *)
Definition some_exception (_ : unit) : res unit := Err (ZeroDivisionError "O.o"%string).

(** [return a * b], in a process that can still allocate [avail] bytes. *)
Definition multiply (avail : Z) (a b : pyval) : res pyval := py_mul avail a b.

End DoctestSolutions.

Module PytestSolutions.

Definition some_exception (_ : unit) : res unit := Err (ZeroDivisionError "O.o"%string).

(** [excinfo.value.args[0] == 'O.o'] after [pytest.raises(ZeroDivisionError)]. *)
Definition test_some_exception : outcome :=
  pytest_raises is_zero_division (some_exception tt)
    (fun e => if String.eqb (exn_arg e) "O.o" then Passed else AssertionFailed).

End PytestSolutions.

Module TestException.

(** [raise ZeroDivisionError(1)]: its one argument is the int [1], whose
    [str] is ["1"]. *)
Definition fun_ (_ : unit) : res unit := Err (ZeroDivisionError "1"%string).

Definition test_fun_raises_zero_division_error : outcome :=
  pytest_raises is_zero_division (fun_ tt) (fun _ => Passed).

End TestException.

(** ** The docstrings and what their examples execute *)

(** [repr] of the values the examples display. *)
Fixpoint py_repr (v : pyval) : string :=
  match v with
  | PInt z => str_of_Z z
  | PStr s => str_repr s
  | PList l => "[" ++ String.concat ", " (map py_repr l) ++ "]"
  | PTuple [x] => "(" ++ py_repr x ++ ",)"
  | PTuple l => "(" ++ String.concat ", " (map py_repr l) ++ ")"
  end%string.

(** An expression statement in [single] mode: the [repr] of its value
    and a newline, or the exception it raised. *)
Definition show (r : res pyval) : exec_result :=
  match r with
  | Ok v => mk_exec (py_repr v ++ nl_str)%string None
  | Err e => mk_exec EmptyString (Some e)
  end.

(** A call that returns [None] shows nothing. *)
Definition show_none (r : res unit) : exec_result :=
  match r with
  | Ok _ => mk_exec EmptyString None
  | Err e => mk_exec EmptyString (Some e)
  end.

Definition show_bool (b : bool) : exec_result :=
  mk_exec ((if b then "True" else "False") ++ nl_str)%string None.

(** The examples of a module whose examples never rebind a name: a table
    from an example's source to what executing it shows. *)
Definition table_interp (t : list (string * exec_result)) : interp unit :=
  fun g src => option_map (fun p => (g, snd p)) (find (fun p => String.eqb (fst p) src) t).

Definition items_value (l : list (string * Z)) : pyval :=
  PList (map (fun '(k, v) => PTuple [PStr k; PInt v]) l).

Module Intro1Doctests.

(** The module docstring of [src/doctest/intro_1_multiply.py]. *)
Definition module_doc : string :=
  join_nl [""; "Module documentation."; "This module provides the powerful `multiply` function.";
           ""; ">>> multiply(1, 2)"; "2"; ">>> multiply([3], 3)"; "[3, 3, 3]"; ""]%string.

(** The docstring of [multiply]; its expected line ends in three spaces. *)
Definition multiply_doc : string :=
  join_nl [""; "    >>> multiply(6, 7)"; "    42   "; "    "]%string.

Definition examples : list (string * exec_result) :=
  [("multiply(1, 2)" ++ nl_str, show (Intro1Multiply.multiply machine_avail (PInt 1) (PInt 2)));
   ("multiply([3], 3)" ++ nl_str, show (Intro1Multiply.multiply machine_avail (PList [PInt 3]) (PInt 3)));
   ("multiply(6, 7)" ++ nl_str, show (Intro1Multiply.multiply machine_avail (PInt 6) (PInt 7)))]%string.

(** [if __name__ == '__main__': doctest.testmod()]. *)
Definition run_testmod : res (option (nat * nat)) :=
  testmod (table_interp examples) tt
    [("__main__", module_doc); ("__main__.multiply", multiply_doc)]%string.

End Intro1Doctests.

(** ** The library versions the doctests' output depends on *)

(** numpy 2 prints a float64 scalar as [np.float64(2.0)] (NEP 51).
    numpy 1 prints it as Python prints the float. *)
Inductive numpy_version := NumPy1 | NumPy2.

(** [repr] of an [Axes].  Up to matplotlib 3.3 an [Axes] has no
    [__repr__] of its own.  [plt.subplots()] then returns a
    [matplotlib.axes._subplots.AxesSubplot], printed by [object.__repr__]
    with its address.  3.4 added [_AxesBase.__repr__]:
    ["<" + class name + ":" + fields + ">"], whose fields (label, title,
    axis labels) are all empty here.  3.7 merged [AxesSubplot] into
    [Axes] and put a space after the colon. *)
Inductive mpl_version := Mpl33 | Mpl34to36 | Mpl37.

(** The versions, and the address [id(ax)] in hex that the object gets. *)
Record environment := mk_env { numpy : numpy_version; matplotlib : mpl_version; address : string }.

Definition float64_repr (v : numpy_version) (f : float) : string :=
  match v with
  | NumPy1 => float_repr f
  | NumPy2 => ("np.float64(" ++ float_repr f ++ ")")%string
  end.

(** [object.__repr__] of an [AxesSubplot], up to its address. *)
Definition axes_prefix : string := "<matplotlib.axes._subplots.AxesSubplot object at ".

Definition axes_repr (env : environment) (ax : DoctestSolutions.axes) : string :=
  match env.(matplotlib) with
  | Mpl33 => axes_prefix ++ env.(address) ++ ">"
  | Mpl34to36 => "<AxesSubplot:>"
  | Mpl37 => "<Axes: >"
  end%string.

(** The environment the docstrings were written for: numpy 1 and
    matplotlib 3.3, at some address. *)
Definition tutorial_env : environment := mk_env NumPy1 Mpl33 "0x7f0c8a2b6d30".

Module SolutionsDoctests.

(** The module docstring ["Doctest Exercises."]: no examples. *)
Definition module_doc : string := join_nl [""; "Doctest Exercises."; ""]%string.

Definition fancy_plot_doc : string :=
  join_nl [""; "    >>> fancy_plot()  # doctest: +ELLIPSIS";
           "    <matplotlib.axes._subplots.AxesSubplot ... at ...>"; "    "]%string.

(** The output the example of [fancy_plot_doc] expects. *)
Definition fancy_plot_want : string := ("<matplotlib.axes._subplots.AxesSubplot ... at ...>" ++ nl_str)%string.

Definition unordered_return_value_doc : string :=
  join_nl [""; "    >>> unordered_return_value() == {'a': 1, 'b': 2}"; "    True";
           "    >>> sorted(unordered_return_value().items())"; "    [('a', 1), ('b', 2)]"; "    "]%string.

Definition many_digit_number_doc : string :=
  join_nl [""; "    >>> print('{:.4f}'.format(many_digit_number()))"; "    0.0238";
           "    >>> many_digit_number()  # doctest: +ELLIPSIS"; "    0.02380..."; "    "]%string.

Definition some_exception_doc : string :=
  join_nl [""; "    >>> some_exception()"; "    Traceback (most recent call last):"; "    ...";
           "    ZeroDivisionError: O.o"; "    "]%string.

Definition multiply_doc : string :=
  join_nl [""; "    Computes a * b"; "    ";
           "    >>> multiply(['A', 'B'], 2)  # doctest: +NORMALIZE_WHITESPACE";
           "    ['A', 'B',"; "     'A', 'B']    "; "    >>> multiply(['A', 'B'], 2)";
           "    ['A', 'B', 'A', 'B']"; "    "]%string.

Definition examples : list (string * exec_result) :=
  [("unordered_return_value() == {'a': 1, 'b': 2}" ++ nl_str,
      show_bool (dict_eq (DoctestSolutions.unordered_return_value tt)
                         (dict_of_literal [("a", 1%Z); ("b", 2%Z)])));
   ("sorted(unordered_return_value().items())" ++ nl_str,
      show (Ok (items_value (py_sorted (items (DoctestSolutions.unordered_return_value tt))))));
   ("print('{:.4f}'.format(many_digit_number()))" ++ nl_str,
      mk_exec (format_float_fixed 4 (DoctestSolutions.many_digit_number tt) ++ nl_str) None);
   ("many_digit_number()  # doctest: +ELLIPSIS" ++ nl_str,
      mk_exec (float_repr (DoctestSolutions.many_digit_number tt) ++ nl_str) None);
   ("some_exception()" ++ nl_str, show_none (DoctestSolutions.some_exception tt));
   ("multiply(['A', 'B'], 2)  # doctest: +NORMALIZE_WHITESPACE" ++ nl_str,
      show (DoctestSolutions.multiply machine_avail (PList [PStr "A"; PStr "B"]) (PInt 2)));
   ("multiply(['A', 'B'], 2)" ++ nl_str,
      show (DoctestSolutions.multiply machine_avail (PList [PStr "A"; PStr "B"]) (PInt 2)))]%string.

Definition integrate_using_trapezoidal_rule_doc : string :=
  join_nl [""; "    Implement a function that computes the area under a curve using the ";
           "    [trapezoidal rule]()"; "    "; ""; "    Examples"; "    --------";
           "    >>> x = np.linspace(0, 1, 10)"; "    >>> def fun(x): "; "    ...     return 0*x + 2";
           "    >>> integrate_using_trapezoidal_rule(fun, x)"; "    2.0"; "    ";
           "    >>> x = np.linspace(0, 1, 10)"; "    >>> def fun(x):"; "    ...     return x";
           "    >>> integrate_using_trapezoidal_rule(fun, x)"; "    0.5"; "    "]%string.

(** The names the examples of the module bind: [x] and [fun]. *)
Record namespace := mk_ns { ns_x : option (list float); ns_fun : option (float -> float) }.

Definition not_defined (name : string) : exn :=
  NameError ("name " ++ str_repr name ++ " is not defined")%string.

(** The examples that read or bind [x] and [fun] (numpy 1.x, whose
    float64 [repr] is Python's), then the table for the others. *)
Definition exec (env : environment) (g : namespace) (src : string)
    : option (namespace * exec_result) :=
  if String.eqb src ("x = np.linspace(0, 1, 10)" ++ nl_str)%string then
    Some (mk_ns (Some (linspace_f 0 1 10)) g.(ns_fun), mk_exec EmptyString None)
  else if String.eqb src (join_nl ["def fun(x): "; "    return 0*x + 2"] ++ nl_str)%string then
    Some (mk_ns g.(ns_x) (Some (fun t => 0 * t + 2)%float), mk_exec EmptyString None)
  else if String.eqb src (join_nl ["def fun(x):"; "    return x"] ++ nl_str)%string then
    Some (mk_ns g.(ns_x) (Some (fun t => t)), mk_exec EmptyString None)
  else if String.eqb src ("integrate_using_trapezoidal_rule(fun, x)" ++ nl_str)%string then
    Some (g, match g.(ns_fun), g.(ns_x) with
             | Some fn, Some x =>
                 mk_exec (float64_repr env.(numpy) (integrate_using_trapezoidal_rule_f fn x) ++ nl_str)%string
                   None
             | None, _ => mk_exec EmptyString (Some (not_defined "fun"))
             | _, None => mk_exec EmptyString (Some (not_defined "x"))
             end)
  else if String.eqb src ("fancy_plot()  # doctest: +ELLIPSIS" ++ nl_str)%string then
    Some (g, mk_exec (axes_repr env (DoctestSolutions.fancy_plot tt) ++ nl_str)%string None)
  else option_map (fun p => (g, snd p)) (table_interp examples tt src).

Definition run (name doc : string) : res (option (nat * nat)) :=
  run_docstring (exec tutorial_env) [] (mk_ns None None) name doc.

(** The docstrings [doctest.testmod()] finds, sorted by name. *)
Definition docstrings : list (string * string) :=
  [("__main__", module_doc); ("__main__.fancy_plot", fancy_plot_doc);
   ("__main__.integrate_using_trapezoidal_rule", integrate_using_trapezoidal_rule_doc);
   ("__main__.many_digit_number", many_digit_number_doc); ("__main__.multiply", multiply_doc);
   ("__main__.some_exception", some_exception_doc);
   ("__main__.unordered_return_value", unordered_return_value_doc)]%string.

(** [if __name__ == '__main__': import doctest; doctest.testmod()] *)
Definition run_testmod (env : environment) : res (option (nat * nat)) :=
  testmod (exec env) (mk_ns None None) docstrings.

End SolutionsDoctests.

(** ** Dict literals *)

Lemma dict_get_setitem (d : dict) (k k' : string) (v : Z) :
  dict_get (dict_setitem d k v) k' = if String.eqb k' k then Some v else dict_get d k'.
Proof.
  induction d as [|[k0 v0] d IH]; cbn.
  - reflexivity.
  - destruct (String.eqb_spec k k0) as [->|Hk]; cbn.
    + destruct (String.eqb k' k0); reflexivity.
    + rewrite IH. destruct (String.eqb_spec k' k0), (String.eqb_spec k' k); congruence.
Qed.

Lemma keys_setitem (d : dict) (k : string) (v : Z) :
  keys (dict_setitem d k v) = if existsb (String.eqb k) (keys d) then keys d else keys d ++ [k].
Proof.
  unfold keys. induction d as [|[k0 v0] d IH]; cbn; [reflexivity|].
  destruct (String.eqb k k0); cbn; [reflexivity|]. rewrite IH.
  destruct (existsb (String.eqb k) (map fst d)); reflexivity.
Qed.

Lemma setitem_nodup (d : dict) (k : string) (v : Z) :
  NoDup (keys d) -> NoDup (keys (dict_setitem d k v)).
Proof.
  intros Hd. rewrite keys_setitem.
  destruct (existsb (String.eqb k) (keys d)) eqn:E; [exact Hd|].
  apply NoDup_app; [exact Hd | repeat constructor; auto |].
  intros x Hx [->|[]]. assert (existsb (String.eqb x) (keys d) = true) as Hin.
  { apply existsb_exists. exists x. split; [exact Hx | apply String.eqb_refl]. }
  congruence.
Qed.

Lemma fold_setitem_nodup (kvs : list (string * Z)) (d : dict) :
  NoDup (keys d) -> NoDup (keys (fold_left (fun d '(k, v) => dict_setitem d k v) kvs d)).
Proof.
  revert d. induction kvs as [|[k v] kvs IH]; intros d Hd; cbn; [exact Hd|].
  apply IH, setitem_nodup, Hd.
Qed.

Lemma fold_setitem_get (kvs : list (string * Z)) (d : dict) (k : string) :
  dict_get (fold_left (fun d '(k, v) => dict_setitem d k v) kvs d) k =
  fold_left (fun acc '(k', v) => if String.eqb k k' then Some v else acc) kvs (dict_get d k).
Proof.
  revert d. induction kvs as [|[k' v] kvs IH]; intros d; cbn; [reflexivity|].
  rewrite IH, dict_get_setitem. reflexivity.
Qed.

(** ** Equal dicts are permutations of each other *)

Lemma dict_get_in (d : dict) (k : string) (v : Z) : dict_get d k = Some v -> In (k, v) d.
Proof.
  induction d as [|[k0 v0] d IH]; cbn; [discriminate|].
  destruct (String.eqb_spec k k0) as [->|_]; [intros [= ->]; now left | intros H; right; auto].
Qed.

Lemma nodup_keys_nodup (d : dict) : NoDup (keys d) -> NoDup d.
Proof. apply NoDup_map_inv. Qed.

Lemma dict_eq_incl (d1 d2 : dict) : dict_eq d1 d2 = true -> incl d1 d2.
Proof.
  unfold dict_eq. rewrite andb_true_iff, forallb_forall. intros [_ H] [k v] Hin.
  specialize (H (k, v) Hin). cbn in H.
  destruct (dict_get d2 k) as [v'|] eqn:E; [|discriminate].
  apply Z.eqb_eq in H as ->. now apply dict_get_in.
Qed.

Lemma dict_eq_permutation (d1 d2 : dict) :
  NoDup (keys d1) -> dict_eq d1 d2 = true -> Permutation d1 d2.
Proof.
  intros Hn Heq. apply NoDup_Permutation_bis.
  - now apply nodup_keys_nodup.
  - unfold dict_eq in Heq. apply andb_true_iff in Heq as [Hl _]. apply Nat.eqb_eq in Hl. lia.
  - now apply dict_eq_incl.
Qed.

(** ** [sorted] on items *)

Lemma string_compare_antisym (a b : string) :
  String_as_OT.compare b a = CompOpp (String_as_OT.compare a b).
Proof.
  pose proof String_as_OT.lt_strorder as [Hirr Htr]. unfold String_as_OT.lt in *.
  destruct (String_as_OT.compare_spec a b) as [E|H|H], (String_as_OT.compare_spec b a) as [E'|H'|H'];
    unfold String_as_OT.eq, String_as_OT.lt in *; cbn; try reflexivity; subst; exfalso;
    first [ eapply Hirr; eassumption | eapply Hirr; eapply Htr; eassumption ].
Qed.

Lemma string_compare_eq (a b : string) : String_as_OT.compare a b = Eq -> a = b.
Proof. intros E. destruct (String_as_OT.compare_spec a b); congruence. Qed.

Lemma item_compare_antisym (a b : string * Z) : item_compare b a = CompOpp (item_compare a b).
Proof.
  unfold item_compare. rewrite string_compare_antisym.
  destruct (String_as_OT.compare (fst a) (fst b)); cbn; [apply Z.compare_antisym | reflexivity ..].
Qed.

Lemma item_compare_eq (a b : string * Z) : item_compare a b = Eq -> a = b.
Proof.
  destruct a as [ka va], b as [kb vb]. unfold item_compare; cbn.
  destruct (String_as_OT.compare ka kb) eqn:E; try discriminate.
  intros Hv. apply string_compare_eq in E as ->. apply Z.compare_eq in Hv as ->. reflexivity.
Qed.

Lemma string_compare_refl (a : string) : String_as_OT.compare a a = Eq.
Proof.
  pose proof String_as_OT.lt_strorder as [Hirr _].
  destruct (String_as_OT.compare_spec a a) as [E|H|H]; [reflexivity | exfalso; eapply Hirr; exact H ..].
Qed.

Lemma item_compare_lt_trans (a b c : string * Z) :
  item_compare a b = Lt -> item_compare b c = Lt -> item_compare a c = Lt.
Proof.
  pose proof String_as_OT.lt_strorder as [_ Htr]. unfold String_as_OT.lt in Htr.
  destruct a as [ka va], b as [kb vb], c as [kc vc]. unfold item_compare; cbn.
  destruct (String_as_OT.compare ka kb) eqn:E1; try discriminate; intros H1;
    destruct (String_as_OT.compare kb kc) eqn:E2; try discriminate; intros H2.
  - apply string_compare_eq in E1, E2. subst. rewrite string_compare_refl. cbn iota in H1, H2.
    rewrite Z.compare_lt_iff in *. lia.
  - apply string_compare_eq in E1. subst. now rewrite E2.
  - apply string_compare_eq in E2. subst. now rewrite E1.
  - now rewrite (Htr _ _ _ E1 E2).
Qed.

(** [a] sorts no later than [b]. *)
Definition item_le (a b : string * Z) : Prop := item_compare a b <> Gt.

Lemma item_compare_refl (a : string * Z) : item_compare a a = Eq.
Proof. unfold item_compare. now rewrite string_compare_refl, Z.compare_refl. Qed.

Lemma item_le_trans (a b c : string * Z) : item_le a b -> item_le b c -> item_le a c.
Proof.
  unfold item_le. intros Hab Hbc Hac.
  assert (Hca : item_compare c a = Lt) by (rewrite item_compare_antisym, Hac; reflexivity).
  destruct (item_compare a b) eqn:E1; [|..|congruence].
  - apply item_compare_eq in E1 as ->. congruence.
  - destruct (item_compare b c) eqn:E2; [|..|congruence].
    + apply item_compare_eq in E2 as ->. congruence.
    + pose proof (item_compare_lt_trans _ _ _ (item_compare_lt_trans _ _ _ Hca E1) E2) as H.
      rewrite item_compare_refl in H. discriminate.
Qed.

Lemma item_le_antisym (a b : string * Z) : item_le a b -> item_le b a -> a = b.
Proof.
  unfold item_le. intros Hab Hba. rewrite item_compare_antisym in Hba.
  destruct (item_compare a b) eqn:E; cbn in Hba; [now apply item_compare_eq | congruence | congruence].
Qed.

Lemma item_lt_false_le (x y : string * Z) : item_lt x y = false -> item_le y x.
Proof.
  unfold item_lt, item_le. intros H. rewrite item_compare_antisym. destruct (item_compare x y); cbn; congruence.
Qed.

Lemma item_lt_true_le (x y : string * Z) : item_lt x y = true -> item_le x y.
Proof. unfold item_lt, item_le. destruct (item_compare x y); congruence. Qed.

Lemma insert_item_perm (x : string * Z) (l : list (string * Z)) :
  Permutation (insert_item x l) (x :: l).
Proof.
  induction l as [|y l IH]; cbn; [reflexivity|].
  destruct (item_lt x y); [reflexivity|].
  rewrite IH. apply perm_swap.
Qed.

Lemma insert_item_sorted (x : string * Z) (l : list (string * Z)) :
  Sorted item_le l -> Sorted item_le (insert_item x l).
Proof.
  induction 1 as [|y l Hl IH Hhd]; cbn; [repeat constructor|].
  destruct (item_lt x y) eqn:E.
  - constructor; [constructor; assumption | constructor; now apply item_lt_true_le].
  - constructor; [exact IH|]. apply item_lt_false_le in E.
    destruct l as [|z l]; cbn; [constructor; exact E|].
    inversion Hhd; subst. destruct (item_lt x z); constructor; assumption.
Qed.

Lemma py_sorted_perm_sorted (l acc : list (string * Z)) :
  Sorted item_le acc ->
  Permutation (fold_left (fun acc x => insert_item x acc) l acc) (l ++ acc) /\
  Sorted item_le (fold_left (fun acc x => insert_item x acc) l acc).
Proof.
  revert acc. induction l as [|x l IH]; intros acc Hacc; cbn; [split; [reflexivity | exact Hacc]|].
  destruct (IH (insert_item x acc) (insert_item_sorted x acc Hacc)) as [Hp Hs].
  split; [|exact Hs]. rewrite Hp, insert_item_perm. symmetry. apply Permutation_middle.
Qed.

Section SortedUnique.
Context {A : Type} (R : A -> A -> Prop).
Hypothesis R_antisym : forall a b, R a b -> R b a -> a = b.

(** Two lists sorted by an antisymmetric relation that are permutations
    of each other are equal. *)
Lemma sorted_permutation_unique (l1 l2 : list A) :
  StronglySorted R l1 -> StronglySorted R l2 -> Permutation l1 l2 -> l1 = l2.
Proof.
  revert l2. induction l1 as [|a l1 IH]; intros l2 H1 H2 Hp.
  - now apply Permutation_nil in Hp.
  - destruct l2 as [|b l2]; [apply Permutation_sym, Permutation_nil_cons in Hp; contradiction|].
    apply StronglySorted_inv in H1 as [H1 Ha], H2 as [H2 Hb].
    assert (a = b) as <-.
    { destruct (Permutation_in a Hp (or_introl eq_refl)) as [<-|Hin]; [reflexivity|].
      destruct (Permutation_in b (Permutation_sym Hp) (or_introl eq_refl)) as [->|Hin']; [reflexivity|].
      apply R_antisym; [rewrite Forall_forall in Ha; auto | rewrite Forall_forall in Hb; auto]. }
    f_equal. apply IH; [assumption | assumption | exact (Permutation_cons_inv Hp)].
Qed.

End SortedUnique.

(** [sorted] gives the same list on any two orderings of the same items. *)
Lemma py_sorted_permutation (l1 l2 : list (string * Z)) :
  Permutation l1 l2 -> py_sorted l1 = py_sorted l2.
Proof.
  intros Hp. unfold py_sorted.
  destruct (py_sorted_perm_sorted l1 [] (Sorted_nil _)) as [Hp1 Hs1].
  destruct (py_sorted_perm_sorted l2 [] (Sorted_nil _)) as [Hp2 Hs2].
  rewrite app_nil_r in Hp1, Hp2.
  apply (sorted_permutation_unique item_le item_le_antisym);
    [apply Sorted_StronglySorted; [exact item_le_trans | exact Hs1]
    |apply Sorted_StronglySorted; [exact item_le_trans | exact Hs2]
    |rewrite Hp1, Hp, Hp2; reflexivity].
Qed.

(** ** Properties of the tutorial functions *)

(** A dict literal has no duplicate keys, whatever keys the literal
    repeats: a repeated key updates the entry in place. *)
Theorem dict_of_literal_keys_unique (kvs : list (string * Z)) : NoDup (keys (dict_of_literal kvs)).
Proof. apply fold_setitem_nodup. constructor. Qed.

(** Looking up a key of a dict literal gives the value of the key's
    last occurrence in the literal, and [None] for a key it does not
    contain. *)
Theorem dict_of_literal_get (kvs : list (string * Z)) (k : string) :
  dict_get (dict_of_literal kvs) k = literal_lookup kvs k.
Proof. unfold dict_of_literal, literal_lookup. apply fold_setitem_get. Qed.

(** Two dicts that compare equal with [==] have the same sorted
    items, whatever order they were built in: the second doctest of
    [unordered_return_value] does not depend on the insertion order. *)
Theorem sorted_items_order_independent (d1 d2 : dict) :
  NoDup (keys d1) -> dict_eq d1 d2 = true -> py_sorted (items d1) = py_sorted (items d2).
Proof. intros Hn Heq. apply py_sorted_permutation. now apply dict_eq_permutation. Qed.

(** The doctests of [src/doctest/solutions.py] that do not need
    matplotlib pass under doctest's runner: both examples of
    [unordered_return_value] (the dict equals [{'a': 1, 'b': 2}] although
    its items come in the order [b, a]), both of [many_digit_number]
    ([0.0238], and [repr] [0.023809523809523808] against [0.02380...]
    under [ELLIPSIS]), the traceback of [some_exception], and both of
    [multiply] (one across two lines under [NORMALIZE_WHITESPACE]).  So
    do the six examples of [integrate_using_trapezoidal_rule], which bind
    [x] and [fun] and print the float64 results [2.0] and [0.5]. *)
Example solutions_doctests_pass :
  SolutionsDoctests.run "__main__.integrate_using_trapezoidal_rule"
    SolutionsDoctests.integrate_using_trapezoidal_rule_doc = Ok (Some (0, 6)%nat) /\
  SolutionsDoctests.run "__main__.unordered_return_value"
    SolutionsDoctests.unordered_return_value_doc = Ok (Some (0, 2)%nat) /\
  SolutionsDoctests.run "__main__.many_digit_number"
    SolutionsDoctests.many_digit_number_doc = Ok (Some (0, 2)%nat) /\
  SolutionsDoctests.run "__main__.some_exception"
    SolutionsDoctests.some_exception_doc = Ok (Some (0, 1)%nat) /\
  SolutionsDoctests.run "__main__.multiply" SolutionsDoctests.multiply_doc = Ok (Some (0, 2)%nat).
Proof. split_and; vm_compute; reflexivity. Qed.

(** [doctest.testmod()] on [src/doctest/intro_1_multiply.py] tries
    three examples and fails one.  The two examples of the module
    docstring pass; [multiply]'s own example fails, because its expected
    output [42] is followed by three spaces that [repr(42)] does not
    print.  Under [NORMALIZE_WHITESPACE] the same output would match. *)
Example intro_1_multiply_doctests :
  run_docstring (table_interp Intro1Doctests.examples) [] tt "__main__"
    Intro1Doctests.module_doc = Ok (Some (0, 2)%nat) /\
  run_docstring (table_interp Intro1Doctests.examples) [] tt "__main__.multiply"
    Intro1Doctests.multiply_doc = Ok (Some (1, 1)%nat) /\
  Intro1Doctests.run_testmod = Ok (Some (1, 3)%nat) /\
  show (Intro1Multiply.multiply machine_avail (PInt 6) (PInt 7)) = mk_exec ("42" ++ nl_str)%string None /\
  check_output ("42   " ++ nl_str) ("42" ++ nl_str) [NORMALIZE_WHITESPACE] = true.
Proof. split_and; vm_compute; reflexivity. Qed.

(** [many_digit_number()] is the binary64 value nearest to [1/42]
    (within a relative [2^-53]), and ['{:.4f}'] prints it as [0.0238], the
    doctest's expected output. *)
Example many_digit_number_doctest :
  exists q, float_to_Q (DoctestSolutions.many_digit_number tt) = Some q /\
    Qabs (q - (1 # 42)) <= (1 # 42) * (1 # 9007199254740992) /\
    format_fixed 4 q = "0.0238"%string.
Proof. eexists. split_and; [vm_compute; reflexivity | vm_compute; discriminate | vm_compute; reflexivity]. Qed.

(** The pytest exception tutorials pass: [test_some_exception]
    sees [some_exception()] raise [ZeroDivisionError] with the message
    ['O.o'] under [pytest.raises], and
    [test_fun_raises_zero_division_error] sees [fun()] raise.  The check
    of the second test passes on a body exactly when the body raises a
    [ZeroDivisionError]; a body that returns gives [DidNotRaise], and one
    that raises another exception lets it escape. *)
Theorem exception_tests_pass :
  PytestSolutions.test_some_exception = Passed /\
  TestException.test_fun_raises_zero_division_error = Passed /\
  (forall body : res unit,
     (pytest_raises is_zero_division body (fun _ => Passed) = Passed <->
      exists m, body = Err (ZeroDivisionError m)) /\
     (body = Ok tt -> pytest_raises is_zero_division body (fun _ => Passed) = DidNotRaise) /\
     (forall e, body = Err e -> is_zero_division e = false ->
        pytest_raises is_zero_division body (fun _ => Passed) = Raised e)).
Proof.
  split_and; [reflexivity | reflexivity |]. intros body. split_and.
  - split.
    + destruct body as [[]|e]; cbn; [discriminate|].
      destruct e; cbn; try discriminate. eauto.
    + intros [m ->]. reflexivity.
  - intros ->. reflexivity.
  - intros e -> He. cbn. now rewrite He.
Qed.

(** The products the doctests compute, [1 * 2], [[3] * 3], [6 * 7] and
    [['A', 'B'] * 2], come out the same in every process that can still
    allocate 64 bytes, so [machine_avail] stands for any of them. *)
Lemma doctest_products_memory (avail : Z) :
  (64 <= avail)%Z ->
  py_mul avail (PInt 1) (PInt 2) = Ok (PInt 2) /\
  py_mul avail (PList [PInt 3]) (PInt 3) = Ok (PList [PInt 3; PInt 3; PInt 3]) /\
  py_mul avail (PInt 6) (PInt 7) = Ok (PInt 42) /\
  py_mul avail (PList [PStr "A"; PStr "B"]) (PInt 2) =
    Ok (PList [PStr "A"; PStr "B"; PStr "A"; PStr "B"])%string.
Proof.
  intros H. split_and; [reflexivity | | reflexivity |];
    cbn -[alloc]; unfold alloc;
    match goal with |- context [(?b <=? avail)%Z] =>
      replace (b <=? avail)%Z with true by (symmetry; apply Z.leb_le; lia) end;
    reflexivity.
Qed.

(** ** Witnesses *)

Lemma sorted_items_order_independent_witness :
  py_sorted (items (DoctestSolutions.unordered_return_value tt)) =
  py_sorted (items (dict_of_literal [("a", 1%Z); ("b", 2%Z)]%string)).
Proof.
  apply sorted_items_order_independent; [vm_compute; repeat constructor; cbv; intuition discriminate
                                        | vm_compute; reflexivity].
Defined.

(** ** [fancy_plot] and the whole module under [testmod] *)

(** The [ELLIPSIS] pattern of [fancy_plot]'s example matches
    [object.__repr__] of the axes at every address. *)
Lemma axes_ellipsis_match (addr : string) :
  ellipsis_match SolutionsDoctests.fancy_plot_want ((axes_prefix ++ addr) ++ ">" ++ nl_str)%string = true.
Proof.
  unfold ellipsis_match.
  replace (String.index 0 "..."%string SolutionsDoctests.fancy_plot_want) with (Some 39%nat) by reflexivity.
  replace (split_on (S (String.length SolutionsDoctests.fancy_plot_want)) "..."%string SolutionsDoctests.fancy_plot_want)
    with ["<matplotlib.axes._subplots.AxesSubplot "; " at "; ">" ++ nl_str]%string by reflexivity.
  cbn [hd tl last removelast].
  replace (String.prefix "<matplotlib.axes._subplots.AxesSubplot " ((axes_prefix ++ addr) ++ ">" ++ nl_str)%string)
    with true by reflexivity.
  replace (String.eqb "<matplotlib.axes._subplots.AxesSubplot " "") with false by reflexivity.
  rewrite ends_with_app, string_length_append, Nat.add_sub.
  replace (String.eqb (last [" at "; ">" ++ nl_str] "") "")%string with false by reflexivity.
  cbn [removelast].
  replace (Nat.ltb (String.length (axes_prefix ++ addr)) (String.length "<matplotlib.axes._subplots.AxesSubplot "))
    with false by (symmetry; apply Nat.ltb_ge; rewrite string_length_append; cbn; lia).
  cbn [find_pieces]. rewrite (proj1 (substring_app_l _ _ 0)).
  replace (String.index (String.length "<matplotlib.axes._subplots.AxesSubplot ") " at " (axes_prefix ++ addr))
    with (Some 45%nat) by (destruct addr; reflexivity).
  reflexivity.
Qed.

Lemma axes_repr_check (np : numpy_version) (addr : string) (ax : DoctestSolutions.axes) :
  has_char nl addr = false ->
  check_output SolutionsDoctests.fancy_plot_want (axes_repr (mk_env np Mpl33 addr) ax ++ nl_str) [ELLIPSIS] = true.
Proof.
  intros Ha.
  replace (axes_repr (mk_env np Mpl33 addr) ax ++ nl_str)%string
    with ((axes_prefix ++ addr) ++ ">" ++ nl_str)%string%string
    by (unfold axes_repr; cbn [matplotlib address]; rewrite !string_app_assoc; reflexivity).
  set (got := ((axes_prefix ++ addr) ++ ">" ++ nl_str)%string%string).
  assert (Hl : has_char nl ((axes_prefix ++ addr) ++ ">") = false)
    by (rewrite !has_char_app, Ha; reflexivity).
  assert (Hg : join_nl (map clear_space_line (split_nl got)) = got).
  { unfold got. rewrite <- string_app_assoc, (split_nl_no_nl _ _ Hl).
    replace (split_nl nl_str) with [""; ""]%string by reflexivity. cbn [hd tl map].
    unfold clear_space_line at 1.
    replace (all_space (((axes_prefix ++ addr) ++ ">") ++ ""))%string with false by reflexivity.
    unfold join_nl. cbn [String.concat]. rewrite !string_app_assoc. reflexivity. }
  unfold check_output. rewrite Hg.
  replace (join_nl (map unmark_blankline (split_nl SolutionsDoctests.fancy_plot_want))) with SolutionsDoctests.fancy_plot_want by reflexivity.
  replace (String.eqb got SolutionsDoctests.fancy_plot_want) with false by reflexivity.
  replace (String.eqb got ("True" ++ nl_str)) with false by reflexivity.
  replace (String.eqb got ("False" ++ nl_str)) with false by reflexivity.
  replace (has_flag DONT_ACCEPT_TRUE_FOR_1 [ELLIPSIS]) with false by reflexivity.
  replace (has_flag DONT_ACCEPT_BLANKLINE [ELLIPSIS]) with false by reflexivity.
  replace (has_flag NORMALIZE_WHITESPACE [ELLIPSIS]) with false by reflexivity.
  replace (has_flag ELLIPSIS [ELLIPSIS]) with true by reflexivity.
  cbn [negb andb orb]. apply axes_ellipsis_match.
Qed.

Lemma fancy_plot_doctest (env : environment) :
  has_char nl env.(address) = false ->
  run_docstring (SolutionsDoctests.exec env) [] (SolutionsDoctests.mk_ns None None) "__main__.fancy_plot"
    SolutionsDoctests.fancy_plot_doc =
  Ok (Some (match env.(matplotlib) with Mpl33 => 0 | _ => 1 end, 1)%nat).
Proof.
  destruct env as [np [] addr]; cbn [matplotlib address]; intros Ha; [|vm_compute; reflexivity ..].
  unfold run_docstring.
  destruct (get_examples _ _) as [exs|e] eqn:E; vm_compute in E; [|discriminate].
  injection E as <-. cbn [bind run_examples ex_options].
  replace (apply_options [] [(ELLIPSIS, true)]) with [ELLIPSIS] by reflexivity.
  replace (has_flag SKIP [ELLIPSIS]) with false by reflexivity.
  unfold run_example. cbn [ex_source ex_want ex_exc_msg].
  replace (SolutionsDoctests.exec _ _ _) with
    (Some (SolutionsDoctests.mk_ns None None,
           mk_exec (axes_repr (mk_env np Mpl33 addr) (DoctestSolutions.fancy_plot tt) ++ nl_str) None))
    by reflexivity.
  cbn [raised out_text]. rewrite (axes_repr_check np addr _ Ha). reflexivity.
Qed.

(** C16. [doctest.testmod()] in the [__main__] block of
    [src/doctest/solutions.py] tries the fourteen examples of its
    docstrings ([fancy_plot] included).  All of them pass only under the
    library versions the docstrings were written for.  With numpy 2 the
    two integrals print as [np.float64(2.0)] and [np.float64(0.5)] and
    fail.  With matplotlib 3.4 or later the axes prints as
    [<AxesSubplot:>] or [<Axes: >], which [fancy_plot]'s pattern does not
    match.  Under matplotlib 3.3 the example passes whatever the address of
    the axes. *)
Theorem solutions_testmod (env : environment) :
  has_char nl env.(address) = false ->
  SolutionsDoctests.run_testmod env =
  Ok (Some ((match env.(numpy) with NumPy1 => 0 | NumPy2 => 2 end) +
            (match env.(matplotlib) with Mpl33 => 0 | _ => 1 end), 14)%nat).
Proof.
  intros Ha. unfold SolutionsDoctests.run_testmod. rewrite testmod_results.
  unfold SolutionsDoctests.docstrings. cbn [map fst snd].
  rewrite (fancy_plot_doctest env Ha).
  destruct env as [[] [] addr]; vm_compute; reflexivity.
Qed.

Lemma solutions_testmod_witness :
  has_char nl tutorial_env.(address) = false /\ SolutionsDoctests.run_testmod tutorial_env = Ok (Some (0, 14)%nat).
Proof. split; [reflexivity | apply (solutions_testmod tutorial_env); reflexivity]. Defined.
