(* ===== verification/PandasFixtures.v ===== *)
(** * The pytest fixtures of [src/pytest/solutions.py] (lines 8-27)

    [create_df] builds a two-column DataFrame, [create_data] writes it to
    [df.csv] in pytest's [tmpdir] with [to_csv(path, index=None)], and
    [test_with_tmpdir_fixture] reads the file back with [pd.read_csv] and
    compares the two frames with [pd.testing.assert_frame_equal].  pytest
    computes [create_df] once per test and passes that one value both to
    [create_data] and to the test.

    A DataFrame is its list of named columns with their dtypes (int64,
    uint64, object holding Python ints, object holding strings or NaN) and
    the implicit [RangeIndex].  The file system is an association list
    from paths to contents, threaded through the calls.  [to_csv] and
    [read_csv] use the writer and the tokenizer of [Csv].  [read_csv] then
    renames empty and duplicate column names as pandas does, turns the
    default NA strings into NaN, and infers a column's dtype: int64 if
    every cell is an integer in range, uint64 if they all fit in
    [[0, 2^64)], and object otherwise (float columns are not modelled:
    they stay object columns of their strings). *)

From Stdlib Require Import List String Ascii ZArith Lia Bool.
From S2P Require Import Prelude Csv.
Import ListNotations.

(** ** DataFrames *)

Inductive column : Type :=
| Int64Col (vs : list Z)
| UInt64Col (vs : list Z)
| PyIntObjectCol (vs : list Z)
| ObjectCol (vs : list (option string)).

Record DataFrame : Type := mk_df { df_columns : list (string * column) }.

Definition column_eq_dec (a b : column) : {a = b} + {a <> b}.
Proof.
  decide equality; apply list_eq_dec;
    first [apply Z.eq_dec | decide equality; apply string_dec].
Defined.

Definition frame_eq_dec (a b : DataFrame) : {a = b} + {a <> b}.
Proof.
  decide equality. apply list_eq_dec. intros [n c] [n' c'].
  destruct (string_dec n n'), (column_eq_dec c c'); [left; congruence | right; congruence ..].
Defined.

Definition column_len (c : column) : nat :=
  match c with
  | Int64Col vs | UInt64Col vs | PyIntObjectCol vs => List.length vs
  | ObjectCol vs => List.length vs
  end.

Definition in_int64 (z : Z) : bool := (- 2 ^ 63 <=? z)%Z && (z <? 2 ^ 63)%Z.
Definition in_uint64 (z : Z) : bool := (0 <=? z)%Z && (z <? 2 ^ 64)%Z.

(** [pd.DataFrame({name: [ints], ...})]: the dtype numpy gives a list of
    Python ints. *)
Definition int_column (vs : list Z) : column :=
  if forallb in_int64 vs then Int64Col vs
  else if forallb in_uint64 vs then UInt64Col vs
  else PyIntObjectCol vs.

Definition same_length_msg : string := "All arrays must be of the same length".

Definition pd_DataFrame (d : list (string * list Z)) : res DataFrame :=
  match d with
  | [] => Ok (mk_df [])
  | (_, vs) :: _ =>
      if forallb (fun '(_, ws) => Nat.eqb (List.length ws) (List.length vs)) d
      then Ok (mk_df (map (fun '(n, ws) => (n, int_column ws)) d))
      else Err (ValueError same_length_msg)
  end.

Definition nrows (df : DataFrame) : nat :=
  match df_columns df with [] => 0 | (_, c) :: _ => column_len c end.

(** ** [DataFrame.to_csv(path, index=None)] *)

(** A cell as [to_csv] prints it; NaN as the empty string. *)
Definition cell_text (c : column) (i : nat) : string :=
  match c with
  | Int64Col vs | UInt64Col vs | PyIntObjectCol vs => str_of_Z (nth i vs 0%Z)
  | ObjectCol vs => match nth i vs None with Some s => s | None => EmptyString end
  end.

Definition csv_rows (df : DataFrame) : list (list chars) :=
  map (fun '(n, _) => list_ascii_of_string n) (df_columns df) ::
  map (fun i => map (fun '(_, c) => list_ascii_of_string (cell_text c i)) (df_columns df))
      (seq 0 (nrows df)).

Definition to_csv_text (df : DataFrame) : string := string_of_list_ascii (write_rows (csv_rows df)).

(** ** [pandas.read_csv] on the text of a file *)

Definition empty_data_msg : string := "No columns to parse from file".

Definition na_values : list string :=
  [""; "#N/A"; "#N/A N/A"; "#NA"; "-1.#IND"; "-1.#QNAN"; "-NaN"; "-nan"; "1.#IND"; "1.#QNAN";
   "<NA>"; "N/A"; "NA"; "NULL"; "NaN"; "None"; "n/a"; "nan"; "null"]%string.

Definition na_filter (s : string) : option string :=
  if existsb (String.eqb s) na_values then None else Some s.

(** The [j]-th field of a row, NaN when the row is short. *)
Definition cell_at (row : list chars) (j : nat) : option string :=
  match nth_error row j with
  | Some f => na_filter (string_of_list_ascii f)
  | None => None
  end.

Definition all_ints (cells : list (option string)) : option (list Z) :=
  fold_right (fun c acc =>
    match c, acc with
    | Some s, Some zs => option_map (fun z => z :: zs) (parse_int s)
    | _, _ => None
    end) (Some []) cells.

(** The dtype pandas infers for a column of cells. *)
Definition infer_column (cells : list (option string)) : column :=
  match cells with
  | [] => ObjectCol []
  | _ =>
      match all_ints cells with
      | Some zs =>
          if forallb in_int64 zs then Int64Col zs
          else if forallb in_uint64 zs then UInt64Col zs
          else ObjectCol cells
      | None => ObjectCol cells
      end
  end.

(** An empty header field becomes [Unnamed: j]. *)
Definition unnamed (names : list string) : list string :=
  map (fun '(j, n) => if String.eqb n EmptyString then ("Unnamed: " ++ str_of_Z (Z.of_nat j))%string else n)
      (combine (seq 0 (List.length names)) names).

Fixpoint count_of (counts : list (string * nat)) (n : string) : nat :=
  match counts with
  | [] => 0
  | (m, k) :: cs => if String.eqb n m then k else count_of cs n
  end.

Definition set_count (counts : list (string * nat)) (n : string) (k : nat) : list (string * nat) :=
  (n, k) :: counts.

(** [while cur_count > 0: counts[col] = cur_count + 1;
    col = f"{col}.{cur_count}"; cur_count = counts[col]] *)
Fixpoint dedup_loop (fuel : nat) (counts : list (string * nat)) (col : string) (cur : nat)
    : list (string * nat) * string * nat :=
  match fuel with
  | O => (counts, col, cur)
  | S fuel' =>
      match cur with
      | O => (counts, col, cur)
      | S _ =>
          let counts := set_count counts col (S cur) in
          let col := (col ++ "." ++ str_of_Z (Z.of_nat cur))%string in
          dedup_loop fuel' counts col (count_of counts col)
      end
  end.

(** Duplicate column names get [.1], [.2], ... as in pandas. *)
Fixpoint dedup_names_acc (counts : list (string * nat)) (names : list string) : list string :=
  match names with
  | [] => []
  | n :: ns =>
      let '(counts, col, cur) := dedup_loop (S (List.length counts)) counts n (count_of counts n) in
      col :: dedup_names_acc (set_count counts col (S cur)) ns
  end.

Definition dedup_names (names : list string) : list string := dedup_names_acc [] names.

Definition too_many_fields_msg (n line m : nat) : string :=
  ("Error tokenizing data. C error: Expected " ++ str_of_Z (Z.of_nat n) ++ " fields in line " ++
   str_of_Z (Z.of_nat line) ++ ", saw " ++ str_of_Z (Z.of_nat m))%string.

(** Rows longer than the header are an error; shorter ones get NaN. *)
Fixpoint check_rows (n line : nat) (rows : list (list chars)) : res unit :=
  match rows with
  | [] => Ok tt
  | r :: rs =>
      if Nat.ltb n (List.length r) then Err (ValueError (too_many_fields_msg n line (List.length r)))
      else check_rows n (S line) rs
  end.

Definition read_csv_text (s : string) : res DataFrame :=
  let* rows := lex (list_ascii_of_string s) in
  match rows with
  | [] => Err (ValueError empty_data_msg)
  | header :: data =>
      let n := List.length header in
      let* _ := check_rows n 2 data in
      let names := dedup_names (unnamed (map string_of_list_ascii header)) in
      Ok (mk_df (combine names (map (fun j => infer_column (map (fun r => cell_at r j) data)) (seq 0 n))))
  end.

(** ** Files *)

Definition filesystem : Type := list (string * string).

Definition fs_write (fs : filesystem) (path contents : string) : filesystem :=
  (path, contents) :: filter (fun '(q, _) => negb (String.eqb path q)) fs.

Definition no_such_file_msg (path : string) : string :=
  ("[Errno 2] No such file or directory: '" ++ path ++ "'")%string.

Definition fs_read (fs : filesystem) (path : string) : res string :=
  match find (fun '(q, _) => String.eqb path q) fs with
  | Some (_, c) => Ok c
  | None => Err (FileNotFoundError (no_such_file_msg path))
  end.

Definition to_csv (df : DataFrame) (path : string) (fs : filesystem) : filesystem :=
  fs_write fs path (to_csv_text df).

Definition read_csv (path : string) (fs : filesystem) : res DataFrame :=
  let* s := fs_read fs path in read_csv_text s.

(** [pd.testing.assert_frame_equal]: same columns in the same order, same
    dtypes and values, same index. *)
Definition assert_frame_equal (actual expected : DataFrame) : outcome :=
  if frame_eq_dec actual expected then Passed else AssertionFailed.

(** ** The frames the round trip is about *)

(** The characters [str] of an int is made of. *)
Definition numeric_char (c : ascii) : bool :=
  existsb (Ascii.eqb c) ["-"; "0"; "1"; "2"; "3"; "4"; "5"; "6"; "7"; "8"; "9"]%char.

Fixpoint nodupb (l : list string) : bool :=
  match l with
  | [] => true
  | x :: xs => negb (existsb (String.eqb x) xs) && nodupb xs
  end.

(** A column name pandas reads back unchanged: not empty (it would become
    [Unnamed: j]) and without [\r] (which the writer leaves unquoted). *)
Definition name_okb (n : string) : bool :=
  negb (String.eqb n EmptyString) && negb (existsb (Ascii.eqb carriage_return) (list_ascii_of_string n)).

(** At least one column and one row, distinct good names, int64 columns
    of the same length. *)
Definition frame_okb (df : DataFrame) : bool :=
  match df_columns df with
  | [] => false
  | _ =>
      nodupb (map fst (df_columns df)) && Nat.ltb 0 (nrows df) &&
      forallb (fun '(n, c) =>
                 name_okb n &&
                 match c with
                 | Int64Col vs => Nat.eqb (List.length vs) (nrows df) && forallb in_int64 vs
                 | _ => false
                 end) (df_columns df)
  end.

(** ** The fixtures and the test *)

Module PytestFixtures.

(** [pd.DataFrame({'a': [1, 2], 'b': [2, 3]})] *)
Definition create_df : res DataFrame := pd_DataFrame [("a", [1; 2]); ("b", [2; 3])]%Z%string.

(** [path = tmpdir.join('df.csv'); df.to_csv(path, index=None); return path] *)
Definition create_data (tmpdir : string) (df : DataFrame) (fs : filesystem) : filesystem * string :=
  let path := (tmpdir ++ "/df.csv")%string in
  (to_csv df path fs, path).

(** [df_actual = pd.read_csv(path); assert_frame_equal(df_actual, df_expected)] *)
Definition test_with_tmpdir_fixture (path : string) (df_expected : DataFrame) (fs : filesystem) : outcome :=
  match read_csv path fs with
  | Ok df_actual => assert_frame_equal df_actual df_expected
  | Err e => Raised e
  end.

(** pytest's run of the test: the [create_df] value, computed once, goes
    to [create_data] and to the test. *)
Definition run_test (df_fixture : res DataFrame) (tmpdir : string) (fs : filesystem) : outcome :=
  match df_fixture with
  | Err e => Raised e
  | Ok df =>
      let '(fs', path) := create_data tmpdir df fs in
      test_with_tmpdir_fixture path df fs'
  end.

End PytestFixtures.

(** ** Integer cells *)

Lemma uint_chars (d : Decimal.uint) :
  forallb numeric_char (list_ascii_of_string (DecimalString.NilEmpty.string_of_uint d)) = true.
Proof. induction d; cbn; auto. Qed.

Lemma str_of_Z_chars (z : Z) : forallb numeric_char (list_ascii_of_string (str_of_Z z)) = true.
Proof.
  unfold str_of_Z. destruct (to_int_nonnil z) as [Hp Hn].
  destruct (Z.to_int z) as [d|d]; cbn.
  - destruct d; try congruence; apply (uint_chars (_ _)).
  - destruct d; try congruence; apply (uint_chars (_ _)).
Qed.

Lemma na_values_not_numeric (v : string) :
  In v na_values -> v <> EmptyString -> forallb numeric_char (list_ascii_of_string v) = false.
Proof. cbn. intros H Hne. repeat destruct H as [<-|H]; try reflexivity; [congruence | contradiction]. Qed.

(** [str(z)] is never one of the NA strings. *)
Lemma na_filter_str (z : Z) : na_filter (str_of_Z z) = Some (str_of_Z z).
Proof.
  unfold na_filter. destruct (existsb (String.eqb (str_of_Z z)) na_values) eqn:E; [|reflexivity].
  apply existsb_exists in E as (v & Hin & Hv). apply String.eqb_eq in Hv. subst v.
  destruct (str_of_Z_head z) as (c & s & Hs & _).
  pose proof (na_values_not_numeric _ Hin ltac:(rewrite Hs; discriminate)) as H1.
  pose proof (str_of_Z_chars z) as H2. congruence.
Qed.

Lemma str_of_Z_no_cr (z : Z) : ~ In carriage_return (list_ascii_of_string (str_of_Z z)).
Proof.
  intros Hin. pose proof (str_of_Z_chars z) as H. rewrite forallb_forall in H.
  specialize (H _ Hin). discriminate H.
Qed.

Lemma all_ints_strs (zs : list Z) : all_ints (map (fun z => Some (str_of_Z z)) zs) = Some zs.
Proof.
  unfold all_ints. induction zs as [|z zs IH]; [reflexivity|].
  cbn [map fold_right]. rewrite IH. cbv beta iota. rewrite parse_int_str. reflexivity.
Qed.

(** ** Column names *)

Lemma nodupb_NoDup (l : list string) : nodupb l = true -> NoDup l.
Proof.
  induction l as [|x xs IH]; cbn; intros H; constructor.
  - apply andb_true_iff in H as [H _]. apply negb_true_iff in H. intros Hin.
    assert (existsb (String.eqb x) xs = true) by (apply existsb_exists; exists x; split; [exact Hin | apply String.eqb_refl]).
    congruence.
  - apply andb_true_iff in H as [_ H]. auto.
Qed.

Lemma map_combine_seq_snd {A B : Type} (f : B -> A) (l : list B) (k : nat) :
  map (fun '(_, x) => f x) (combine (seq k (List.length l)) l) = map f l.
Proof. revert k. induction l as [|x l IH]; intros k; cbn; [reflexivity | now rewrite IH]. Qed.

(** Non-empty names are not renamed [Unnamed: j]. *)
Lemma unnamed_nonempty (names : list string) :
  Forall (fun n => n <> EmptyString) names -> unnamed names = names.
Proof.
  intros H. unfold unnamed.
  transitivity (map (fun '(_, n) => (fun m : string => m) n) (combine (seq 0 (List.length names)) names)).
  - apply map_ext_in. intros [j n] Hin. apply in_combine_r in Hin.
    rewrite Forall_forall in H. specialize (H n Hin).
    destruct (String.eqb_spec n EmptyString); [contradiction | reflexivity].
  - rewrite map_combine_seq_snd. apply map_id.
Qed.

(** A name not seen before leaves the loop at once. *)
Lemma dedup_loop_fresh (fuel : nat) (counts : list (string * nat)) (n : string) :
  dedup_loop fuel counts n 0 = (counts, n, 0).
Proof. destruct fuel; reflexivity. Qed.

Lemma dedup_names_acc_nodup (counts : list (string * nat)) (names : list string) :
  NoDup names -> (forall n, In n names -> count_of counts n = 0) -> dedup_names_acc counts names = names.
Proof.
  revert counts. induction names as [|n ns IH]; intros counts Hnd Hc; [reflexivity|].
  inversion Hnd as [|? ? Hnin Hnd']; subst.
  cbn [dedup_names_acc]. rewrite (Hc n (or_introl eq_refl)), dedup_loop_fresh. f_equal.
  apply IH; [exact Hnd'|]. intros m Hm. cbn [set_count count_of].
  destruct (String.eqb_spec m n) as [->|_]; [contradiction | apply Hc; right; exact Hm].
Qed.

(** Distinct names are kept. *)
Lemma dedup_names_nodup (names : list string) : NoDup names -> dedup_names names = names.
Proof. intros H. apply dedup_names_acc_nodup; [exact H | reflexivity]. Qed.

(** ** Transposing rows into columns *)

Lemma map_seq_nth_error {A B : Type} (F : option A -> B) (l : list A) :
  map (fun j => F (nth_error l j)) (seq 0 (List.length l)) = map (fun x => F (Some x)) l.
Proof.
  induction l as [|x l IH]; [reflexivity|].
  cbn [List.length seq map nth_error]. f_equal.
  rewrite <- seq_shift, map_map. exact IH.
Qed.

Lemma map_nth_seq_self {A : Type} (l : list A) (d : A) :
  map (fun i => nth i l d) (seq 0 (List.length l)) = l.
Proof.
  induction l as [|x l IH]; [reflexivity|].
  cbn [List.length seq map nth]. f_equal. rewrite <- seq_shift, map_map. exact IH.
Qed.

Lemma combine_fst_snd {A B : Type} (l : list (A * B)) : combine (map fst l) (map snd l) = l.
Proof. induction l as [|[a b] l IH]; cbn; [reflexivity | now rewrite IH]. Qed.

Lemma check_rows_ok (n line : nat) (rows : list (list chars)) :
  Forall (fun r => List.length r = n) rows -> check_rows n line rows = Ok tt.
Proof.
  intros H. revert line. induction H as [|r rs Hr _ IH]; intros k; [reflexivity|].
  cbn [check_rows]. rewrite Hr, Nat.ltb_irrefl. apply IH.
Qed.

(** ** The round trip *)

Lemma frame_okb_spec (df : DataFrame) :
  frame_okb df = true ->
  df_columns df <> [] /\ NoDup (map fst (df_columns df)) /\ (0 < nrows df)%nat /\
  Forall (fun '(n, c) => name_okb n = true /\
            exists vs, c = Int64Col vs /\ List.length vs = nrows df /\ forallb in_int64 vs = true)
         (df_columns df).
Proof.
  unfold frame_okb. destruct (df_columns df) as [|x xs] eqn:E; [discriminate|].
  rewrite <- E. intros H. apply andb_true_iff in H as [H Hall]. apply andb_true_iff in H as [Hnd Hn].
  split_and; [congruence | now apply nodupb_NoDup | now apply Nat.ltb_lt |].
  apply Forall_forall. intros [n c] Hin. rewrite forallb_forall in Hall. specialize (Hall _ Hin).
  apply andb_true_iff in Hall as [Hname Hc]. split; [exact Hname|].
  destruct c as [vs| | |]; try discriminate. apply andb_true_iff in Hc as [Hl Hv].
  exists vs. split_and; [reflexivity | now apply Nat.eqb_eq | exact Hv].
Qed.

Lemma name_field_ok (n : string) : name_okb n = true -> field_ok (list_ascii_of_string n).
Proof.
  unfold name_okb, field_ok. intros H. apply andb_true_iff in H as [H1 H2].
  apply negb_true_iff in H1, H2. split.
  - destruct n; [discriminate | discriminate].
  - intros Hin. assert (existsb (Ascii.eqb carriage_return) (list_ascii_of_string n) = true)
      by (apply existsb_exists; exists carriage_return; split; [exact Hin | apply Ascii.eqb_refl]).
    congruence.
Qed.

Lemma csv_rows_ok (df : DataFrame) :
  frame_okb df = true -> Forall (fun r => r <> [] /\ Forall field_ok r) (csv_rows df).
Proof.
  intros H. destruct (frame_okb_spec df H) as (Hne & _ & _ & Hcols).
  rewrite Forall_forall in Hcols. unfold csv_rows. constructor.
  - split; [destruct (df_columns df); [congruence | discriminate]|].
    apply Forall_forall. intros f Hf. apply in_map_iff in Hf as ([n c] & <- & Hin).
    apply name_field_ok. exact (proj1 (Hcols _ Hin)).
  - apply Forall_forall. intros r Hr. apply in_map_iff in Hr as (i & <- & _).
    split; [destruct (df_columns df); [congruence | discriminate]|].
    apply Forall_forall. intros f Hf. apply in_map_iff in Hf as ([n c] & <- & Hin).
    destruct (Hcols _ Hin) as (_ & vs & -> & _). cbn [cell_text].
    split; [apply str_of_Z_ne | apply str_of_Z_no_cr].
Qed.

(** An int64 column read back from its printed cells. *)
Lemma infer_int64_column (vs : list Z) (len : nat) :
  List.length vs = len -> (0 < len)%nat -> forallb in_int64 vs = true ->
  infer_column (map (fun i => na_filter (str_of_Z (nth i vs 0%Z))) (seq 0 len)) = Int64Col vs.
Proof.
  intros Hl Hpos Hv. subst len.
  rewrite (map_ext _ (fun i => Some (str_of_Z (nth i vs 0%Z)))) by (intros; apply na_filter_str).
  rewrite <- (map_map (fun i => nth i vs 0%Z) (fun z => Some (str_of_Z z))), map_nth_seq_self.
  destruct vs as [|v vs]; [cbn in Hpos; lia|].
  unfold infer_column. cbn [map]. rewrite <- (map_cons (fun z => Some (str_of_Z z))), all_ints_strs, Hv.
  reflexivity.
Qed.

(** The text [to_csv] writes reads back as the same frame. *)
Lemma read_csv_text_to_csv_text (df : DataFrame) :
  frame_okb df = true -> read_csv_text (to_csv_text df) = Ok df.
Proof.
  intros Hok. pose proof (csv_rows_ok df Hok) as Hrows.
  destruct (frame_okb_spec df Hok) as (Hne & Hnd & Hpos & Hcols).
  unfold read_csv_text, to_csv_text. rewrite list_ascii_of_string_of_list_ascii, lex_write_rows by exact Hrows.
  cbn [bind]. unfold csv_rows. destruct df as [cols]. cbn [df_columns] in *.
  set (len := nrows (mk_df cols)) in *.
  rewrite length_map.
  rewrite check_rows_ok
    by (apply Forall_forall; intros r Hr; apply in_map_iff in Hr as (i & <- & _); apply length_map).
  cbn [bind].
  assert (Hnames : map string_of_list_ascii (map (fun '(n, _) => list_ascii_of_string n) cols) = map fst cols).
  { rewrite map_map. apply map_ext. intros [n c]. apply string_of_list_ascii_of_string. }
  assert (Hnonempty : Forall (fun n => n <> EmptyString) (map fst cols)).
  { apply Forall_forall. intros n Hn. apply in_map_iff in Hn as ([m c] & <- & Hin).
    rewrite Forall_forall in Hcols. destruct (Hcols _ Hin) as [Hm _].
    apply name_field_ok in Hm as [Hm _]. cbn. intros E. apply Hm. rewrite E. reflexivity. }
  rewrite Hnames, unnamed_nonempty, dedup_names_nodup by assumption.
  f_equal. f_equal. rewrite <- (combine_fst_snd cols) at 3. f_equal.
  rewrite (map_ext (fun j => infer_column (map (fun r => cell_at r j)
      (map (fun i => map (fun '(_, c) => list_ascii_of_string (cell_text c i)) cols) (seq 0 len))))
    (fun j => (fun o : option (string * column) =>
        infer_column (map (fun i => match o with
                                   | Some (_, c) => na_filter (cell_text c i)
                                   | None => None end) (seq 0 len))) (nth_error cols j))).
  2: { intros j. rewrite map_map. f_equal. apply map_ext. intros i. unfold cell_at.
       rewrite nth_error_map. destruct (nth_error cols j) as [[n c]|]; cbn; [|reflexivity].
       now rewrite string_of_list_ascii_of_string. }
  transitivity (map (fun x => infer_column (map (fun i => let '(_, c) := x in na_filter (cell_text c i))
                                               (seq 0 len))) cols).
  { exact (map_seq_nth_error (fun o => infer_column (map (fun i => match o with
                                                      | Some (_, c) => na_filter (cell_text c i)
                                                      | None => None end) (seq 0 len))) cols). }
  apply map_ext_in. intros [n c] Hin.
  rewrite Forall_forall in Hcols. destruct (Hcols _ Hin) as (_ & vs & -> & Hl & Hv).
  exact (infer_int64_column vs len Hl Hpos Hv).
Qed.

Lemma fs_read_write (fs : filesystem) (path contents : string) :
  fs_read (fs_write fs path contents) path = Ok contents.
Proof. unfold fs_read, fs_write. cbn. now rewrite String.eqb_refl. Qed.

(** ** The renaming loop ends *)

Lemma count_of_in (counts : list (string * nat)) (n : string) :
  count_of counts n <> 0 -> In n (map fst counts).
Proof.
  induction counts as [|[m k] cs IH]; cbn; [congruence|].
  destruct (String.eqb_spec n m) as [->|_]; [auto | intros H; right; auto].
Qed.

Lemma filter_length_lt {A : Type} (P P' : A -> bool) (l : list A) (x : A) :
  (forall k, P' k = true -> P k = true) -> In x l -> P x = true -> P' x = false ->
  (List.length (filter P' l) < List.length (filter P l))%nat.
Proof.
  intros Hsub Hin Hx Hx'. induction l as [|y l IH]; [destruct Hin|].
  assert (Hle : forall l', (List.length (filter P' l') <= List.length (filter P l'))%nat).
  { induction l' as [|z l' IH']; cbn; [lia|].
    destruct (P' z) eqn:E1; [rewrite (Hsub z E1); cbn; lia | destruct (P z); cbn; lia]. }
  destruct Hin as [<-|Hin]; cbn.
  - rewrite Hx, Hx'. cbn. specialize (Hle l). lia.
  - specialize (IH Hin). destruct (P' y) eqn:E1; [rewrite (Hsub y E1); cbn; lia | destruct (P y); cbn; lia].
Qed.

(** The number of names in [counts] at least as long as [col]: each turn
    of the loop lengthens [col] past the name it leaves, so this drops. *)
Lemma dedup_loop_done (fuel : nat) (counts : list (string * nat)) (col : string) :
  (List.length (filter (fun k => Nat.leb (String.length col) (String.length k)) (map fst counts)) < fuel)%nat ->
  snd (dedup_loop fuel counts col (count_of counts col)) = 0%nat.
Proof.
  revert counts col. induction fuel as [|fuel IH]; intros counts col Hm; [lia|].
  cbn [dedup_loop]. destruct (count_of counts col) as [|cur] eqn:Hc; [reflexivity|].
  apply IH. unfold set_count. cbn [map filter fst].
  set (col' := (col ++ "." ++ str_of_Z (Z.of_nat (S cur)))%string).
  assert (Hlen : (String.length col < String.length col')%nat)
    by (unfold col'; rewrite string_length_append; cbn [String.length append]; lia).
  replace (Nat.leb (String.length col') (String.length col)) with false
    by (symmetry; apply Nat.leb_gt; lia).
  assert (Hin : In col (map fst counts)) by (apply count_of_in; congruence).
  assert (Hlt : (List.length (filter (fun k => Nat.leb (String.length col') (String.length k)) (map fst counts)) <
                 List.length (filter (fun k => Nat.leb (String.length col) (String.length k)) (map fst counts)))%nat).
  { apply (filter_length_lt _ _ _ col); [| exact Hin | apply Nat.leb_refl | apply Nat.leb_gt; exact Hlen].
    intros k Hk. apply Nat.leb_le in Hk. apply Nat.leb_le. lia. }
  lia.
Qed.

Lemma all_ints_length (cells : list (option string)) (zs : list Z) :
  all_ints cells = Some zs -> List.length zs = List.length cells.
Proof.
  unfold all_ints. revert zs. induction cells as [|c cells IH]; intros zs H; cbn in H.
  - injection H as <-. reflexivity.
  - destruct c as [s|]; [|discriminate].
    destruct (fold_right _ (Some []) cells) as [zs'|] eqn:E; [|discriminate].
    destruct (parse_int s); cbn in H; [|discriminate]. injection H as <-.
    cbn. f_equal. exact (IH zs' eq_refl).
Qed.

Lemma infer_column_len (cells : list (option string)) :
  column_len (infer_column cells) = List.length cells.
Proof.
  unfold infer_column. destruct cells as [|c cs]; [reflexivity|].
  destruct (all_ints (c :: cs)) as [zs|] eqn:E; [|reflexivity].
  apply all_ints_length in E.
  destruct (forallb in_int64 zs); [exact E|]. destruct (forallb in_uint64 zs); [exact E | reflexivity].
Qed.

(** ** Properties of the fixtures *)

(** pytest's run of the fixture test passes on every frame that survives
    the CSV round trip. *)
Lemma run_test_ok (df : DataFrame) (tmpdir : string) (fs : filesystem) :
  frame_okb df = true -> PytestFixtures.run_test (Ok df) tmpdir fs = Passed.
Proof.
  intros Hok. unfold PytestFixtures.run_test, PytestFixtures.create_data,
    PytestFixtures.test_with_tmpdir_fixture, read_csv, to_csv.
  rewrite fs_read_write. cbn [bind]. rewrite (read_csv_text_to_csv_text df Hok).
  unfold assert_frame_equal. destruct (frame_eq_dec df df); [reflexivity | congruence].
Qed.

(** Round trip: a frame with at least one row, distinct non-empty
    column names without [\r] and int64 columns of equal length, written
    with [to_csv(path, index=None)] and read back with [read_csv(path)],
    is the same frame (names, order, dtypes and values), whatever the file
    system held before. *)
Theorem read_csv_to_csv_roundtrip (df : DataFrame) (path : string) (fs : filesystem) :
  frame_okb df = true -> read_csv path (to_csv df path fs) = Ok df.
Proof.
  intros Hok. unfold read_csv, to_csv. rewrite fs_read_write. cbn [bind].
  exact (read_csv_text_to_csv_text df Hok).
Qed.

(** C17. [test_with_tmpdir_fixture] passes for the repository's
    [create_df], for every [tmpdir] and every prior content of the file
    system, and it passes for every frame satisfying the round trip's
    conditions in place of [create_df]. *)
Theorem test_with_tmpdir_fixture_passes :
  (forall tmpdir fs, PytestFixtures.run_test PytestFixtures.create_df tmpdir fs = Passed) /\
  (forall df tmpdir fs, frame_okb df = true -> PytestFixtures.run_test (Ok df) tmpdir fs = Passed).
Proof.
  split; [|exact run_test_ok].
  intros tmpdir fs. apply run_test_ok. vm_compute. reflexivity.
Qed.

(** The frames [read_csv] returns are well formed: all their
    columns have the same length, the number of data rows. *)
Theorem read_csv_columns_same_length (s : string) (df : DataFrame) :
  read_csv_text s = Ok df ->
  exists k, Forall (fun '(_, c) => column_len c = k) (df_columns df).
Proof.
  unfold read_csv_text. destruct (lex (list_ascii_of_string s)) as [rows|e]; cbn [bind]; [|discriminate].
  destruct rows as [|header data]; [discriminate|].
  destruct (check_rows _ 2 data); cbn [bind]; [|discriminate].
  intros E. injection E as <-. exists (List.length data). cbn [df_columns].
  apply Forall_forall. intros [n c] Hin. apply in_combine_r, in_map_iff in Hin as (j & <- & _).
  rewrite infer_column_len. apply length_map.
Qed.

(** Termination of pandas' renaming of duplicate names: the
    [while cur_count > 0] loop, given one turn more than there are
    recorded names, always stops on a name not yet used. *)
Theorem dedup_loop_terminates (counts : list (string * nat)) (col : string) :
  snd (dedup_loop (S (List.length counts)) counts col (count_of counts col)) = 0%nat.
Proof.
  apply dedup_loop_done.
  assert (H := filter_length_le (fun k => Nat.leb (String.length col) (String.length k)) (map fst counts)).
  rewrite length_map in H. lia.
Qed.

(** The boundaries of the fixture test: it passes for int64
    columns at both ends of the range and for a uint64 column (a value
    [2^63]), and fails for a column below [-2^63] (numpy keeps Python
    ints, read back as strings) and for an int64 frame with no row (read
    back with object columns). *)
Example fixture_boundaries :
  PytestFixtures.run_test (pd_DataFrame [("a", [2 ^ 63 - 1; - 2 ^ 63])]%Z%string) "/tmp" [] = Passed /\
  PytestFixtures.run_test (pd_DataFrame [("a", [2 ^ 63])]%Z%string) "/tmp" [] = Passed /\
  PytestFixtures.run_test (pd_DataFrame [("a", [- 2 ^ 63 - 1])]%Z%string) "/tmp" [] = AssertionFailed /\
  PytestFixtures.run_test (Ok (mk_df [("a", Int64Col [])]%string)) "/tmp" [] = AssertionFailed.
Proof. split_and; vm_compute; reflexivity. Qed.

(** ** Witnesses *)

Lemma read_csv_to_csv_roundtrip_witness :
  read_csv "/tmp/df.csv" (to_csv (mk_df [("a", Int64Col [1; 2]); ("b", Int64Col [2; 3])]%Z%string)
                                "/tmp/df.csv" []) =
  Ok (mk_df [("a", Int64Col [1; 2]); ("b", Int64Col [2; 3])]%Z%string).
Proof. apply read_csv_to_csv_roundtrip. vm_compute. reflexivity. Defined.

Lemma read_csv_columns_same_length_witness :
  exists k, Forall (fun '(_, c) => column_len c = k)
                   (df_columns (mk_df [("a", Int64Col [1; 2]); ("b", Int64Col [2; 3])]%Z%string)).
Proof.
  apply (read_csv_columns_same_length "a,b
1,2
2,3
"%string). vm_compute. reflexivity.
Defined.
