(* ===== verification/PytestSolutionsMain.v ===== *)
(** * The pytest session of [src/pytest/solutions.py]

    [if __name__ == '__main__': pytest.main([__file__])] collects the
    module's test items in file order.  [create_df] and [create_data] are
    fixtures, not tests.  The items are [test_with_tmpdir_fixture], the
    two parametrized cases of [test_integrate] and [test_some_exception].
    pytest names a parametrized case by its parameter ids: [fun0] and
    [fun1] for the lambdas, [0.5] and [1] for the numbers.  Each item runs
    as its model in [PandasFixtures], [NumPyFloat] and [Doctests]
    ([PytestSolutions]).  The file system and [tmpdir] are inputs. *)

From Stdlib Require Import List String Floats.
From S2P Require Import Prelude Pytest NumPyFloat Doctests PandasFixtures.
Import ListNotations.

Module PytestSolutionsMain.

(** The ids pytest gives the cases of [test_integrate_cases_f]. *)
Definition test_integrate_ids : list string := ["fun0-0.5"; "fun1-1"]%string.

(** The collected items and their outcomes, for the [tmpdir] pytest
    provides and the file system as the session finds it. *)
Definition collect (tmpdir : string) (fs : filesystem) : list item :=
  [("solutions.py::test_with_tmpdir_fixture",
     PytestFixtures.run_test PytestFixtures.create_df tmpdir fs)]%string ++
  map (fun '(id, (fn, integral)) =>
         (("solutions.py::test_integrate[" ++ id ++ "]")%string, test_integrate_f fn integral))
      (combine test_integrate_ids test_integrate_cases_f) ++
  [("solutions.py::test_some_exception", PytestSolutions.test_some_exception)]%string.

Definition main (tmpdir : string) (fs : filesystem) : exit_code * string :=
  pytest_main (collect tmpdir fs).

End PytestSolutionsMain.

(** [pytest.main([__file__])] on [src/pytest/solutions.py] collects
    four items and passes them all, whatever [tmpdir] and whatever the file
    system holds: exit code 0 and the summary [4 passed].  The fixture
    test's CSV round trip, the two binary64 trapezoid integrals compared
    with [==], and the [ZeroDivisionError('O.o')] check all pass. *)
Theorem pytest_solutions_main_passes (tmpdir : string) (fs : filesystem) :
  List.map fst (PytestSolutionsMain.collect tmpdir fs) =
    ["solutions.py::test_with_tmpdir_fixture"; "solutions.py::test_integrate[fun0-0.5]";
     "solutions.py::test_integrate[fun1-1]"; "solutions.py::test_some_exception"]%string /\
  PytestSolutionsMain.main tmpdir fs = (OK, "4 passed"%string).
Proof.
  assert (Hdf : PytestFixtures.run_test PytestFixtures.create_df tmpdir fs = Passed)
    by (apply run_test_ok; vm_compute; reflexivity).
  unfold PytestSolutionsMain.main, PytestSolutionsMain.collect. rewrite Hdf.
  split; [reflexivity|]. vm_compute. reflexivity.
Qed.
