(* ===== verification/TestAdamsPatch.v ===== *)
(** * The pytest suite of Adam's Patch, [src/adams_patch/test_adams_patch.py]

    Each test function is a definition returning the [outcome] of one run.
    A parametrised test takes the parameters of one case, and its
    [parametrize] list is a definition of its own.  The tests call the
    solver through the [Quadrature] and [RootFinder] interfaces, like the
    rest of Adam's Patch.  [test_suite] is what pytest collects: every
    case of every test, in the file's order.

    Float literals of the tests ([1e-4], [14/3], [2.608058909292573]) are
    read as the rationals they denote.  The tests compare with tolerances
    of at least [1e-7] relative, so the last bit of a literal never
    decides an outcome.  [npt.assert_allclose] is numpy's check
    [|actual - desired| <= rtol * |desired|], with its defaults
    [rtol = 1e-7] and [atol = 0], on arrays of the same shape.

    The main theorem, [adams_patch_suite_passes], says that every case
    passes for every quadrature that is exact on quadratic polynomials and
    every root finder with [xtol <= 1e-7].  Simpson's rule and
    [bisection_1e8] of [NumericsImpl] are such instances.  The regression
    value of [test_optimize_patch_area]'s third case needs the most care.
    Its target mixes the outer root search with an inner inverse that is
    itself only accurate to [xtol]. *)

From Stdlib Require Import QArith Qminmax Qabs Lqa ZArith Lia List String.
From S2P Require Import Prelude Numerics NumericsImpl NumPy InverseArea CoveredArea PatchOptimizer.
Import ListNotations.
Open Scope Q_scope.
Open Scope py_scope.

(** The lambdas of the test file. *)
Definition f_one (x : Q) : Q := 0 * x + 1.
Definition f_id (x : Q) : Q := 1 * x + 0.
Definition f_sq1 (x : Q) : Q := 1 * (x * x) + 1.
Definition f_x (x : Q) : Q := x.
Definition f_sq (x : Q) : Q := x * x + 1.

(** [assert lo < v < hi]. *)
Definition assert_between (lo v hi : Q) : outcome :=
  if andb (negb (Qle_bool v lo)) (negb (Qle_bool hi v)) then Passed else AssertionFailed.

(** [npt.assert_allclose(actual, desired)] on arrays of pairs, with
    [rtol = 1e-7] and [atol = 0]. *)
Definition allclose_entry (a d : Q) : bool :=
  Qle_bool (Qabs (a - d)) ((1 # 10000000) * Qabs d).

Definition assert_allclose (actual desired : list (Q * Q)) : outcome :=
  if andb (Nat.eqb (List.length actual) (List.length desired))
          (forallb (fun '((a1, a2), (d1, d2)) => andb (allclose_entry a1 d1) (allclose_entry a2 d2))
                   (combine actual desired))
  then Passed else AssertionFailed.

Section Tests.
Context `{QD : Quadrature} `{RF : RootFinder}.

Definition area_under_curve_cases : list ((Q -> Q) * (Q * Q) * Q) :=
  [(f_one, (0, 1), 1); (f_id, (0, 1), 1 # 2); (f_sq1, (0, 2), 14 # 3)].

Definition test_area_under_curve (fn : Q -> Q) (xmin_xmax : Q * Q) (integral : Q) : outcome :=
  let integral_actual := area_under_curve fn (fst xmin_xmax) (snd xmin_xmax) in
  assert_between (integral - (1 # 10000)) integral_actual (integral + (1 # 10000)).

Definition compute_inverse_function_value_cases : list ((Q -> Q) * Q * (Q * Q) * Q) :=
  [(f_x, 2, (-1, 3), 2); (f_sq, 5, (0, 4), 2)].

Definition test_compute_inverse_function_value (fn : Q -> Q) (y : Q) (xmin_xmax : Q * Q)
    (x : Q) : outcome :=
  match compute_inverse_function_value (fun t => Ok (fn t)) y (fst xmin_xmax) (snd xmin_xmax) with
  | Err e => Raised e
  | Ok x_actual => assert_between (x - (1 # 10000)) x_actual (x + (1 # 10000))
  end.

Definition test_inverse_area_under_curve : outcome :=
  let xmin := 0 in
  let xmax := 4 in
  let area := 2 in
  let x_expected := 2 in
  let f := f_x in
  let area_fun := fun x => Ok (area_under_curve f xmin x) in
  match inverse_area_under_curve area_fun area xmin xmax with
  | Err e => Raised e
  | Ok x_actual => assert_between (x_expected - (1 # 10000)) x_actual (x_expected + (1 # 10000))
  end.

Definition test_compute_covered_area : outcome :=
  let f := f_one in
  let area_patch := 1 in
  let npatches := 2%Z in
  let w := 1 in
  match compute_covered_area f area_patch npatches w 0 10 with
  | Err e => Raised e
  | Ok (total_area_covered, separator_locations) =>
      if Qeq_bool total_area_covered 3
      then assert_allclose separator_locations [(1, 2)]
      else AssertionFailed
  end.

(** [optimize_patch_area('f', 0, 1, 2, 1)]: the string ['f'] is never
    called, so the test takes whatever function stands for it. *)
Definition test_that_optimize_patch_area_raises_value_error (f : Q -> Q) : outcome :=
  pytest_raises is_value_error (optimize_patch_area f 0 1 2 1) (fun _ => Passed).

Definition optimize_patch_area_cases : list ((Q -> Q) * (Q * Q) * Z * Q * Q) :=
  [(f_one, (0, 4), 0%Z, 10, 4); (f_one, (0, 4), 3%Z, 1 # 2, 1);
   (f_id, (0, 4), 2%Z, 1, 2608058909292573 # 1000000000000000)].

Definition test_optimize_patch_area (fn : Q -> Q) (xmin_xmax : Q * Q) (npatches : Z)
    (w area_patch : Q) : outcome :=
  match optimize_patch_area fn (fst xmin_xmax) (snd xmin_xmax) npatches w with
  | Err e => Raised e
  | Ok area_patch_actual =>
      if Qle_bool (1 # 100000) (Qabs (area_patch_actual - area_patch))
      then AssertionFailed else Passed
  end.

(** Every case pytest collects from the file, in order. *)
Definition test_suite (f_str : Q -> Q) : list outcome :=
  map (fun '(fn, xx, i) => test_area_under_curve fn xx i) area_under_curve_cases ++
  map (fun '(fn, y, xx, x) => test_compute_inverse_function_value fn y xx x)
      compute_inverse_function_value_cases ++
  [test_inverse_area_under_curve; test_compute_covered_area;
   test_that_optimize_patch_area_raises_value_error f_str] ++
  map (fun '(fn, xx, n, w, a) => test_optimize_patch_area fn xx n w a)
      optimize_patch_area_cases.

End Tests.

(** ** Localising a root search *)

Section Localise.
Context `{RF : RootFinder}.

(** When every pair [x <= y] of points at which [g] changes sign has
    [x <= hi] and [lo <= y], [brentq] returns a point of
    [[lo - xtol, hi + xtol]]. *)
Lemma brentq_localized (g : Q -> res Q) (a b lo hi : Q) :
  a <= b -> sign_change g a b ->
  (forall x, a <= x <= b -> exists v, g x = Ok v) ->
  (forall x y, a <= x -> x <= y -> y <= b -> sign_change g x y -> x <= hi /\ lo <= y) ->
  exists r, brentq g a b = Ok r /\ lo - xtol <= r <= hi + xtol.
Proof.
  intros Hab Hs Htot Hloc.
  destruct (brentq_total g a b Hab Hs Htot) as [r Hr].
  destruct (brentq_sound g a b r Hab Hr) as (l & u & Hl & Hu & Hw & Hlu).
  destruct (Hloc l u ltac:(lra) ltac:(lra) ltac:(lra) Hlu).
  exists r. split; [exact Hr | lra].
Qed.

(** A target that is non-negative only left of [hi] and non-positive
    only right of [lo], with the right signs at the ends. *)
Lemma brentq_decreasing (g : Q -> res Q) (a b lo hi : Q) :
  a <= b ->
  (forall x, a <= x <= b -> exists v, g x = Ok v /\
      (0 <= v -> x <= hi) /\ (v <= 0 -> lo <= x)) ->
  (exists v, g a = Ok v /\ 0 <= v) -> (exists v, g b = Ok v /\ v <= 0) ->
  exists r, brentq g a b = Ok r /\ lo - xtol <= r <= hi + xtol.
Proof.
  intros Hab Hband (va & Ha & Hva) (vb & Hb & Hvb).
  apply brentq_localized; [exact Hab | exists va, vb; split_and; auto; nra | |].
  - intros x Hx. destruct (Hband x Hx) as (v & Hv & _). eauto.
  - intros x y Hax Hxy Hyb (gx & gy & Hgx & Hgy & Hprod).
    destruct (Hband x ltac:(lra)) as (vx & Hvx & Hx1 & Hx2).
    destruct (Hband y ltac:(lra)) as (vy & Hvy & Hy1 & Hy2).
    rewrite Hgx in Hvx. rewrite Hgy in Hvy.
    injection Hvx as <-. injection Hvy as <-.
    destruct (Qlt_le_dec gx 0) as [Hx | Hx]; destruct (Qlt_le_dec 0 gy) as [Hy | Hy].
    + pose proof (Hy1 ltac:(lra)). pose proof (Hx2 ltac:(lra)). lra.
    + assert (gy == 0) by nra.
      pose proof (Hy1 ltac:(lra)). pose proof (Hy2 Hy). lra.
    + assert (gx == 0) by nra.
      pose proof (Hx1 Hx). pose proof (Hx2 ltac:(lra)). lra.
    + split; [apply Hx1 | apply Hy2]; assumption.
Qed.

(** Inverting a function that increases on [[a, b]] and takes the value
    [y] at [x0] gives back [x0] to within [xtol]. *)
Lemma inverse_increasing (F : Q -> Q) (y a b x0 : Q) :
  a <= x0 <= b -> F x0 == y ->
  (forall x z, a <= x -> x <= z -> z <= b -> F x <= F z) ->
  (forall x z, a <= x -> x < z -> z <= b -> F x < F z) ->
  exists r, compute_inverse_function_value (fun t => Ok (F t)) y a b = Ok r /\
            x0 - xtol <= r <= x0 + xtol.
Proof.
  intros Hx0 Hy Hle Hlt. unfold compute_inverse_function_value. cbn [bind].
  apply brentq_localized; [lra | | intros; eauto |].
  - pose proof (Hle a x0 ltac:(lra) ltac:(lra) ltac:(lra)).
    pose proof (Hle x0 b ltac:(lra) ltac:(lra) ltac:(lra)).
    exists (F a - y), (F b - y). split_and; auto. nra.
  - intros x z Hax Hxz Hzb (gx & gz & Hgx & Hgz & Hprod). inv_res.
    split; apply Qnot_lt_le; intros Hc.
    + pose proof (Hlt x0 x ltac:(lra) Hc ltac:(lra)).
      pose proof (Hle x z ltac:(lra) Hxz Hzb). nra.
    + pose proof (Hlt z x0 ltac:(lra) Hc ltac:(lra)).
      pose proof (Hle x z Hax Hxz ltac:(lra)). nra.
Qed.

End Localise.

(** ** Checks of the test functions *)

Lemma assert_between_pass (lo v hi : Q) : lo < v < hi -> assert_between lo v hi = Passed.
Proof. intros H. unfold assert_between. repeat qcase; try reflexivity; lra. Qed.

Lemma allclose_entry_true (a d : Q) :
  Qabs (a - d) <= (1 # 10000000) * Qabs d -> allclose_entry a d = true.
Proof. intros H. unfold allclose_entry. now apply Qle_bool_iff. Qed.

(** [optimize_patch_area] past its guard and its [npatches = 0] short
    cut is one [brentq] call on the widened bracket. *)
Lemma optimize_patch_area_brentq `{QD : Quadrature} `{RF : RootFinder}
    (f : Q -> Q) (xmin xmax : Q) (n : Z) (w fm : Q) :
  Qle_bool (xmax - xmin) (w * inject_Z (n - 1)) = false -> n <> 0%Z ->
  np_max (map f (linspace xmin xmax 100)) = Ok fm ->
  optimize_patch_area f xmin xmax n w =
  brentq (optimize_target f (area_under_curve f xmin xmax) n w xmin xmax)
         (area_patch_min (area_under_curve f xmin xmax) w fm n * (9 # 10))
         (area_patch_max (area_under_curve f xmin xmax) n * (11 # 10)).
Proof.
  intros Hg Hn Hm. unfold optimize_patch_area. rewrite Hg, Hm.
  apply Z.eqb_neq in Hn. now rewrite Hn.
Qed.

(** The two ends of the bracket, from the total area [T0] and the
    sampled maximum [fm0]. *)
Lemma bracket_values (T T0 w fm fm0 c : Q) (n : Z) :
  T == T0 -> fm == fm0 -> 0 <= c ->
  (T0 - w * fm0 * inject_Z (n - 1)) / inject_Z n <= c ->
  0 <= area_patch_min T w fm n * (9 # 10) <= c * (9 # 10) /\
  area_patch_max T n * (11 # 10) == T0 / inject_Z n * (11 # 10).
Proof.
  intros HT Hfm Hc Hle. split.
  - assert (0 <= area_patch_min T w fm n <= c); [|lra].
    unfold area_patch_min. split; [apply Q.le_max_r | apply Q.max_lub; [|exact Hc]].
    rewrite HT, Hfm. exact Hle.
  - unfold area_patch_max. rewrite HT. reflexivity.
Qed.

Lemma np_max_f_one : exists fm, np_max (map f_one (linspace 0 4 100)) = Ok fm /\ fm == 1.
Proof. eexists. split; [vm_compute; reflexivity | qcompute]. Qed.

Lemma np_max_f_id : exists fm, np_max (map f_id (linspace 0 4 100)) = Ok fm /\ fm == 4.
Proof. eexists. split; [vm_compute; reflexivity | qcompute]. Qed.

(** The arithmetic of the third case.  The patch area [p] and the end
    [x] of the first patch satisfy [x * x = 2 p] up to [xtol], and the
    target is [7.5 - 2 p - x]; its root [4 - sqrt(31) / 4] lies in
    [[2.608058, 2.60806]]. *)
Lemma case3_upper (p u : Q) :
  0 <= u -> u <= (15 # 2) - 2 * p + (1 # 10000000) -> 2 * p <= u * u -> p <= 130403 # 50000.
Proof.
  intros Hu Hc Hsq. apply Qnot_lt_le. intros Hp.
  assert (u * u <= ((15 # 2) - 2 * p + (1 # 10000000)) * ((15 # 2) - 2 * p + (1 # 10000000)))
    by nra.
  nra.
Qed.

Lemma case3_lower (p l : Q) :
  0 <= l -> (15 # 2) - 2 * p - (1 # 10000000) <= l -> l * l <= 2 * p -> 1304029 # 500000 <= p.
Proof.
  intros Hl Hc Hsq. apply Qnot_lt_le. intros Hp.
  assert (((15 # 2) - 2 * p - (1 # 10000000)) * ((15 # 2) - 2 * p - (1 # 10000000)) <= l * l)
    by nra.
  nra.
Qed.

(** ** The suite under a quadrature exact on quadratics *)

Section Suite.
Context `{QD : Quadrature} `{RF : RootFinder}.

Hypothesis quad_exact : forall (f : Q -> Q) (c0 c1 c2 : Q),
  (forall x, f x == c0 + c1 * x + c2 * (x * x)) ->
  forall a b, quad f a b == (c0 * b + c1 * (b * b) / 2 + c2 * (b * b * b) / 3)
                            - (c0 * a + c1 * (a * a) / 2 + c2 * (a * a * a) / 3).
Hypothesis xtol_small : xtol <= 1 # 10000000.

Lemma area_f_one (a b : Q) : area_under_curve f_one a b == b - a.
Proof.
  unfold area_under_curve. rewrite (quad_exact f_one 1 0 0) by (intros; unfold f_one; ring).
  field.
Qed.

Lemma area_f_id (a b : Q) : area_under_curve f_id a b == (b * b - a * a) / 2.
Proof.
  unfold area_under_curve. rewrite (quad_exact f_id 0 1 0) by (intros; unfold f_id; ring).
  field.
Qed.

Lemma area_f_x (a b : Q) : area_under_curve f_x a b == (b * b - a * a) / 2.
Proof.
  unfold area_under_curve. rewrite (quad_exact f_x 0 1 0) by (intros; unfold f_x; ring).
  field.
Qed.

Lemma area_f_sq1 (a b : Q) :
  area_under_curve f_sq1 a b == (b - a) + (b * b * b - a * a * a) / 3.
Proof.
  unfold area_under_curve. rewrite (quad_exact f_sq1 1 0 1) by (intros; unfold f_sq1; ring).
  field.
Qed.

Lemma area_under_curve_cases_pass :
  Forall (fun '(fn, xx, i) => test_area_under_curve fn xx i = Passed) area_under_curve_cases.
Proof.
  repeat constructor; unfold test_area_under_curve; cbn [fst snd];
    apply assert_between_pass;
    first [rewrite area_f_one | rewrite area_f_id | rewrite area_f_sq1]; split; qcompute.
Qed.

(** A test that inverts an increasing function at a known point passes. *)
Lemma inverse_test_passes (F : Q -> Q) (y a b x0 : Q) :
  a <= x0 <= b -> F x0 == y ->
  (forall x z, a <= x -> x <= z -> z <= b -> F x <= F z) ->
  (forall x z, a <= x -> x < z -> z <= b -> F x < F z) ->
  match compute_inverse_function_value (fun t => Ok (F t)) y a b with
  | Err e => Raised e
  | Ok x_actual => assert_between (x0 - (1 # 10000)) x_actual (x0 + (1 # 10000))
  end = Passed.
Proof.
  intros Hx0 Hy Hle Hlt.
  destruct (inverse_increasing F y a b x0 Hx0 Hy Hle Hlt) as (r & -> & Hr).
  apply assert_between_pass. pose proof xtol_pos. lra.
Qed.

Lemma compute_inverse_function_value_cases_pass :
  Forall (fun '(fn, y, xx, x) => test_compute_inverse_function_value fn y xx x = Passed)
    compute_inverse_function_value_cases.
Proof.
  repeat constructor; unfold test_compute_inverse_function_value; cbn [fst snd];
    apply inverse_test_passes; unfold f_x, f_sq; intros; try split; try qcompute; nra.
Qed.

Lemma test_inverse_area_under_curve_passes : test_inverse_area_under_curve = Passed.
Proof.
  apply (inverse_test_passes (area_under_curve f_x 0)); intros; rewrite ?area_f_x;
    try split; try qcompute; try (apply Qdiv_le_mono_pos; nra).
  unfold Qdiv. apply Qmult_lt_r; [qcompute | nra].
Qed.

(** The cumulative area of [f_one] from [0] is the identity, so inverting
    it at [y] returns [y] to within [xtol]. *)
Lemma inverse_f_one (y xmax : Q) : 0 <= y <= xmax ->
  exists r, inverse_area_under_curve (area_fun f_one 0) y 0 xmax = Ok r /\
            y - xtol <= r <= y + xtol.
Proof.
  intros Hy. apply (inverse_increasing (area_under_curve f_one 0));
    intros; rewrite ?area_f_one; lra.
Qed.

Lemma test_compute_covered_area_passes : test_compute_covered_area = Passed.
Proof.
  destruct (inverse_f_one 1 10 ltac:(split; qcompute)) as (r & Hr & Hb).
  unfold test_compute_covered_area, compute_covered_area.
  change (Z.to_nat (2 - 1)) with 1%nat. cbn [covered_loop covered_step].
  rewrite Hr. cbn [bind covered_loop app].
  qcase; [| rewrite area_f_one in Hq; lra].
  unfold assert_allclose. cbn [List.length combine forallb Nat.eqb].
  pose proof xtol_pos.
  rewrite !allclose_entry_true; [reflexivity | |];
    apply Qabs_Qle_condition; cbn; lra.
Qed.

Lemma test_that_optimize_patch_area_raises_value_error_passes (f : Q -> Q) :
  test_that_optimize_patch_area_raises_value_error f = Passed.
Proof. reflexivity. Qed.

Lemma optimize_case1_passes : test_optimize_patch_area f_one (0, 4) 0 10 4 = Passed.
Proof.
  unfold test_optimize_patch_area, optimize_patch_area. cbn [fst snd].
  change (Qle_bool (4 - 0) (10 * inject_Z (0 - 1))) with false. cbn [Z.eqb].
  qcase; [|reflexivity]. rewrite area_f_one in Hq.
  exfalso. apply (Qle_not_lt _ _ Hq). reflexivity.
Qed.

(** Second case: with [f = 1] on [[0, 4]], three patches and [w = 0.5],
    the two separators always cover [0.5] each, whatever point the inner
    inverse returns, so [target(p) = 3 - 3 p] wherever it is defined. *)
Lemma target_case2 (T p : Q) : T == 4 -> 0 <= p <= 7 # 4 ->
  exists v, optimize_target f_one T 3 (1 # 2) 0 4 p = Ok v /\ v == 3 - 3 * p.
Proof.
  intros HT Hp.
  destruct (inverse_f_one p 4 ltac:(lra)) as (r1 & H1 & _).
  destruct (inverse_f_one (p + (area_under_curve f_one r1 (r1 + (1 # 2)) + p)) 4)
    as (r2 & H2 & _); [rewrite area_f_one; lra|].
  unfold optimize_target, compute_covered_area. change (Z.to_nat (3 - 1)) with 2%nat.
  cbn [covered_loop covered_step]. rewrite H1. cbn [bind covered_step]. rewrite H2. cbn [bind covered_loop].
  eexists. split; [reflexivity|]. rewrite HT, !area_f_one. ring.
Qed.

Lemma optimize_case2_passes : test_optimize_patch_area f_one (0, 4) 3 (1 # 2) 1 = Passed.
Proof.
  destruct np_max_f_one as (fm & Hfm & Hfm1).
  unfold test_optimize_patch_area. cbn [fst snd].
  rewrite (optimize_patch_area_brentq _ _ _ _ _ fm); [| reflexivity | discriminate | exact Hfm].
  assert (HT : area_under_curve f_one 0 4 == 4) by (rewrite area_f_one; reflexivity).
  destruct (bracket_values _ 4 (1 # 2) fm 1 1 3 HT Hfm1 ltac:(lra) ltac:(qcompute))
    as [Ha Hb].
  pose proof xtol_pos.
  set (T := area_under_curve f_one 0 4) in *.
  set (a := area_patch_min T (1 # 2) fm 3 * (9 # 10)) in *.
  set (b := area_patch_max T 3 * (11 # 10)) in *.
  assert (Hb' : b == 22 # 15) by (rewrite Hb; reflexivity).
  destruct (brentq_decreasing (optimize_target f_one T 3 (1 # 2) 0 4) a b 1 1)
    as (r & -> & Hr); [lra | | | |].
  - intros x Hx. destruct (target_case2 T x HT ltac:(lra)) as (v & Hv & Hvx).
    exists v. split; [exact Hv | split; intros; lra].
  - destruct (target_case2 T a HT ltac:(lra)) as (v & Hv & Hvx).
    exists v. split; [exact Hv | lra].
  - destruct (target_case2 T b HT ltac:(lra)) as (v & Hv & Hvx).
    exists v. split; [exact Hv | lra].
  - qcase; [|reflexivity]. exfalso. apply (Qle_not_lt _ _ Hq).
    apply Qabs_Qlt_condition. lra.
Qed.

(** The cumulative area of [f_id] from [0] is [x * x / 2]: its inverse at
    [p] lies in an interval [[l, u]] at most [xtol] wide with
    [l * l <= 2 p <= u * u]. *)
Lemma inverse_f_id (p : Q) : 0 <= p <= 8 ->
  exists x, inverse_area_under_curve (area_fun f_id 0) p 0 4 = Ok x /\
    exists l u, 0 <= l <= x /\ x <= u /\ u - l <= xtol /\ l * l <= 2 * p <= u * u.
Proof.
  intros Hp.
  assert (Hs : sign_change (fun t => let* v := area_fun f_id 0 t in Ok (v - p)) 0 4).
  { exists (area_under_curve f_id 0 0 - p), (area_under_curve f_id 0 4 - p).
    split_and; try reflexivity. rewrite !area_f_id.
    setoid_replace ((0 * 0 - 0 * 0) / 2 - p) with (- p) by field.
    setoid_replace ((4 * 4 - 0 * 0) / 2 - p) with (8 - p) by field. nra. }
  destruct (brentq_total _ 0 4 ltac:(lra) Hs ltac:(intros; cbn; eauto)) as [x Hx].
  exists x. split; [exact Hx|].
  destruct (brentq_sound _ 0 4 x ltac:(lra) Hx)
    as (l & u & Hl & Hu & Hw & gl & gu & Hgl & Hgu & Hprod).
  cbn in Hgl, Hgu. inv_res. rewrite !area_f_id in Hprod.
  assert (Hp2 : (l * l - 2 * p) * (u * u - 2 * p) <= 0).
  { setoid_replace ((l * l - 2 * p) * (u * u - 2 * p))
      with (4 * (((l * l - 0 * 0) / 2 - p) * ((u * u - 0 * 0) / 2 - p))) by field.
    lra. }
  assert (l * l <= u * u) by nra.
  exists l, u. split_and; try lra; apply Qnot_lt_le; intros Hc.
  - assert (0 < (l * l - 2 * p) * (u * u - 2 * p)) by (apply Qmult_lt_0_compat; lra). lra.
  - assert (0 < (2 * p - l * l) * (2 * p - u * u)) by (apply Qmult_lt_0_compat; lra). nra.
Qed.

(** Third case: [f(x) = x] on [[0, 4]], two patches, [w = 1]. *)
Lemma target_case3 (T p : Q) : T == 8 -> 0 <= p <= 8 ->
  exists v, optimize_target f_id T 2 1 0 4 p = Ok v /\
    exists l u x, 0 <= l <= x /\ x <= u /\ u - l <= xtol /\ l * l <= 2 * p <= u * u /\
      v == (15 # 2) - 2 * p - x.
Proof.
  intros HT Hp. destruct (inverse_f_id p Hp) as (x & Hx & l & u & Hlu).
  unfold optimize_target, compute_covered_area. change (Z.to_nat (2 - 1)) with 1%nat.
  cbn [covered_loop covered_step]. rewrite Hx. cbn [bind covered_loop].
  eexists. split; [reflexivity|]. exists l, u, x. split_and; try tauto.
  rewrite HT, area_f_id. field.
Qed.

Lemma optimize_case3_passes :
  test_optimize_patch_area f_id (0, 4) 2 1 (2608058909292573 # 1000000000000000) = Passed.
Proof.
  destruct np_max_f_id as (fm & Hfm & Hfm4).
  unfold test_optimize_patch_area. cbn [fst snd].
  rewrite (optimize_patch_area_brentq _ _ _ _ _ fm); [| reflexivity | discriminate | exact Hfm].
  assert (HT : area_under_curve f_id 0 4 == 8) by (rewrite area_f_id; reflexivity).
  destruct (bracket_values _ 8 1 fm 4 2 2 HT Hfm4 ltac:(lra) ltac:(qcompute)) as [Ha Hb].
  pose proof xtol_pos.
  set (T := area_under_curve f_id 0 4) in *.
  set (a := area_patch_min T 1 fm 2 * (9 # 10)) in *.
  set (b := area_patch_max T 2 * (11 # 10)) in *.
  assert (Hb' : b == 22 # 5) by (rewrite Hb; reflexivity).
  destruct (brentq_decreasing (optimize_target f_id T 2 1 0 4) a b
              (1304029 # 500000) (130403 # 50000)) as (r & -> & Hr); [lra | | | |].
  - intros p Hp. destruct (target_case3 T p HT ltac:(lra)) as (v & Hv & l & u & x & Hl).
    exists v. split; [exact Hv|]. split; intros Hsign.
    + apply (case3_upper p u); lra.
    + apply (case3_lower p l); lra.
  - destruct (target_case3 T a HT ltac:(lra)) as (v & Hv & l & u & x & Hl).
    exists v. split; [exact Hv|].
    assert (l <= 19 # 10) by (apply Qnot_lt_le; intros Hc; nra). lra.
  - destruct (target_case3 T b HT ltac:(lra)) as (v & Hv & l & u & x & Hl).
    exists v. split; [exact Hv | lra].
  - qcase; [|reflexivity]. exfalso. apply (Qle_not_lt _ _ Hq).
    apply Qabs_Qlt_condition. lra.
Qed.

(** C12. Every case pytest collects from [test_adams_patch.py] passes
    (the three integrals, the two inverses, the inverse of the area, the
    covered area and its separator, the [ValueError] for unsatisfiable
    constraints, and the three optimised patch areas including the
    regression value [2.608058909292573]). This holds for every quadrature
    that is exact on quadratic polynomials and every root finder with
    [xtol <= 1e-7], whatever stands for the string ['f']. *)
Theorem adams_patch_suite_passes (f_str : Q -> Q) :
  Forall (fun o => o = Passed) (test_suite f_str).
Proof.
  unfold test_suite. rewrite !Forall_app. split_and.
  - apply Forall_map. eapply Forall_impl; [|exact area_under_curve_cases_pass].
    intros [[fn xx] i]. exact (fun H => H).
  - apply Forall_map. eapply Forall_impl; [|exact compute_inverse_function_value_cases_pass].
    intros [[[fn y] xx] x]. exact (fun H => H).
  - constructor; [exact test_inverse_area_under_curve_passes|].
    constructor; [exact test_compute_covered_area_passes|].
    constructor; [apply test_that_optimize_patch_area_raises_value_error_passes|].
    constructor.
  - constructor; [exact optimize_case1_passes|].
    constructor; [exact optimize_case2_passes|].
    constructor; [exact optimize_case3_passes|].
    constructor.
Qed.

End Suite.

#[local] Existing Instance bisection_1e8.

(** The regression value of [test_optimize_patch_area] (third case,
    [f(x) = x] on [0, 4], two patches, [w = 1]): the solver returns
    [2.608058909292573] to within the test's [1e-5], here with Simpson's
    rule and bisection to [1e-8]. *)
Example test_optimize_patch_area_regression :
  exists r, optimize_patch_area f_id 0 4 2 1 = Ok r /\
            Qabs (r - (2608058909292573 # 1000000000000000)) < 1 # 100000.
Proof. eexists. split; [vm_compute; reflexivity | qcompute]. Qed.
