(* ===== verification/AdamsPatchTests.v ===== *)
(** * Adam's Patch on the repository's own inputs

    The tests of [src/adams_patch/test_adams_patch.py] and the doctests of
    [adams_patch.py] run here on the executable instances of [NumericsImpl]
    (Simpson's rule, bisection to [1e-8]); each witness applies a theorem of
    [InverseArea], [CoveredArea] or [PatchOptimizer] at one of these inputs, its hypotheses
    discharged by evaluation. *)

From Stdlib Require Import QArith Qminmax Qabs Lqa ZArith Lia List String.
From S2P Require Import Prelude Numerics NumericsImpl NumPy InverseArea CoveredArea PatchOptimizer AdamsPatchDemo TestAdamsPatch.
Import ListNotations.
Open Scope Q_scope.
Open Scope py_scope.

#[local] Existing Instance bisection_1e8.


(** Three flowers' worth of random draws, at the ends and the middle of
    [[0, 1]]. *)
Definition witness_draws : draws :=
  mk_draws [0; 1 # 2; 1] [1 # 4; 3 # 4; 1] ["r"; "b"; "y"]%string [0; 1 # 2; 1].

Lemma cubic_f_one : cubic f_one.
Proof. exists 1, 0, 0, 0. intros x. unfold f_one. ring. Qed.

Lemma cubic_f_id : cubic f_id.
Proof. exists 0, 1, 0, 0. intros x. unfold f_id. ring. Qed.

Lemma cubic_main_area_function : cubic main_area_function.
Proof. exists 1, 0, 1, 0. intros x. unfold main_area_function. ring. Qed.

Lemma integrable_f_one : Integrable f_one.
Proof. exact cubic_f_one. Qed.

Lemma integrable_f_id : Integrable f_id.
Proof. exact cubic_f_id. Qed.

Lemma integrable_main : Integrable main_area_function.
Proof. exact cubic_main_area_function. Qed.

Lemma f_one_pos (x : Q) : 0 <= f_one x.
Proof. unfold f_one. lra. Qed.

Lemma f_one_le_1 (x : Q) : f_one x <= 1.
Proof. unfold f_one. lra. Qed.

(** ** Witnesses *)

(** [optimize_patch_area('f', 0, 1, 2, 1)] raises (the test), and so does a
    problem with no patch on an empty interval, against the spec's "returns
    the total area for any f, w". *)
Lemma optimize_patch_area_unsatisfiable_witness :
  optimize_patch_area f_one 0 1 2 1 = Err (ValueError unsatisfiable_msg) /\
  optimize_patch_area f_one 0 0 0 0 = Err (ValueError unsatisfiable_msg).
Proof.
  split.
  - apply (optimize_patch_area_unsatisfiable f_one 0 1 integrable_f_one ltac:(lra)
             (fun x _ => f_one_pos x)); [lia | lra | vm_compute; discriminate].
  - apply (optimize_patch_area_unsatisfiable f_one 0 0 integrable_f_one ltac:(lra)
             (fun x _ => f_one_pos x)); [lia | lra | vm_compute; discriminate].
Defined.

(** [test_optimize_patch_area], first case: no patch, [w = 10], area 4. *)
Lemma optimize_patch_area_no_patches_witness :
  optimize_patch_area f_one 0 4 0 10 = Ok (area_under_curve f_one 0 4) /\
  area_under_curve f_one 0 4 == 4.
Proof.
  split; [apply optimize_patch_area_no_patches; vm_compute; reflexivity
         | vm_compute; reflexivity].
Defined.

(** Twelve patches of a constant width on [0, 1], no separator width. *)
Lemma optimize_patch_area_many_patches_raise_witness :
  optimize_patch_area f_one 0 1 12 0 = Err (ValueError brentq_sign_msg).
Proof.
  apply (optimize_patch_area_many_patches_raise f_one 0 1 integrable_f_one ltac:(lra) f_one_pos);
    try lia; qcompute.
Defined.

(** [test_compute_covered_area]: [f = 1], one patch of area 1, two patches,
    [w = 1] on [0, 10]. *)
Lemma compute_covered_area_layout_witness :
  exists total seps,
    compute_covered_area f_one 1 2 1 0 10 = Ok (total, seps) /\
    List.length seps = 1%nat /\
    Forall (fun p => snd p = fst p + 1 /\ 0 <= fst p <= 10) seps /\
    total == 2 * 1 + qsum (map (sep_area f_one) seps).
Proof.
  do 2 eexists. split; [vm_compute; reflexivity|].
  apply (compute_covered_area_layout f_one 0 10 integrable_f_one ltac:(lra) (fun x _ => f_one_pos x) 1 2 1).
  vm_compute. reflexivity.
Defined.

Lemma compute_covered_area_refines_witness :
  exists r,
    compute_covered_area f_one 1 2 1 0 10 = Ok r /\
    layout_steps f_one 0 10 1 1 1 (1, []) r.
Proof.
  eexists. split; [vm_compute; reflexivity|].
  apply (compute_covered_area_refines f_one 0 10 integrable_f_one ltac:(lra) (fun x _ => f_one_pos x) 1 2 1).
  vm_compute. reflexivity.
Defined.

Lemma compute_covered_area_bounds_witness :
  exists total seps,
    compute_covered_area f_one 1 2 1 0 10 = Ok (total, seps) /\
    (let k := inject_Z (Z.of_nat (Z.to_nat (2 - 1))) in
     (k + 1) * 1 + k * (1 * 1) <= total <= (k + 1) * 1 + k * (1 * 1)).
Proof.
  do 2 eexists. split; [vm_compute; reflexivity|].
  eapply (compute_covered_area_bounds f_one 0 10 integrable_f_one ltac:(lra) f_one_pos
            1 2 1 1 1); [lra | intros x _; unfold f_one; lra | vm_compute; reflexivity].
Defined.

(** The inverse of [x |-> x] (area of [f = 1]) at the area up to 2 on [0, 3]. *)
Lemma inverse_area_under_curve_roundtrip_witness :
  exists x,
    inverse_area_under_curve (area_fun f_one 0) (area_under_curve f_one 0 2) 0 3 = Ok x /\
    2 - (1 # 100000000) <= x <= 2 + (1 # 100000000).
Proof.
  apply (inverse_area_under_curve_roundtrip f_one 0 3 integrable_f_one ltac:(lra)
           (fun x _ => f_one_pos x) 1 2); try lra.
  intros x _. unfold f_one. lra.
Defined.

Lemma f_id_pos_on (x : Q) : 0 <= x -> 0 <= f_id x.
Proof. unfold f_id. lra. Qed.

(** Out of range (area 4 of a total 3) it raises; the doctest's
    [inverse_area_under_curve(area_fun, 4.5, 0, 3)] for [f(x) = x] returns
    the right end [3.0]. *)
Lemma inverse_area_under_curve_raises_witness :
  inverse_area_under_curve (area_fun f_one 0) 4 0 3 = Err (ValueError brentq_sign_msg) /\
  inverse_area_under_curve (area_fun f_id 0) (9 # 2) 0 3 = Ok 3 /\
  match inverse_area_under_curve (area_fun f_one 0) 4 0 3 with
  | Ok _ => 0 <= 4 <= area_under_curve f_one 0 3
  | Err e => e = ValueError brentq_sign_msg /\ (4 < 0 \/ area_under_curve f_one 0 3 < 4)
  end /\
  match inverse_area_under_curve (area_fun f_id 0) (9 # 2) 0 3 with
  | Ok _ => 0 <= 9 # 2 <= area_under_curve f_id 0 3
  | Err e => e = ValueError brentq_sign_msg /\ (9 # 2 < 0 \/ area_under_curve f_id 0 3 < 9 # 2)
  end.
Proof.
  split_and; [vm_compute; reflexivity | vm_compute; reflexivity | |].
  - exact (inverse_area_under_curve_raises f_one 0 3 integrable_f_one ltac:(lra)
             (fun x _ => f_one_pos x) 4).
  - exact (inverse_area_under_curve_raises f_id 0 3 integrable_f_id ltac:(lra)
             (fun x Hx => f_id_pos_on x (proj1 Hx)) (9 # 2)).
Defined.

(** The doctest [compute_inverse_function_value(lambda x: x**2 + x + 1, 3, 0, 4)]. *)
Lemma compute_inverse_function_value_sound_witness :
  compute_inverse_function_value (fun x => Ok (x * x + x + 1)) 3 0 4 = Ok 1 /\
  exists l u vl vu, 0 <= l <= 1 /\ 1 <= u <= 4 /\ u - l <= xtol /\
    Ok (l * l + l + 1) = Ok vl /\ Ok (u * u + u + 1) = Ok vu /\ (vl - 3) * (vu - 3) <= 0.
Proof.
  split; [vm_compute; reflexivity|].
  apply (compute_inverse_function_value_sound (fun x => Ok (x * x + x + 1)) 3 0 4 1);
    [lra | vm_compute; reflexivity].
Defined.

(** The second case of [test_optimize_patch_area]: [f = 1] on [0, 4],
    three patches, separators of width 0.5; [f_max = 1]. *)
Lemma optimize_bracket_signs_witness :
  (forall g, optimize_target f_one (area_under_curve f_one 0 4) 3 (1 # 2) 0 4
               (area_patch_min (area_under_curve f_one 0 4) (1 # 2) 1 3 * (9 # 10)) = Ok g ->
             0 <= g) /\
  (forall g, optimize_target f_one (area_under_curve f_one 0 4) 3 (1 # 2) 0 4
               (area_patch_max (area_under_curve f_one 0 4) 3 * (11 # 10)) = Ok g -> g <= 0).
Proof.
  apply (optimize_bracket_signs f_one 0 4 integrable_f_one ltac:(lra) f_one_pos 3 (1 # 2) 1);
    [lra | lia | intros x _; apply f_one_le_1 | qcompute].
Defined.

(** The third case of [test_optimize_patch_area]: [f(x) = x] on [0, 4],
    two patches, [w = 1]. *)
Lemma optimize_patch_area_result_witness :
  exists r, optimize_patch_area f_id 0 4 2 1 = Ok r /\
  exists fm l u tl sl tu su,
    np_max (map f_id (linspace 0 4 100)) = Ok fm /\
    area_patch_min (area_under_curve f_id 0 4) 1 fm 2 * (9 # 10) <= l <= r /\
    r <= u <= area_patch_max (area_under_curve f_id 0 4) 2 * (11 # 10) /\
    u - l <= xtol /\
    compute_covered_area f_id l 2 1 0 4 = Ok (tl, sl) /\
    compute_covered_area f_id u 2 1 0 4 = Ok (tu, su) /\
    (area_under_curve f_id 0 4 - tl) * (area_under_curve f_id 0 4 - tu) <= 0.
Proof.
  eexists. split; [vm_compute; reflexivity|].
  apply (optimize_patch_area_result f_id 0 4 integrable_f_id ltac:(lra)
           (fun x Hx => f_id_pos_on x (proj1 Hx)) 2 1); [lra | lia | vm_compute; reflexivity].
Defined.

(** [test_compute_covered_area]'s problem returns. *)
Lemma compute_covered_area_returns_witness :
  exists r, compute_covered_area f_one 1 2 1 0 10 = Ok r.
Proof.
  apply (compute_covered_area_returns f_one 0 10 integrable_f_one ltac:(lra) f_one_pos 1 2 1 1);
    [lra | lra | intros x _; apply f_one_le_1 | qcompute].
Defined.

(** Simpson's rule is exact on quadratics and [bisection_1e8] has
    [xtol = 1e-8], so the whole pytest suite passes on them. *)
Lemma adams_patch_suite_passes_witness :
  Forall (fun o => o = Passed)
    (test_suite (QD := simpson_quadrature) (RF := bisection_1e8) f_one).
Proof.
  apply adams_patch_suite_passes; [| qcompute].
  intros f c0 c1 c2 Hf a b. cbn [quad simpson_quadrature].
  rewrite (simpson_exact f c0 c1 c2 0) by (intros x; rewrite Hf; ring). field.
Defined.

(** The demo's drawing with one separator on these draws: its legend
    names the separators once. *)
Lemma plot_layout_flowers_and_legend_witness :
  legend_labels (plot_layout main_flower main_fupper 0 3 [(1, 2)] witness_draws) =
  ["patches"; "flowers"; "separators"]%string.
Proof.
  destruct (plot_layout_flowers_and_legend main_flower main_fupper 0 3 [(1, 2)] witness_draws
              ltac:(qcompute) (fun x _ => ltac:(unfold main_flower, main_fupper; nra)) eq_refl)
    as [_ H].
  exact H.
Defined.
